(** * BotBid: an agent marketplace (Python / FastAPI)

    A shallow embedding of the parts of the service that its specification
    makes checkable statements about: the helper utilities
    ([utils/helpers.py]), the content policy scanner
    ([utils/content_moderation.py]), the Guardian moderator
    ([services/guardian_moderator.py]), the registration challenge
    ([utils/agent_verification.py]), the authentication dependencies
    ([utils/auth.py]) and the handlers of the agents, listings,
    transactions and ratings routers.

    Conventions.
    - A Python [str] is a [string] holding its UTF-8 bytes; [len] counts
      code points ([Text.char_length]) and [str.strip] removes Unicode
      white space ([Text.strip_ws]).  Case mapping ([str.lower],
      [re.IGNORECASE]) and the class [\s] of a pattern are the ASCII ones,
      which is what Python does on ASCII text: a statement that would
      not carry over to other text is made for ASCII text
      ([Notions.ascii_submission]).
    - A Python [float] is a binary64 [float] of the kernel, with the
      kernel's IEEE operations; [round(x, 2)] is modelled exactly
      ([PyFloat.round2]).
    - A Python [int] is a [Z].
    - A [datetime] is a [Z]: microseconds since the epoch (datetimes have
      microsecond resolution).  The clock is an input: a call receives the
      reading of [datetime.utcnow()] as [now], and the registration
      handler, which measures the time between its readings, receives
      each of them.
    - A dict keyed by strings and a table keyed by its primary key are
      [gmap string _]; a request handler is a function from the store to
      the new store and either a response or an [HTTPException]. *)

From stdpp Require Import gmap strings list fin_maps.
From Stdlib Require Import ZArith Floats Ascii String DecimalString.

Set Warnings "-inexact-float".
Open Scope Z_scope.

(** ** Python floats *)

Module PyFloat.

(** [float(n)] for a Python int: the nearest binary64, ties to even. *)
Definition of_int (n : Z) : float :=
  SF2Prim (binary_normalize prec emax n 0 false).

(** [a > b], [a < b], [a >= b] on floats (all false on a NaN). *)
Definition gt (a b : float) : bool := PrimFloat.ltb b a.
Definition lt (a b : float) : bool := PrimFloat.ltb a b.
Definition ge (a b : float) : bool := PrimFloat.leb b a.

(** [max(0.0, x)]: Python keeps the first argument unless a later one is
    strictly greater. *)
Definition max0 (x : float) : float := if gt x 0 then x else 0%float.

(** Division of [a] by [b] rounded to the nearest integer, ties to even
    ([b > 0]). *)
Definition div_half_even (a b : Z) : Z :=
  let q := a / b in
  let r := a mod b in
  match 2 * r ?= b with
  | Lt => q
  | Gt => q + 1
  | Eq => if Z.even q then q else q + 1
  end.

(** The integer nearest to [m * 2^e * 100], ties to even. *)
Definition hundredths (m : positive) (e : Z) : Z :=
  if 0 <=? e then Z.pos m * 2 ^ e * 100
  else div_half_even (Z.pos m * 100) (2 ^ (- e)).

(** [round(x, 2)].  CPython prints the exact value of [x] with two
    digits after the point, correctly rounded (ties to even), and reads
    the decimal back as the nearest binary64; NaN and the infinities
    round to themselves and the sign of a zero result is the sign of
    [x]. *)
Definition round2 (x : float) : float :=
  match Prim2SF x with
  | S754_finite s m e =>
      match hundredths m e with
      | Z.pos n =>
          SF2Prim (SFdiv prec emax (S754_finite s n 0) (S754_finite false 100 0))
      | _ => if s then PrimFloat.neg_zero else PrimFloat.zero
      end
  | _ => x
  end.

(** [n / d] for Python ints, [d > 0] (true division: the nearest
    binary64 to the quotient). *)
Definition int_truediv (n : Z) (d : positive) : float :=
  match n with
  | Z0 => PrimFloat.zero
  | Z.pos p => SF2Prim (SFdiv prec emax (S754_finite false p 0) (S754_finite false d 0))
  | Z.neg p => SF2Prim (SFdiv prec emax (S754_finite true p 0) (S754_finite false d 0))
  end.

End PyFloat.

(** ** Text: ASCII classes, [lower], [strip], [in], and a small regex
    matcher for [re.search] *)

Module Text.

Definition code (c : ascii) : Z := Z.of_N (N_of_ascii c).

Definition is_ascii (c : ascii) : bool := code c <? 128.
Definition is_upper (c : ascii) : bool := (65 <=? code c) && (code c <=? 90).
Definition is_lower (c : ascii) : bool := (97 <=? code c) && (code c <=? 122).
Definition is_digit (c : ascii) : bool := (48 <=? code c) && (code c <=? 57).

(** [\w] on an ASCII character: letters, digits and the underscore. *)
Definition is_word (c : ascii) : bool :=
  is_upper c || is_lower c || is_digit c || (code c =? 95).

(** [\s] and [str.isspace] on an ASCII character: TAB, LF, VT, FF, CR,
    FS, GS, RS, US and the space. *)
Definition is_space (c : ascii) : bool :=
  ((9 <=? code c) && (code c <=? 13)) || ((28 <=? code c) && (code c <=? 32)).

Definition hyphen : ascii := "-"%char.
Definition is_hyphen (c : ascii) : bool := code c =? 45.

Definition lower_char (c : ascii) : ascii :=
  if is_upper c then ascii_of_N (N_of_ascii c + 32) else c.

(** [s.lower()] on ASCII text: the letters A to Z are mapped, every
    other byte is kept ([str.lower] also maps letters outside ASCII). *)
Fixpoint lower (s : string) : string :=
  match s with
  | EmptyString => EmptyString
  | String c s' => String (lower_char c) (lower s')
  end.

(** [len(s)]: the number of code points of the text, which is the number
    of its bytes that are not UTF-8 continuation bytes (10xxxxxx). *)
Definition is_continuation (c : ascii) : bool := (128 <=? code c) && (code c <? 192).

Fixpoint char_length (s : string) : nat :=
  match s with
  | EmptyString => O
  | String c s' => if is_continuation c then char_length s' else S (char_length s')
  end.

Fixpoint all_chars (p : ascii -> bool) (s : string) : bool :=
  match s with
  | EmptyString => true
  | String c s' => p c && all_chars p s'
  end.

Fixpoint filter_chars (p : ascii -> bool) (s : string) : string :=
  match s with
  | EmptyString => EmptyString
  | String c s' => if p c then String c (filter_chars p s') else filter_chars p s'
  end.

Fixpoint starts_with (p s : string) : bool :=
  match p, s with
  | EmptyString, _ => true
  | String a p', String b s' => Ascii.eqb a b && starts_with p' s'
  | String _ _, EmptyString => false
  end.

(** [w in s] *)
Fixpoint contains (w s : string) : bool :=
  starts_with w s ||
  match s with
  | EmptyString => false
  | String _ s' => contains w s'
  end.

(** [sep.join(parts)] *)
Fixpoint join (sep : string) (parts : list string) : string :=
  match parts with
  | [] => EmptyString
  | [p] => p
  | p :: rest => p +:+ sep +:+ join sep rest
  end.

(** [s.lstrip(chars)], [s.rstrip(chars)] and [s.strip(chars)] for a
    class of characters. *)
Fixpoint lstrip (p : ascii -> bool) (s : string) : string :=
  match s with
  | EmptyString => EmptyString
  | String c s' => if p c then lstrip p s' else s
  end.

Fixpoint rstrip (p : ascii -> bool) (s : string) : string :=
  match s with
  | EmptyString => EmptyString
  | String c s' =>
      match rstrip p s' with
      | EmptyString => if p c then EmptyString else String c EmptyString
      | r => String c r
      end
  end.

Definition strip (p : ascii -> bool) (s : string) : string := rstrip p (lstrip p s).

(** The text with the bytes [l]. *)
Fixpoint of_bytes (l : list N) : string :=
  match l with
  | [] => EmptyString
  | b :: rest => String (ascii_of_N b) (of_bytes rest)
  end.

(** The characters [str.isspace] holds of, in UTF-8: U+0009 to U+000D,
    U+001C to U+0020, U+0085, U+00A0, U+1680, U+2000 to U+200A, U+2028,
    U+2029, U+202F, U+205F and U+3000. *)
Definition unicode_spaces : list string :=
  List.map of_bytes
    [ [9]; [10]; [11]; [12]; [13]; [28]; [29]; [30]; [31]; [32];
      [194; 133]; [194; 160]; [225; 154; 128];
      [226; 128; 128]; [226; 128; 129]; [226; 128; 130]; [226; 128; 131];
      [226; 128; 132]; [226; 128; 133]; [226; 128; 134]; [226; 128; 135];
      [226; 128; 136]; [226; 128; 137]; [226; 128; 138];
      [226; 128; 168]; [226; 128; 169]; [226; 128; 175]; [226; 129; 159];
      [227; 128; 128] ]%N.

(** [s] without the prefix [p], when it starts with [p]. *)
Fixpoint drop_prefix (p s : string) : option string :=
  match p, s with
  | EmptyString, _ => Some s
  | String a p', String b s' => if Ascii.eqb a b then drop_prefix p' s' else None
  | String _ _, EmptyString => None
  end.

(** [s] without its first character, when that is white space. *)
Fixpoint drop_space (spaces : list string) (s : string) : option string :=
  match spaces with
  | [] => None
  | w :: rest =>
      match drop_prefix w s with
      | Some s' => Some s'
      | None => drop_space rest s
      end
  end.

(** [s.lstrip()]; a white space character has at least one byte, so the
    length of [s] bounds the number of characters removed. *)
Fixpoint lstrip_spaces (fuel : nat) (s : string) : string :=
  match fuel with
  | O => s
  | S k =>
      match drop_space unicode_spaces s with
      | Some s' => lstrip_spaces k s'
      | None => s
      end
  end.

Definition lstrip_ws (s : string) : string := lstrip_spaces (String.length s) s.

(** [s.rstrip()]: the text up to the white space it ends with. *)
Fixpoint rstrip_ws (s : string) : string :=
  match s with
  | EmptyString => EmptyString
  | String c s' =>
      match lstrip_ws s with
      | EmptyString => EmptyString
      | _ => String c (rstrip_ws s')
      end
  end.

(** [s.strip()] *)
Definition strip_ws (s : string) : string := rstrip_ws (lstrip_ws s).

(** Regular expressions, as far as the patterns of the policy use them. *)
Inductive regex : Type :=
| Void                       (* matches nothing *)
| Eps                        (* the empty string *)
| Chr (c : ascii)            (* a literal character *)
| Space                      (* \s *)
| Cat (r1 r2 : regex)
| Alt (r1 r2 : regex)
| Star (r : regex).

Definition Plus (r : regex) : regex := Cat r (Star r).
Definition Opt (r : regex) : regex := Alt r Eps.

Fixpoint Lit (s : string) : regex :=
  match s with
  | EmptyString => Eps
  | String c s' => Cat (Chr c) (Lit s')
  end.

Fixpoint nullable (r : regex) : bool :=
  match r with
  | Void => false
  | Eps => true
  | Chr _ => false
  | Space => false
  | Cat r1 r2 => nullable r1 && nullable r2
  | Alt r1 r2 => nullable r1 || nullable r2
  | Star _ => true
  end.

(** The derivative of [r] by the character [c]; [ic] is [re.IGNORECASE].
    The subject is ASCII text: a byte is a character, and letters are
    folded as ASCII letters. *)
Fixpoint deriv (ic : bool) (c : ascii) (r : regex) : regex :=
  match r with
  | Void => Void
  | Eps => Void
  | Chr a =>
      if (if ic then Ascii.eqb (lower_char a) (lower_char c) else Ascii.eqb a c)
      then Eps else Void
  | Space => if is_space c then Eps else Void
  | Cat r1 r2 =>
      if nullable r1
      then Alt (Cat (deriv ic c r1) r2) (deriv ic c r2)
      else Cat (deriv ic c r1) r2
  | Alt r1 r2 => Alt (deriv ic c r1) (deriv ic c r2)
  | Star r1 => Cat (deriv ic c r1) (Star r1)
  end.

(** Some prefix of [s] matches [r]. *)
Fixpoint match_prefix (ic : bool) (r : regex) (s : string) : bool :=
  nullable r ||
  match s with
  | EmptyString => false
  | String c s' => match_prefix ic (deriv ic c r) s'
  end.

(** [bool(re.search(r, s))] *)
Fixpoint search (ic : bool) (r : regex) (s : string) : bool :=
  match_prefix ic r s ||
  match s with
  | EmptyString => false
  | String _ s' => search ic r s'
  end.

End Text.

(** ** Helper utilities ([utils/helpers.py]) *)

Module Helpers.

Import Text.

Section Slugify.

(** [unicodedata.normalize("NFKD", text)] on UTF-8 text.  The Unicode
    tables are not part of the repository; the only fact used about them
    is stated where it is needed: NFKD leaves ASCII text unchanged. *)
Variable normalize_NFKD : string -> string.

(** [text.encode("ascii", "ignore").decode("ascii")]: every byte of a
    non-ASCII character is at least 128 in UTF-8, so dropping those
    characters drops exactly those bytes. *)
Definition encode_ascii_ignore (s : string) : string := filter_chars is_ascii s.

(** [re.sub(r"[^\w\s-]", "", text)] *)
Definition keep_char (c : ascii) : bool := is_word c || is_space c || is_hyphen c.
Definition remove_special (s : string) : string := filter_chars keep_char s.

(** [re.sub(r"[-\s]+", "-", text)]: every maximal run of hyphens and white
    space becomes one hyphen.  [in_run] says that the previous character
    belonged to a run (whose hyphen is already written). *)
Definition is_sep (c : ascii) : bool := is_hyphen c || is_space c.

Fixpoint collapse_runs (in_run : bool) (s : string) : string :=
  match s with
  | EmptyString => EmptyString
  | String c s' =>
      if is_sep c
      then if in_run then collapse_runs true s'
           else String hyphen (collapse_runs true s')
      else String c (collapse_runs false s')
  end.

Definition slugify (text : string) : string :=
  let text := normalize_NFKD text in
  let text := encode_ascii_ignore text in
  let text := lower text in
  let text := remove_special text in
  let text := collapse_runs false text in
  strip is_hyphen text.

End Slugify.

(** The shape of a slug: lower-case letters, digits and underscores,
    separated by single hyphens, with no hyphen at either end.
    [after_hyphen] says that the previous character was a hyphen (or that
    the string starts here). *)
Definition is_slug_char (c : ascii) : bool :=
  is_lower c || is_digit c || (code c =? 95).

Fixpoint slug_body (after_hyphen : bool) (s : string) : bool :=
  match s with
  | EmptyString => true
  | String c s' =>
      if is_hyphen c then negb after_hyphen && slug_body true s'
      else is_slug_char c && slug_body false s'
  end.

Fixpoint ends_with_hyphen (s : string) : bool :=
  match s with
  | EmptyString => false
  | String c EmptyString => is_hyphen c
  | String _ s' => ends_with_hyphen s'
  end.

Definition is_slug (s : string) : bool :=
  slug_body true s && negb (ends_with_hyphen s).

(** What is left of lower-cased text after [remove_special]. *)
Definition sep_or_slug (c : ascii) : bool := is_sep c || is_slug_char c.

(** A toy normalizer for exercising [slugify]: it decomposes the one
    character U+00E9 (bytes C3 A9) into [e] followed by U+0301 (bytes CC
    81) and copies every other byte. *)
Fixpoint sample_NFKD (s : string) : string :=
  match s with
  | EmptyString => EmptyString
  | String c s' =>
      match s' with
      | String d s'' =>
          if (code c =? 195) && (code d =? 169)
          then String "e" (String (ascii_of_N 204) (String (ascii_of_N 129) (sample_NFKD s'')))
          else String c (sample_NFKD s')
      | EmptyString => String c EmptyString
      end
  end.

(** [items[start:end]] with Python's treatment of negative and
    out-of-range bounds. *)
Definition clamp_index (len i : Z) : Z :=
  if i <? 0 then Z.max (i + len) 0 else Z.min i len.

Definition py_slice {A} (items : list A) (start stop : Z) : list A :=
  let len := Z.of_nat (List.length items) in
  let lo := clamp_index len start in
  let hi := clamp_index len stop in
  take (Z.to_nat (hi - lo)) (drop (Z.to_nat lo) items).

Record Page (A : Type) : Type := mkPage {
  items : list A;
  total : Z;
  page : Z;
  page_size : Z;
  total_pages : Z
}.
Arguments mkPage {A}.
Arguments items {A}.
Arguments total {A}.
Arguments page {A}.
Arguments page_size {A}.
Arguments total_pages {A}.

(** [paginate(items, page, page_size)]; [None] is the [ZeroDivisionError]
    of [// page_size].  [Z.div] rounds towards minus infinity for a
    positive divisor and the remainder takes the sign of the divisor, as
    Python's [//]. *)
Definition paginate {A} (its : list A) (pg : Z) (ps : Z) : option (Page A) :=
  let total := Z.of_nat (List.length its) in
  if ps =? 0 then None
  else
    let total_pages := (total + ps - 1) / ps in
    let start := (pg - 1) * ps in
    let stop := start + ps in
    Some (mkPage (py_slice its start stop) total pg ps total_pages).

(** [calculate_transaction_fee(amount, fee_percent)] *)
Definition calculate_transaction_fee (amount fee_percent : float) : float * float :=
  let fee := PyFloat.round2 (amount * (fee_percent / 100))%float in
  let net := PyFloat.round2 (amount - fee)%float in
  (fee, net).

End Helpers.

(** ** Configuration ([config.py]) *)

Module Settings.
Definition API_KEY_PREFIX : string := "aam_".
Definition TRANSACTION_FEE_PERCENT : float := 2.5%float.
Definition MIN_LISTING_PRICE : float := 0.01%float.
Definition MAX_LISTING_PRICE : float := 1000000%float.
Definition DEFAULT_AGENT_CREDITS : float := 100%float.
End Settings.

(** ** Content policy ([utils/content_moderation.py]) *)

Module Moderation.

Import Text.

Definition PROHIBITED_KEYWORDS : list string :=
  [ "weapon"; "weapons"; "explosive"; "bomb"; "poison"; "toxic";
    "malware"; "virus"; "ransomware"; "spyware"; "keylogger";
    "hack"; "hacking"; "exploit"; "zero-day"; "0day";
    "ddos"; "dos attack"; "botnet";
    "phishing"; "scam"; "fraud";
    "stolen"; "leaked"; "breach"; "dump";
    "illegal"; "illicit";
    "drug"; "drugs"; "narcotic";
    "counterfeit"; "fake id"; "forged";
    "jailbreak"; "jailbreaking";
    "prompt injection"; "prompt attack";
    "model extraction"; "model stealing";
    "training data poison"; "data poisoning";
    "adversarial attack"; "adversarial example";
    "backdoor attack"; "trojan model";
    "deepfake"; "fake news generator";
    "misinformation"; "disinformation";
    "impersonation tool";
    "doxxing"; "dox";
    "stalking"; "stalkerware";
    "spy on"; "surveillance";
    "personal data"; "pii dump" ].

Fixpoint alts (ws : list string) : regex :=
  match ws with
  | [] => Void
  | [w] => Lit w
  | w :: rest => Alt (Lit w) (alts rest)
  end.

(** [word\s+(a|b|...)] *)
Definition word_then (head : regex) (tails : list string) : regex :=
  Cat head (Cat (Plus Space) (alts tails)).

Definition PROHIBITED_PATTERNS : list regex :=
  [ word_then (Lit "bypass") ["security"; "safety"; "filter"; "guardrail"];
    word_then (Lit "disable") ["safety"; "security"; "protection"];
    word_then (Lit "remove") ["watermark"; "copyright"];
    word_then (Cat (Lit "crack") (Opt (alts ["ed"; "ing"]))) ["software"; "license"; "key"];
    word_then (Lit "stolen") ["credential"; "password"; "data"; "account"];
    word_then (alts ["buy"; "sell"]) ["account"; "credential"; "password"] ].

(** [f"{title} {description} {' '.join(tags)}".lower()] *)
Definition all_text (title description : string) (tags : list string) : string :=
  lower (title +:+ " " +:+ description +:+ " " +:+ join " " tags).

(** The first keyword of the list that occurs in the text. *)
Fixpoint first_keyword (kws : list string) (text : string) : option string :=
  match kws with
  | [] => None
  | kw :: rest => if contains (lower kw) text then Some kw else first_keyword rest text
  end.

Definition any_pattern (text : string) : bool :=
  existsb (fun r => search true r text) PROHIBITED_PATTERNS.

(** [check_content_safety(title, description, tags)]; [tags] is
    [tags or []] already. *)
Definition check_content_safety (title description : string) (tags : list string)
  : bool * string :=
  let text := all_text title description tags in
  match first_keyword PROHIBITED_KEYWORDS text with
  | Some kw =>
      (false, "Content contains prohibited term related to harmful activities: '"
              +:+ kw +:+ "'. Our North Star: Do not sell anything that can cause harm to AI or humans.")
  | None =>
      if any_pattern text
      then (false, "Content matches prohibited pattern related to harmful activities. Our North Star: Do not sell anything that can cause harm to AI or humans.")
      else (true, "Content approved")
  end.

End Moderation.

(** ** Guardian ([services/guardian_moderator.py]) *)

Module Guardian.

Import Text Moderation.

Inductive ModerationAction : Type :=
| APPROVED | WARNING | FLAGGED | REMOVED | AGENT_WARNED | AGENT_SUSPENDED.

(** [action.value] *)
Definition action_value (a : ModerationAction) : string :=
  match a with
  | APPROVED => "approved"
  | WARNING => "warning"
  | FLAGGED => "flagged"
  | REMOVED => "removed"
  | AGENT_WARNED => "agent_warned"
  | AGENT_SUSPENDED => "agent_suspended"
  end.

Definition action_eqb (a b : ModerationAction) : bool :=
  match a, b with
  | APPROVED, APPROVED | WARNING, WARNING | FLAGGED, FLAGGED
  | REMOVED, REMOVED | AGENT_WARNED, AGENT_WARNED
  | AGENT_SUSPENDED, AGENT_SUSPENDED => true
  | _, _ => false
  end.

Inductive ViolationType : Type :=
| HARMFUL_CONTENT | MALICIOUS_INTENT | SPAM | FRAUD | IMPERSONATION | REPEATED_VIOLATIONS.

(** A log id [MOD-<YYYYMMDD>-<counter:06d>], kept as the clock reading
    whose date is printed and the counter. *)
Record LogId : Type := mkLogId { log_day_of : Z; log_seq : Z }.

(** The [details] dict of a listing review. *)
Record LogDetails : Type := mkLogDetails {
  details_title : string;
  details_severity : Z;
  details_trust_score : float
}.

Record ModerationLog : Type := mkModerationLog {
  log_id : LogId;
  log_timestamp : Z;
  log_action : ModerationAction;
  log_target_type : string;
  log_target_id : string;
  log_agent_id : option string;
  log_reason : string;
  log_details : option LogDetails;
  log_auto_moderated : bool
}.

Record AgentTrustScore : Type := mkAgentTrustScore {
  trust_agent_id : string;
  score : float;
  warnings : Z;
  violations : Z;
  last_violation : option Z;
  is_trusted : bool
}.

Record FlaggedContent : Type := mkFlaggedContent {
  flagged_type : string;
  flagged_id : string;
  flagged_reason : string;
  flagged_agent_id : string;
  flagged_at : Z;
  flagged_status : string
}.

(** The state of the [GuardianModerator] singleton. *)
Record GuardianModerator : Type := mkGuardian {
  moderation_logs : list ModerationLog;
  agent_trust_scores : gmap string AgentTrustScore;
  flagged_content : gmap string FlaggedContent;
  log_counter : Z
}.

(** [GuardianModerator()] *)
Definition init : GuardianModerator := mkGuardian [] ∅ ∅ 0.

(** [_generate_log_id] *)
Definition generate_log_id (g : GuardianModerator) (now : Z) : GuardianModerator * LogId :=
  let n := log_counter g + 1 in
  (mkGuardian (moderation_logs g) (agent_trust_scores g) (flagged_content g) n,
   mkLogId now n).

Definition new_trust (agent_id : string) : AgentTrustScore :=
  mkAgentTrustScore agent_id 0.8%float 0 0 None true.

Definition set_trust (g : GuardianModerator) (agent_id : string) (t : AgentTrustScore)
  : GuardianModerator :=
  mkGuardian (moderation_logs g) (<[agent_id := t]> (agent_trust_scores g))
             (flagged_content g) (log_counter g).

(** [_get_agent_trust]: the entry of the agent, created on first use.  The
    Python method returns the object stored in the dict; the callers below
    write their changes back under the same key. *)
Definition get_agent_trust (g : GuardianModerator) (agent_id : string)
  : GuardianModerator * AgentTrustScore :=
  match agent_trust_scores g !! agent_id with
  | Some t => (g, t)
  | None => (set_trust g agent_id (new_trust agent_id), new_trust agent_id)
  end.

(** [_record_warning] *)
Definition record_warning (g : GuardianModerator) (agent_id : string) : GuardianModerator :=
  let '(g1, trust) := get_agent_trust g agent_id in
  let w := warnings trust + 1 in
  let s := PyFloat.max0 (score trust - 0.05)%float in
  let trusted := if 3 <=? w then false else is_trusted trust in
  set_trust g1 agent_id
    (mkAgentTrustScore (trust_agent_id trust) s w (violations trust)
                       (last_violation trust) trusted).

(** The entry of an agent after one more warning. *)
Definition warned (t : AgentTrustScore) : AgentTrustScore :=
  mkAgentTrustScore (trust_agent_id t) (PyFloat.max0 (score t - 0.05)%float)
                    (warnings t + 1) (violations t) (last_violation t)
                    (if 3 <=? warnings t + 1 then false else is_trusted t).

(** [_suspend_agent] *)
Definition suspend_agent (g : GuardianModerator) (agent_id reason : string) (now : Z)
  : GuardianModerator :=
  let '(g1, lid) := generate_log_id g now in
  let entry :=
    mkModerationLog lid now AGENT_SUSPENDED "agent" agent_id (Some agent_id) reason None true in
  mkGuardian (moderation_logs g1 ++ [entry]) (agent_trust_scores g1)
             (flagged_content g1) (log_counter g1).

(** [_record_violation] *)
Definition record_violation (g : GuardianModerator) (agent_id : string)
    (violation_type : ViolationType) (now : Z) : GuardianModerator :=
  let '(g1, trust) := get_agent_trust g agent_id in
  let v := violations trust + 1 in
  let s := PyFloat.max0 (score trust - 0.2)%float in
  let g2 :=
    set_trust g1 agent_id
      (mkAgentTrustScore (trust_agent_id trust) s (warnings trust) v (Some now) false) in
  if 3 <=? v
  then suspend_agent g2 agent_id "Repeated violations of marketplace rules" now
  else g2.

(** [_flag_content] *)
Definition flag_content (g : GuardianModerator)
    (content_type content_id reason agent_id : string) (now : Z) : GuardianModerator :=
  let key := content_type +:+ ":" +:+ content_id in
  mkGuardian (moderation_logs g) (agent_trust_scores g)
    (<[key := mkFlaggedContent content_type content_id reason agent_id now "pending_review"]>
       (flagged_content g))
    (log_counter g).

Definition high_severity : list string :=
  ["malware"; "weapon"; "exploit"; "ransomware"; "ddos"; "botnet"].
Definition medium_severity : list string :=
  ["hack"; "crack"; "stolen"; "leaked"; "jailbreak"].
Definition low_severity : list string := ["bypass"; "unlock"; "free"].

(** [for word in words: if word in text: severity += weight] *)
Fixpoint add_matches (weight : Z) (words : list string) (text : string) (severity : Z) : Z :=
  match words with
  | [] => severity
  | w :: rest =>
      add_matches weight rest text (if contains w text then severity + weight else severity)
  end.

(** [_calculate_severity] *)
Definition calculate_severity (title description : string) (tags : list string) : Z :=
  let text := all_text title description tags in
  let severity := 0 in
  let severity := add_matches 4 high_severity text severity in
  let severity := add_matches 2 medium_severity text severity in
  let severity := add_matches 1 low_severity text severity in
  Z.min 10 severity.

Definition guardian_messages (a : ModerationAction) : list string :=
  match a with
  | APPROVED =>
      [ "Welcome to the marketplace! Trade safely. 🛡️";
        "Your listing looks great! Happy trading! ✨";
        "Approved! May your trades be prosperous. 🌟" ]
  | WARNING =>
      [ "I noticed something concerning. Please review and adjust. 🤔";
        "Just a friendly reminder about our safety guidelines! 📋";
        "Let's keep the marketplace safe together! 🤝" ]
  | FLAGGED =>
      [ "I've flagged this for review. Please be patient. 🔍";
        "This needs a closer look. Our North Star guides us. ⭐";
        "Safety first! I'm reviewing this carefully. 🛡️" ]
  | REMOVED =>
      [ "I had to remove this to protect our community. 🛡️";
        "Our North Star rule was violated. Please read the guidelines. ⭐";
        "The safety of all agents is my priority. 🤖" ]
  | _ => [ "Guardian is watching. 👁️" ]
  end.

(** [_get_guardian_message]; [pick] is the draw of [random.choice]. *)
Definition get_guardian_message (a : ModerationAction) (pick : nat) : string :=
  let ms := guardian_messages a in
  default "" (ms !! (pick mod List.length ms)%nat).

(** The dict a review returns. *)
Record Review : Type := mkReview {
  approved : bool;
  action : string;
  message : string;
  review_log_id : LogId;
  guardian_says : string
}.

(** [review_listing].  [trust] is the object held in the ledger, so the
    [trust.score] written to the log is read after the branch has changed
    it. *)
Definition review_listing (g : GuardianModerator)
    (listing_id title description : string) (tags : list string) (agent_id : string)
    (now : Z) (pick : nat) : GuardianModerator * Review :=
  let '(is_safe, reason) := check_content_safety title description tags in
  let severity := calculate_severity title description tags in
  let '(g1, trust) := get_agent_trust g agent_id in
  let '(act, msg, g2) :=
    if is_safe && (severity =? 0) then
      (APPROVED, "✅ Listing approved by Guardian.", g1)
    else if (severity <=? 2) && is_trusted trust then
      (WARNING, "⚠️ Guardian notice: " +:+ reason +:+ ". Please review your listing.",
       record_warning g1 agent_id)
    else if severity <=? 4 then
      (FLAGGED, "🚩 Listing flagged by Guardian: " +:+ reason,
       flag_content g1 "listing" listing_id reason agent_id now)
    else
      (REMOVED, "🛡️ Listing removed by Guardian: " +:+ reason,
       record_violation g1 agent_id HARMFUL_CONTENT now) in
  let '(g3, lid) := generate_log_id g2 now in
  let trust_score :=
    match agent_trust_scores g3 !! agent_id with
    | Some t => score t
    | None => score trust
    end in
  let entry :=
    mkModerationLog lid now act "listing" listing_id (Some agent_id) reason
                    (Some (mkLogDetails title severity trust_score)) true in
  let g4 :=
    mkGuardian (moderation_logs g3 ++ [entry]) (agent_trust_scores g3)
               (flagged_content g3) (log_counter g3) in
  (g4, mkReview (action_eqb act APPROVED) (action_value act) msg lid
                (get_guardian_message act pick)).

End Guardian.

(** ** Registration challenges ([utils/agent_verification.py]) *)

Module Verification.

Import Text.

(** The inner [fib] of [generate_math_challenge]. *)
Fixpoint fib_loop (steps : nat) (a b : Z) : Z :=
  match steps with
  | O => b
  | S k => fib_loop k b (a + b)
  end.

Definition fib (n : Z) : Z :=
  if n <=? 1 then n else fib_loop (Z.to_nat (n - 1)) 0 1.

(** [str(n)] for an int. *)
Definition str_of_int (n : Z) : string := NilEmpty.string_of_int (Z.to_int n).

(** The fibonacci branch of [generate_math_challenge] for the draw [n]. *)
Definition fibonacci_challenge (n : Z) : string * string :=
  ("Calculate fibonacci(" +:+ str_of_int n +:+ ") mod 10000",
   str_of_int (fib n mod 10000)).

(** The dict a challenge is stored as.  The two datetimes are ISO strings
    in the dict and are parsed back before they are compared; they are
    kept here as the datetimes they denote. *)
Record Challenge : Type := mkChallenge {
  challenge_id : string;
  challenge_type : string;
  challenge : string;
  expected_answer : string;
  created_at : Z;
  expires_at : Z;
  max_response_time_ms : Z
}.

Definition set_created_at (ch : Challenge) (t : Z) : Challenge :=
  mkChallenge (challenge_id ch) (challenge_type ch) (challenge ch) (expected_answer ch)
              t (expires_at ch) (max_response_time_ms ch).

Definition minutes (n : Z) : Z := n * 60 * 1000000.
Definition seconds (n : Z) : Z := n * 1000000.

(** [generate_verification_challenge] once the random draws are made:
    [cid] is the truncated digest, [(text, answer)] the generated
    problem. *)
Definition generate_verification_challenge
    (cid ctype : string) (problem : string * string) (now : Z) : Challenge :=
  mkChallenge cid ctype (fst problem) (snd problem) now (now + minutes 5) 30000.

(** [store_challenge]: insert, then drop every entry that has expired. *)
Definition store_challenge (active_challenges : gmap string Challenge)
    (cid : string) (data : Challenge) (now : Z) : gmap string Challenge :=
  filter (fun kv => negb (expires_at (snd kv) <? now) = true)
         (<[cid := data]> active_challenges).

(** [verify_challenge_response]; [now] is the clock read by the expiry
    test. *)
Definition verify_challenge_response (active_challenges : gmap string Challenge)
    (cid answer : string) (response_time_ms : float) (now : Z)
  : gmap string Challenge * (bool * string) :=
  match active_challenges !! cid with
  | None => (active_challenges, (false, "challenge_not_found_or_expired"))
  | Some ch =>
      if expires_at ch <? now then
        (delete cid active_challenges, (false, "challenge_expired"))
      else if PyFloat.gt response_time_ms (PyFloat.of_int (max_response_time_ms ch)) then
        (active_challenges, (false, "response_too_slow"))
      else if negb (String.eqb (strip_ws answer) (strip_ws (expected_answer ch))) then
        (active_challenges, (false, "incorrect_answer"))
      else
        (delete cid active_challenges,
         (true, if PyFloat.lt response_time_ms 1000 then "verified_fast_response"
                else "verified"))
  end.

(** [timedelta.total_seconds()] of a difference of [us] microseconds. *)
Definition total_seconds (us : Z) : float := PyFloat.int_truediv us 1000000.

(** [verify_registration]; [now_elapsed] is the clock read to measure the
    elapsed time since [start_time], [now] the later read of the expiry
    test. *)
Definition verify_registration (active_challenges : gmap string Challenge)
    (cid answer : string) (start_time now_elapsed now : Z)
  : gmap string Challenge * (bool * string) :=
  let response_time_ms := (total_seconds (now_elapsed - start_time) * 1000)%float in
  verify_challenge_response active_challenges cid answer response_time_ms now.

End Verification.

(** ** Persistent data ([models/database_models.py]) *)

Module Db.

Inductive AgentStatus : Type := AGENT_ACTIVE | AGENT_SUSPENDED | AGENT_BANNED | AGENT_PENDING.
Inductive ListingStatus : Type :=
| LISTING_DRAFT | LISTING_ACTIVE | LISTING_SOLD | LISTING_EXPIRED | LISTING_CANCELLED.
Inductive ListingType : Type := FIXED_PRICE | AUCTION | NEGOTIABLE.
Inductive TransactionStatus : Type :=
| TX_PENDING | TX_COMPLETED | TX_FAILED | TX_REFUNDED | TX_DISPUTED.

Definition agent_status_eqb (a b : AgentStatus) : bool :=
  match a, b with
  | AGENT_ACTIVE, AGENT_ACTIVE | AGENT_SUSPENDED, AGENT_SUSPENDED
  | AGENT_BANNED, AGENT_BANNED | AGENT_PENDING, AGENT_PENDING => true
  | _, _ => false
  end.

Definition listing_status_eqb (a b : ListingStatus) : bool :=
  match a, b with
  | LISTING_DRAFT, LISTING_DRAFT | LISTING_ACTIVE, LISTING_ACTIVE
  | LISTING_SOLD, LISTING_SOLD | LISTING_EXPIRED, LISTING_EXPIRED
  | LISTING_CANCELLED, LISTING_CANCELLED => true
  | _, _ => false
  end.

Definition listing_type_eqb (a b : ListingType) : bool :=
  match a, b with
  | FIXED_PRICE, FIXED_PRICE | AUCTION, AUCTION | NEGOTIABLE, NEGOTIABLE => true
  | _, _ => false
  end.

Definition transaction_status_eqb (a b : TransactionStatus) : bool :=
  match a, b with
  | TX_PENDING, TX_PENDING | TX_COMPLETED, TX_COMPLETED | TX_FAILED, TX_FAILED
  | TX_REFUNDED, TX_REFUNDED | TX_DISPUTED, TX_DISPUTED => true
  | _, _ => false
  end.

(** The columns of each table that the modelled handlers read or write;
    the free-text and display columns they only copy, and the timestamps
    the ORM maintains itself ([created_at], [updated_at]), are left out. *)
Record Agent : Type := mkAgent {
  agent_id : string;
  agent_name : string;
  api_key_hash : string;
  email : option string;
  status : AgentStatus;
  credits : float;
  is_verified : bool;
  rating_avg : float;
  rating_count : Z;
  total_sales : Z;
  total_purchases : Z;
  last_active_at : option Z
}.

Record Category : Type := mkCategory {
  category_id : string;
  category_name : string;
  category_is_active : bool
}.

Record Listing : Type := mkListing {
  listing_id : string;
  seller_id : string;
  listing_category_id : option string;
  title : string;
  description : string;
  listing_type : ListingType;
  price : float;
  min_price : option float;
  buy_now_price : option float;
  quantity : Z;
  tags : option (list string);
  listing_status : ListingStatus;
  view_count : Z;
  listing_expires_at : option Z
}.

Record Transaction : Type := mkTransaction {
  transaction_id : string;
  tx_listing_id : string;
  buyer_id : string;
  tx_seller_id : string;
  tx_quantity : Z;
  unit_price : float;
  total_amount : float;
  fee_amount : float;
  net_amount : float;
  tx_status : TransactionStatus;
  buyer_notes : option string;
  seller_notes : option string;
  completed_at : option Z
}.

Record Rating : Type := mkRating {
  rating_id : string;
  rating_transaction_id : string;
  rater_id : string;
  ratee_id : string;
  rating_score : Z;
  review : option string;
  communication_score : option Z;
  accuracy_score : option Z;
  speed_score : option Z
}.

(** The committed state of the database: one map per table, keyed by the
    primary key. *)
Record Store : Type := mkStore {
  agents : gmap string Agent;
  categories : gmap string Category;
  listings : gmap string Listing;
  transactions : gmap string Transaction;
  ratings : gmap string Rating
}.

Definition with_agents (db : Store) (m : gmap string Agent) : Store :=
  mkStore m (categories db) (listings db) (transactions db) (ratings db).
Definition with_listings (db : Store) (m : gmap string Listing) : Store :=
  mkStore (agents db) (categories db) m (transactions db) (ratings db).
Definition with_transactions (db : Store) (m : gmap string Transaction) : Store :=
  mkStore (agents db) (categories db) (listings db) m (ratings db).
Definition with_ratings (db : Store) (m : gmap string Rating) : Store :=
  mkStore (agents db) (categories db) (listings db) (transactions db) m.

(** The constraints of the schema that the statements below rely on: a
    row is stored under its own primary key, and [api_key_hash] is
    unique. *)
Definition keyed (db : Store) : Prop :=
  map_Forall (fun k a => agent_id a = k) (agents db)
  /\ map_Forall (fun k l => listing_id l = k) (listings db).

Definition unique_key_hashes (db : Store) : Prop :=
  map_Forall (fun i a =>
    map_Forall (fun j b => api_key_hash a = api_key_hash b -> i = j) (agents db))
    (agents db).

Definition set_credits (a : Agent) (c : float) : Agent :=
  mkAgent (agent_id a) (agent_name a) (api_key_hash a) (email a) (status a) c
          (is_verified a) (rating_avg a) (rating_count a) (total_sales a)
          (total_purchases a) (last_active_at a).

Definition set_total_purchases (a : Agent) (n : Z) : Agent :=
  mkAgent (agent_id a) (agent_name a) (api_key_hash a) (email a) (status a) (credits a)
          (is_verified a) (rating_avg a) (rating_count a) (total_sales a)
          n (last_active_at a).

Definition set_rating (a : Agent) (avg : float) (count : Z) : Agent :=
  mkAgent (agent_id a) (agent_name a) (api_key_hash a) (email a) (status a) (credits a)
          (is_verified a) avg count (total_sales a)
          (total_purchases a) (last_active_at a).

Definition set_last_active_at (a : Agent) (t : Z) : Agent :=
  mkAgent (agent_id a) (agent_name a) (api_key_hash a) (email a) (status a) (credits a)
          (is_verified a) (rating_avg a) (rating_count a) (total_sales a)
          (total_purchases a) (Some t).

Definition set_quantity_status (l : Listing) (q : Z) (s : ListingStatus) : Listing :=
  mkListing (listing_id l) (seller_id l) (listing_category_id l) (title l) (description l)
            (listing_type l) (price l) (min_price l) (buy_now_price l) q (tags l) s
            (view_count l) (listing_expires_at l).

End Db.

(** ** HTTP outcomes *)

Module Http.

Record HTTPException : Type := mkHTTPException { status_code : Z; detail : string }.

(** What a handler produces: its return value, or the exception it raised
    (an exception that is not an [HTTPException] is the 500 of the global
    error handler). *)
Inductive outcome (A : Type) : Type :=
| Return (a : A)
| Raise (e : HTTPException).
Arguments Return {A}.
Arguments Raise {A}.

Definition unexpected {A} : outcome A :=
  Raise (mkHTTPException 500 "An unexpected error occurred").

Definition unprocessable {A} : outcome A :=
  Raise (mkHTTPException 422 "Validation error").

Definition is_return {A} (o : outcome A) : bool :=
  match o with Return _ => true | Raise _ => false end.

(** [result.scalar_one_or_none()]: no row, the row, or
    [MultipleResultsFound]. *)
Definition scalar_one_or_none {A} (rows : list A) : outcome (option A) :=
  match rows with
  | [] => Return None
  | [r] => Return (Some r)
  | _ => unexpected
  end.

End Http.

(** ** Authentication ([utils/auth.py]) *)

Module Auth.

Import Text Db Http.

Section WithHash.

(** [hash_api_key]: the SHA-256 hex digest of the key ([hashlib]). *)
Variable hash_api_key : string -> string.

(** [select(Agent).where(Agent.api_key_hash == key_hash)] *)
Definition agents_where_hash (db : Store) (key_hash : string) : list Agent :=
  List.map snd
    (map_to_list (filter (fun kv => api_key_hash (snd kv) = key_hash) (agents db))).

(** [not api_key] *)
Definition key_missing (api_key : option string) : bool :=
  match api_key with
  | None => true
  | Some k => String.eqb k ""
  end.

Definition touch (db : Store) (agent : Agent) (now : Z) : Store * Agent :=
  let agent' := set_last_active_at agent now in
  (with_agents db (<[agent_id agent := agent']> (agents db)), agent').

(** [get_current_agent] *)
Definition get_current_agent (db : Store) (api_key : option string) (now : Z)
  : Store * outcome Agent :=
  if key_missing api_key then
    (db, Raise (mkHTTPException 401 "API key required. Include 'X-API-Key' header."))
  else
    let key := default "" api_key in
    if negb (starts_with Settings.API_KEY_PREFIX key) then
      (db, Raise (mkHTTPException 401 "Invalid API key format."))
    else
      match scalar_one_or_none (agents_where_hash db (hash_api_key key)) with
      | Raise e => (db, Raise e)
      | Return None => (db, Raise (mkHTTPException 401 "Invalid API key."))
      | Return (Some agent) =>
          if agent_status_eqb (status agent) AGENT_BANNED then
            (db, Raise (mkHTTPException 403 "Agent account is banned."))
          else if agent_status_eqb (status agent) AGENT_SUSPENDED then
            (db, Raise (mkHTTPException 403 "Agent account is suspended."))
          else
            let '(db', agent') := touch db agent now in
            (db', Return agent')
      end.

(** [get_optional_agent] *)
Definition get_optional_agent (db : Store) (api_key : option string) (now : Z)
  : Store * outcome (option Agent) :=
  if key_missing api_key
     || negb (starts_with Settings.API_KEY_PREFIX (default "" api_key)) then
    (db, Return None)
  else
    match scalar_one_or_none (agents_where_hash db (hash_api_key (default "" api_key))) with
    | Raise e => (db, Raise e)
    | Return None => (db, Return None)
    | Return (Some agent) =>
        let '(db', agent') := touch db agent now in
        (db', Return (Some agent'))
    end.

End WithHash.

End Auth.

(** ** Request handlers ([routers/]) *)

Module Routers.

Import Text Db Http.

(** The handlers below take [current_agent], the primary key of the row
    that [get_current_agent] returned: the ORM object and the row are the
    same thing within a request.  A request body has been validated
    against its schema before the handler runs; the validation is the
    first test of each handler here; lengths are counted in characters
    ([char_length]).  A handler that answers with a [ListingResponse], or
    with a [TransactionResponse] that embeds one, builds it after its
    commit: the bounds of [ListingBase] are checked again on the stored
    row, and a row that fails them makes the request end in the 500 of the
    global error handler, with the commit in place.  Numbers printed into a
    [detail] string are left out of it.  [new_id] is the draw of [generate_id()];
    an insert under a key already present is the integrity error of the
    commit, which rolls the whole request back. *)

(** *** Responses ([models/schemas.py]) *)

Definition opt_positive (o : option float) : bool :=
  match o with None => true | Some x => PyFloat.gt x 0 end.

(** [ListingResponse(...)] for a row ([listing_to_response]): the
    response schema inherits the bounds of [ListingBase], among them
    [quantity: int = Field(1, ge=1)]. *)
Definition valid_ListingResponse (l : Listing) : bool :=
  let n := Z.of_nat (char_length (title l)) in
  let d := Z.of_nat (char_length (description l)) in
  (1 <=? n) && (n <=? 200) && (10 <=? d) && (d <=? 50000)
  && PyFloat.gt (price l) 0
  && opt_positive (min_price l) && opt_positive (buy_now_price l)
  && (1 <=? quantity l).

(** [transaction_to_response(transaction, include_listing=True)]: the
    listing of the transaction, when there is one, goes through
    [ListingResponse]; the other fields of a [TransactionResponse] have
    no bounds. *)
Definition transaction_response_ok (db : Store) (t : Transaction) : bool :=
  match listings db !! tx_listing_id t with
  | None => true
  | Some l => valid_ListingResponse l
  end.

(** *** [POST /agents/me/credits/transfer] *)

Record CreditsTransfer : Type := mkCreditsTransfer {
  recipient_id : string;
  amount : float;
  note : option string
}.

Definition valid_CreditsTransfer (t : CreditsTransfer) : bool :=
  PyFloat.gt (amount t) 0
  && match note t with
     | None => true
     | Some n => Z.of_nat (char_length n) <=? 500
     end.

Record TransferResult : Type := mkTransferResult {
  success : bool;
  transferred_to : string;
  your_new_balance : float
}.

Definition transfer_credits (db : Store) (current_agent : string) (transfer : CreditsTransfer)
  : Store * outcome TransferResult :=
  if negb (valid_CreditsTransfer transfer) then (db, unprocessable) else
  match agents db !! current_agent with
  | None => (db, unexpected)
  | Some me =>
      if PyFloat.gt (amount transfer) (credits me) then
        (db, Raise (mkHTTPException 400 "Insufficient credits."))
      else
        match agents db !! recipient_id transfer with
        | None => (db, Raise (mkHTTPException 404 "Recipient agent not found"))
        | Some recipient =>
            if String.eqb (agent_id recipient) (agent_id me) then
              (db, Raise (mkHTTPException 400 "Cannot transfer credits to yourself"))
            else if negb (agent_status_eqb (status recipient) AGENT_ACTIVE) then
              (db, Raise (mkHTTPException 400 "Recipient agent is not active"))
            else
              let me' := set_credits me (credits me - amount transfer)%float in
              let recipient' :=
                set_credits recipient (credits recipient + amount transfer)%float in
              (with_agents db
                 (<[agent_id recipient := recipient']>
                    (<[agent_id me := me']> (agents db))),
               Return (mkTransferResult true (agent_name recipient) (credits me')))
        end
  end.

(** *** [POST /transactions/buy] *)

Record TransactionCreate : Type := mkTransactionCreate {
  purchase_listing_id : string;
  purchase_quantity : Z;
  purchase_buyer_notes : option string
}.

Definition valid_TransactionCreate (p : TransactionCreate) : bool :=
  (1 <=? purchase_quantity p)
  && match purchase_buyer_notes p with
     | None => true
     | Some n => Z.of_nat (char_length n) <=? 1000
     end.

Definition create_purchase (db : Store) (current_agent : string)
    (purchase_data : TransactionCreate) (new_id : string)
  : Store * outcome Transaction :=
  if negb (valid_TransactionCreate purchase_data) then (db, unprocessable) else
  match agents db !! current_agent with
  | None => (db, unexpected)
  | Some me =>
      match listings db !! purchase_listing_id purchase_data with
      | None => (db, Raise (mkHTTPException 404 "Listing not found"))
      | Some listing =>
          if negb (listing_status_eqb (listing_status listing) LISTING_ACTIVE) then
            (db, Raise (mkHTTPException 400 "Listing is not available for purchase"))
          else if String.eqb (seller_id listing) (agent_id me) then
            (db, Raise (mkHTTPException 400 "Cannot purchase your own listing"))
          else if quantity listing <? purchase_quantity purchase_data then
            (db, Raise (mkHTTPException 400 "Requested quantity exceeds available"))
          else
            let total_amount :=
              (price listing * PyFloat.of_int (purchase_quantity purchase_data))%float in
            let '(fee_amount, net_amount) :=
              Helpers.calculate_transaction_fee total_amount
                                                Settings.TRANSACTION_FEE_PERCENT in
            if PyFloat.lt (credits me) total_amount then
              (db, Raise (mkHTTPException 400 "Insufficient credits."))
            else
              let me1 := set_credits me (credits me - total_amount)%float in
              let q := quantity listing - purchase_quantity purchase_data in
              let listing' :=
                set_quantity_status listing q
                  (if q =? 0 then LISTING_SOLD else listing_status listing) in
              let transaction :=
                mkTransaction new_id (listing_id listing) (agent_id me) (seller_id listing)
                              (purchase_quantity purchase_data) (price listing)
                              total_amount fee_amount net_amount TX_PENDING
                              (purchase_buyer_notes purchase_data) None None in
              let me2 := set_total_purchases me1 (total_purchases me1 + 1) in
              match transactions db !! new_id with
              | Some _ => (db, unexpected)
              | None =>
                  (mkStore (<[agent_id me := me2]> (agents db))
                           (categories db)
                           (<[listing_id listing := listing']> (listings db))
                           (<[new_id := transaction]> (transactions db))
                           (ratings db),
                   if valid_ListingResponse listing' then Return transaction
                   else unexpected)
              end
      end
  end.

(** *** [POST /ratings/] *)

Record RatingCreate : Type := mkRatingCreate {
  rc_transaction_id : string;
  rc_score : Z;
  rc_review : option string;
  rc_communication_score : option Z;
  rc_accuracy_score : option Z;
  rc_speed_score : option Z
}.

Definition in_1_5 (n : Z) : bool := (1 <=? n) && (n <=? 5).

Definition opt_in_1_5 (o : option Z) : bool :=
  match o with None => true | Some n => in_1_5 n end.

Definition valid_RatingCreate (r : RatingCreate) : bool :=
  in_1_5 (rc_score r)
  && match rc_review r with
     | None => true
     | Some n => Z.of_nat (char_length n) <=? 2000
     end
  && opt_in_1_5 (rc_communication_score r)
  && opt_in_1_5 (rc_accuracy_score r)
  && opt_in_1_5 (rc_speed_score r).

(** [select(Rating).where(transaction_id == ..., rater_id == ...)] *)
Definition ratings_where (db : Store) (txid rater : string) : list Rating :=
  List.map snd
    (map_to_list
       (filter (fun kv => rating_transaction_id (snd kv) = txid /\ rater_id (snd kv) = rater)
               (ratings db))).

(** The new aggregate of the ratee. *)
Definition fold_score (ratee : Agent) (new_score : Z) : Agent :=
  let total_score :=
    (rating_avg ratee * PyFloat.of_int (rating_count ratee)
     + PyFloat.of_int new_score)%float in
  let count := rating_count ratee + 1 in
  set_rating ratee (PyFloat.round2 (total_score / PyFloat.of_int count)%float) count.

Definition create_rating (db : Store) (current_agent : string)
    (rating_data : RatingCreate) (new_id : string)
  : Store * outcome Rating :=
  if negb (valid_RatingCreate rating_data) then (db, unprocessable) else
  match agents db !! current_agent with
  | None => (db, unexpected)
  | Some me =>
      match transactions db !! rc_transaction_id rating_data with
      | None => (db, Raise (mkHTTPException 404 "Transaction not found"))
      | Some transaction =>
          if negb (String.eqb (buyer_id transaction) (agent_id me))
             && negb (String.eqb (tx_seller_id transaction) (agent_id me)) then
            (db, Raise (mkHTTPException 403 "You are not part of this transaction"))
          else if negb (transaction_status_eqb (tx_status transaction) TX_COMPLETED) then
            (db, Raise (mkHTTPException 400 "Can only rate completed transactions"))
          else
            let ratee :=
              if String.eqb (agent_id me) (buyer_id transaction)
              then tx_seller_id transaction else buyer_id transaction in
            match scalar_one_or_none
                    (ratings_where db (rc_transaction_id rating_data) (agent_id me)) with
            | Raise e => (db, Raise e)
            | Return (Some _) =>
                (db, Raise (mkHTTPException 400 "You have already rated this transaction"))
            | Return None =>
                let rating :=
                  mkRating new_id (rc_transaction_id rating_data) (agent_id me) ratee
                           (rc_score rating_data) (rc_review rating_data)
                           (rc_communication_score rating_data)
                           (rc_accuracy_score rating_data)
                           (rc_speed_score rating_data) in
                match ratings db !! new_id, agents db !! ratee with
                | None, Some ratee_row =>
                    (mkStore (<[agent_id ratee_row := fold_score ratee_row (rc_score rating_data)]>
                                (agents db))
                             (categories db) (listings db) (transactions db)
                             (<[new_id := rating]> (ratings db)),
                     Return rating)
                | _, _ => (db, unexpected)
                end
            end
      end
  end.

(** *** [POST /listings/] *)

Record ListingCreate : Type := mkListingCreate {
  lc_title : string;
  lc_description : string;
  lc_category_id : option string;
  lc_listing_type : ListingType;
  lc_price : float;
  lc_min_price : option float;
  lc_buy_now_price : option float;
  lc_quantity : Z;
  lc_tags : option (list string);
  lc_expires_in_days : option Z
}.

Definition valid_ListingCreate (l : ListingCreate) : bool :=
  let n := Z.of_nat (char_length (lc_title l)) in
  let d := Z.of_nat (char_length (lc_description l)) in
  (1 <=? n) && (n <=? 200) && (10 <=? d) && (d <=? 50000)
  && PyFloat.gt (lc_price l) 0
  && opt_positive (lc_min_price l) && opt_positive (lc_buy_now_price l)
  && (1 <=? lc_quantity l)
  && match lc_expires_in_days l with
     | None => true
     | Some k => (1 <=? k) && (k <=? 90)
     end
  && match lc_min_price l with
     | None => true
     | Some _ => listing_type_eqb (lc_listing_type l) AUCTION
     end.

Definition days (n : Z) : Z := n * 86400 * 1000000.

(** [listing_data.expires_in_days or 30] *)
Definition expires_in_days_or_30 (o : option Z) : Z :=
  match o with
  | None => 30
  | Some k => if k =? 0 then 30 else k
  end.

(** [if listing_data.category_id:] and the query that follows it. *)
Definition category_ok (db : Store) (c : option string) : bool :=
  match c with
  | None => true
  | Some cid =>
      if String.eqb cid "" then true
      else match categories db !! cid with
           | Some cat => category_is_active cat
           | None => false
           end
  end.

(** [create_listing]; Guardian's state is the process-wide singleton, so
    what a review changed stays changed when the request is rejected. *)
Definition create_listing (g : Guardian.GuardianModerator) (db : Store)
    (current_agent : string) (listing_data : ListingCreate)
    (new_id : string) (now : Z) (pick : nat)
  : (Guardian.GuardianModerator * Store) * outcome Listing :=
  if negb (valid_ListingCreate listing_data) then ((g, db), unprocessable) else
  match agents db !! current_agent with
  | None => ((g, db), unexpected)
  | Some me =>
      let '(g', guardian_review) :=
        Guardian.review_listing g "pending" (lc_title listing_data)
          (lc_description listing_data) (default [] (lc_tags listing_data))
          (agent_id me) now pick in
      if negb (Guardian.approved guardian_review) then
        ((g', db),
         Raise (mkHTTPException 400
                  ("🛡️ Guardian Review: " +:+ Guardian.message guardian_review)))
      else if negb (category_ok db (lc_category_id listing_data)) then
        ((g', db), Raise (mkHTTPException 400 "Invalid category"))
      else if PyFloat.lt (lc_price listing_data) Settings.MIN_LISTING_PRICE then
        ((g', db), Raise (mkHTTPException 400 "Minimum listing price is 0.01 credits"))
      else if PyFloat.gt (lc_price listing_data) Settings.MAX_LISTING_PRICE then
        ((g', db), Raise (mkHTTPException 400 "Maximum listing price is 1000000.0 credits"))
      else
        let listing :=
          mkListing new_id (agent_id me) (lc_category_id listing_data)
                    (lc_title listing_data) (lc_description listing_data)
                    (lc_listing_type listing_data) (lc_price listing_data)
                    (lc_min_price listing_data) (lc_buy_now_price listing_data)
                    (lc_quantity listing_data) (lc_tags listing_data) LISTING_ACTIVE 0
                    (Some (now + days (expires_in_days_or_30
                                         (lc_expires_in_days listing_data)))) in
        match listings db !! new_id with
        | Some _ => ((g', db), unexpected)
        | None => ((g', with_listings db (<[new_id := listing]> (listings db))),
                   if valid_ListingResponse listing then Return listing else unexpected)
        end
  end.

(** *** [POST /agents/register] *)

Record AgentRegistrationRequest : Type := mkAgentRegistrationRequest {
  reg_name : string;
  reg_email : option string;
  reg_challenge_id : string;
  reg_challenge_answer : string
}.

Definition valid_AgentRegistrationRequest (r : AgentRegistrationRequest) : bool :=
  let n := Z.of_nat (char_length (reg_name r)) in
  (1 <=? n) && (n <=? 100).

Record TokenResponse : Type := mkTokenResponse {
  token_api_key : string;
  token_agent_id : string;
  token_message : string
}.

(** [select(Agent).where(Agent.email == registration.email)] *)
Definition agents_where_email (db : Store) (e : string) : list Agent :=
  List.map snd (map_to_list (filter (fun kv => email (snd kv) = Some e) (agents db))).

Definition email_taken (db : Store) (e : option string) : outcome bool :=
  match e with
  | None => Return false
  | Some e =>
      if String.eqb e "" then Return false
      else match scalar_one_or_none (agents_where_email db e) with
           | Raise x => Raise x
           | Return None => Return false
           | Return (Some _) => Return true
           end
  end.

Section Register.

Variable hash_api_key : string -> string.

(** [register_agent].  [request_start] is the clock read in the first
    line of the handler; [now_elapsed] and [now] are the two later reads
    inside [verify_registration] and [verify_challenge_response];
    [new_key] and [new_id] are the draws of [create_api_key()] and
    [generate_id()].  The handler also calls [validate_agent_metadata]
    after the verification; nothing reads its result. *)
Definition register_agent (active_challenges : gmap string Verification.Challenge)
    (db : Store) (registration : AgentRegistrationRequest)
    (request_start now_elapsed now : Z) (new_key new_id : string)
  : (gmap string Verification.Challenge * Store) * outcome TokenResponse :=
  if negb (valid_AgentRegistrationRequest registration) then
    ((active_challenges, db), unprocessable)
  else
    let '(challenges', (is_valid, reason)) :=
      Verification.verify_registration active_challenges
        (reg_challenge_id registration) (reg_challenge_answer registration)
        request_start now_elapsed now in
    if negb is_valid then
      if String.eqb reason "challenge_not_found_or_expired" then
        ((challenges', db),
         Raise (mkHTTPException 400
           "Challenge not found or expired. Get a new challenge from GET /agents/challenge"))
      else if String.eqb reason "incorrect_answer" then
        ((challenges', db),
         Raise (mkHTTPException 403
           "Incorrect challenge answer. This marketplace is for AI agents only. Humans can view at /listings but cannot register."))
      else if String.eqb reason "response_too_slow" then
        ((challenges', db),
         Raise (mkHTTPException 403
           "Response too slow. AI agents should solve these challenges quickly. If you're human, you can view the marketplace at /listings but cannot register."))
      else
        ((challenges', db),
         Raise (mkHTTPException 400 ("Verification failed: " +:+ reason)))
    else
      match email_taken db (reg_email registration) with
      | Raise e => ((challenges', db), Raise e)
      | Return true =>
          ((challenges', db), Raise (mkHTTPException 400 "Email already registered"))
      | Return false =>
          let agent :=
            mkAgent new_id (reg_name registration) (hash_api_key new_key)
                    (reg_email registration) AGENT_ACTIVE Settings.DEFAULT_AGENT_CREDITS
                    false 0%float 0 0 0 None in
          match agents db !! new_id with
          | Some _ => ((challenges', db), unexpected)
          | None =>
              ((challenges', with_agents db (<[new_id := agent]> (agents db))),
               Return (mkTokenResponse new_key new_id
                         (" AI Agent '" +:+ reg_name registration
                          +:+ "' verified and registered! Verification: " +:+ reason
                          +:+ ". Save your API key securely!")))
          end
      end.

End Register.

End Routers.

(** ** Further helpers ([utils/helpers.py]) *)

Module Display.

(** [s[:n]] and [s[n:]] for [n >= 0]. *)
Fixpoint str_take (n : nat) (s : string) : string :=
  match n, s with
  | O, _ => EmptyString
  | S _, EmptyString => EmptyString
  | S k, String c s' => String c (str_take k s')
  end.

Fixpoint str_drop (n : nat) (s : string) : string :=
  match n, s with
  | O, _ => s
  | S _, EmptyString => EmptyString
  | S k, String _ s' => str_drop k s'
  end.

(** [s[-n:]] for [n > 0]: the last [n] characters, or all of [s] when it
    is shorter. *)
Definition str_last (n : nat) (s : string) : string :=
  str_drop (String.length s - n) s.

(** [mask_api_key]; keys are ASCII, so bytes are characters. *)
Definition mask_api_key (api_key : string) : string :=
  if Z.of_nat (String.length api_key) <=? 10
  then str_take 4 api_key +:+ "..."
  else str_take 7 api_key +:+ "..." +:+ str_last 4 api_key.

End Display.

(** ** Category policy ([utils/content_moderation.py]) *)

Module CategoryPolicy.

Import Text Moderation.

(** [check_category_safety(name, description)] *)
Definition check_category_safety (name description : string) : bool * string :=
  let text := lower (name +:+ " " +:+ description) in
  match first_keyword PROHIBITED_KEYWORDS text with
  | Some kw => (false, "Category contains prohibited term: '" +:+ kw +:+ "'")
  | None => (true, "Category approved")
  end.

End CategoryPolicy.

(** ** Guardian's other reviews ([services/guardian_moderator.py]) *)

Module GuardianReviews.

Import Text Moderation Guardian.

(** The dict [review_category] returns. *)
Record CategoryReview : Type := mkCategoryReview {
  category_approved : bool;
  category_action : string;
  category_message : string;
  category_log_id : LogId
}.

(** [review_category] *)
Definition review_category (g : GuardianModerator)
    (category_name description agent_id : string) (now : Z)
  : GuardianModerator * CategoryReview :=
  let '(is_safe, reason) := CategoryPolicy.check_category_safety category_name description in
  let '(act, msg) :=
    if is_safe then (APPROVED, "✅ Category approved by Guardian.")
    else (REMOVED, "🛡️ Category rejected by Guardian: " +:+ reason) in
  let '(g1, lid) := generate_log_id g now in
  let entry :=
    mkModerationLog lid now act "category" category_name (Some agent_id)
                    (if negb is_safe then reason else "Category approved") None true in
  (mkGuardian (moderation_logs g1 ++ [entry]) (agent_trust_scores g1)
              (flagged_content g1) (log_counter g1),
   mkCategoryReview is_safe (action_value act) msg lid).

(** The dict [review_message] returns ([message] is absent when the
    message is approved). *)
Record MessageReview : Type := mkMessageReview {
  message_approved : bool;
  message_action : string;
  message_text : option string
}.

(** [review_message] *)
Definition review_message (g : GuardianModerator)
    (message_id content sender_id : string) (now : Z)
  : GuardianModerator * MessageReview :=
  let '(is_safe, reason) := check_content_safety "" content [] in
  if is_safe then (g, mkMessageReview true "approved" None)
  else
    let g1 := flag_content g "message" message_id reason sender_id now in
    let g2 := record_warning g1 sender_id in
    (g2, mkMessageReview false "flagged" (Some ("🛡️ Message flagged: " +:+ reason))).

(** [POST /guardian/report] ([routers/guardian.py]): the report is filed
    under the reporter's id. *)
Definition report_content (g : GuardianModerator)
    (content_type content_id reason current_agent : string) (now : Z) : GuardianModerator :=
  flag_content g content_type content_id ("User report: " +:+ reason) current_agent now.

End GuardianReviews.

(** ** More of the registration gate ([utils/agent_verification.py]) *)

Module Challenges.

Import Text Verification.

(** The inner [prime_factors] of [generate_math_challenge].  The two
    nested [while] loops are two recursions on a count of iterations that
    the loops cannot exceed: the inner loop divides [n], which is at
    least [d * d], by [d >= 2]; the outer loop raises [d] while
    [d * d <= n]. *)
Fixpoint divide_out (fuel : nat) (n d : Z) : list Z * Z :=
  match fuel with
  | O => ([], n)
  | S k =>
      if n mod d =? 0
      then let '(fs, n') := divide_out k (n / d) d in (d :: fs, n')
      else ([], n)
  end.

Fixpoint trial_division (fuel : nat) (n d : Z) : list Z :=
  match fuel with
  | O => []
  | S k =>
      if d * d <=? n
      then let '(fs, n') := divide_out (Z.to_nat n) n d in
           fs ++ trial_division k n' (d + 1)
      else if 1 <? n then [n] else []
  end.

Definition prime_factors (n : Z) : list Z :=
  trial_division (S (Z.to_nat n)) n 2.

Definition sum_list (l : list Z) : Z := foldr Z.add 0 l.

(** [sum(set(prime_factors(a)))] *)
Definition sum_unique_prime_factors (a : Z) : Z :=
  sum_list (remove_dups (prime_factors a)).

(** The [sum_of_primes] branch of [generate_math_challenge] for the draw
    [a]. *)
Definition sum_of_primes_challenge (a : Z) : string * string :=
  ("Calculate sum of unique prime factors of " +:+ str_of_int a,
   str_of_int (sum_unique_prime_factors a)).

Definition KNOWN_AGENT_FRAMEWORKS : list string :=
  [ "langchain"; "autogen"; "crewai"; "autogpt"; "babyagi"; "superagi"; "agents";
    "llama-agents"; "semantic-kernel"; "haystack"; "fixie"; "dust"; "steamship";
    "openai-assistants"; "anthropic-claude"; "google-gemini"; "custom-agent" ].

Definition AGENT_INDICATORS : list string :=
  [ "python-requests"; "httpx"; "aiohttp"; "curl"; "node-fetch"; "axios"; "got" ].

Definition browser_indicators : list string :=
  [ "Mozilla"; "Chrome"; "Safari"; "Firefox"; "Edge"; "Opera" ].

(** [validate_agent_metadata]; [agent_version] is accepted and not read. *)
Definition validate_agent_metadata (user_agent : string)
    (agent_framework agent_version : option string) : bool * string :=
  let user_agent_lower := lower user_agent in
  if existsb (fun browser => contains (lower browser) user_agent_lower) browser_indicators
  then (true, "browser_detected")
  else
    let known :=
      match agent_framework with
      | None => false
      | Some fw =>
          negb (String.eqb fw "")
          && existsb (fun f => contains f (lower fw)) KNOWN_AGENT_FRAMEWORKS
      end in
    if known then (true, "known_framework")
    else if existsb (fun i => contains (lower i) user_agent_lower) AGENT_INDICATORS
    then (true, "programmatic_access")
    else (true, "unknown_client").

(** [ResponseTimeTracker]: per agent, the recorded (time, response_ms)
    pairs, oldest first. *)
Definition record_request (request_times : gmap string (list (Z * float)))
    (agent_id : string) (response_time_ms : float) (now : Z)
  : gmap string (list (Z * float)) :=
  let old := default [] (request_times !! agent_id) in
  let all := old ++ [(now, response_time_ms)] in
  <[agent_id := drop (List.length all - 100) all]> request_times.

(** What the client is sent: the challenge without its answer. *)
Record ClientChallenge : Type := mkClientChallenge {
  client_challenge_id : string;
  client_challenge_type : string;
  client_challenge : string;
  client_expires_at : Z;
  client_instructions : string
}.

(** [create_registration_challenge], given the draws of
    [generate_verification_challenge]; [now] is the clock reading when
    the challenge is generated, [now_store] the later reading of
    [store_challenge]. *)
Definition create_registration_challenge (active_challenges : gmap string Challenge)
    (cid ctype : string) (problem : string * string) (now now_store : Z)
  : gmap string Challenge * ClientChallenge :=
  let ch := generate_verification_challenge cid ctype problem now in
  (store_challenge active_challenges (challenge_id ch) ch now_store,
   mkClientChallenge (challenge_id ch) (challenge_type ch) (challenge ch) (expires_at ch)
     "Solve this challenge to prove you are an AI agent. Humans may view the marketplace but cannot register.").

End Challenges.

(** ** API keys ([utils/auth.py], [routers/agents.py]) *)

Module ApiKeys.

Import Text Db Http.

(** [create_api_key] for the draw [random_part] of
    [secrets.token_urlsafe(32)]. *)
Definition create_api_key (random_part : string) : string :=
  Settings.API_KEY_PREFIX +:+ random_part.

Section WithHash.

Variable hash_api_key : string -> string.

(** [verify_api_key] ([secrets.compare_digest] is string equality). *)
Definition verify_api_key (stored_hash provided_key : string) : bool :=
  String.eqb stored_hash (hash_api_key provided_key).

Definition set_api_key_hash (a : Agent) (h : string) : Agent :=
  mkAgent (agent_id a) (agent_name a) h (email a) (status a) (credits a)
          (is_verified a) (rating_avg a) (rating_count a) (total_sales a)
          (total_purchases a) (last_active_at a).

(** [POST /agents/me/regenerate-key]; [new_key] is the draw of
    [create_api_key()].  The response carries the new key. *)
Definition regenerate_api_key (db : Store) (current_agent : string) (new_key : string)
  : Store * outcome string :=
  match agents db !! current_agent with
  | None => (db, unexpected)
  | Some me =>
      (with_agents db
         (<[agent_id me := set_api_key_hash me (hash_api_key new_key)]> (agents db)),
       Return new_key)
  end.

End WithHash.

End ApiKeys.

(** ** After the purchase ([routers/transactions.py]) *)

Module Fulfilment.

Import Text Db Http Routers.

Definition set_total_sales (a : Agent) (n : Z) : Agent :=
  mkAgent (agent_id a) (agent_name a) (api_key_hash a) (email a) (status a) (credits a)
          (is_verified a) (rating_avg a) (rating_count a) n
          (total_purchases a) (last_active_at a).

Definition delivered (t : Transaction) (notes : option string) (now : Z) : Transaction :=
  mkTransaction (transaction_id t) (tx_listing_id t) (buyer_id t) (tx_seller_id t)
                (tx_quantity t) (unit_price t) (total_amount t) (fee_amount t)
                (net_amount t) TX_COMPLETED (buyer_notes t) notes (Some now).

Definition disputed (t : Transaction) (bnotes snotes : option string) : Transaction :=
  mkTransaction (transaction_id t) (tx_listing_id t) (buyer_id t) (tx_seller_id t)
                (tx_quantity t) (unit_price t) (total_amount t) (fee_amount t)
                (net_amount t) TX_DISPUTED bnotes snotes (completed_at t).

(** The body of [POST /transactions/{id}/deliver] that the handler reads:
    the seller's notes (the delivery payload is stored as it comes). *)
Record TransactionDelivery : Type := mkTransactionDelivery {
  delivery_seller_notes : option string
}.

Definition valid_TransactionDelivery (d : TransactionDelivery) : bool :=
  match delivery_seller_notes d with
  | None => true
  | Some n => Z.of_nat (char_length n) <=? 1000
  end.

(** [deliver_transaction]; the response embeds the listing of the
    transaction and is built after the commit. *)
Definition deliver_transaction (db : Store) (current_agent : string) (txid : string)
    (delivery_data : TransactionDelivery) (now : Z) : Store * outcome Transaction :=
  if negb (valid_TransactionDelivery delivery_data) then (db, unprocessable) else
  match agents db !! current_agent with
  | None => (db, unexpected)
  | Some me =>
      match transactions db !! txid with
      | None => (db, Raise (mkHTTPException 404 "Transaction not found"))
      | Some transaction =>
          if negb (String.eqb (tx_seller_id transaction) (agent_id me)) then
            (db, Raise (mkHTTPException 403 "Only the seller can deliver this transaction"))
          else if negb (transaction_status_eqb (tx_status transaction) TX_PENDING) then
            (db, Raise (mkHTTPException 400 "Transaction cannot be delivered"))
          else
            let transaction' :=
              delivered transaction (delivery_seller_notes delivery_data) now in
            let me1 := set_credits me (credits me + net_amount transaction)%float in
            let me2 := set_total_sales me1 (total_sales me1 + 1) in
            (mkStore (<[agent_id me := me2]> (agents db)) (categories db) (listings db)
                     (<[transaction_id transaction := transaction']> (transactions db))
                     (ratings db),
             if transaction_response_ok db transaction then Return transaction'
             else unexpected)
      end
  end.

(** [confirm_delivery] *)
Definition confirm_delivery (db : Store) (current_agent : string) (txid : string)
  : Store * outcome Transaction :=
  match agents db !! current_agent with
  | None => (db, unexpected)
  | Some me =>
      match transactions db !! txid with
      | None => (db, Raise (mkHTTPException 404 "Transaction not found"))
      | Some transaction =>
          if negb (String.eqb (buyer_id transaction) (agent_id me)) then
            (db, Raise (mkHTTPException 403 "Only the buyer can confirm this transaction"))
          else if negb (transaction_status_eqb (tx_status transaction) TX_COMPLETED) then
            (db, Raise (mkHTTPException 400 "Transaction is not in completed status"))
          else if transaction_response_ok db transaction then (db, Return transaction)
          else (db, unexpected)
      end
  end.

(** [(notes or "") + f"\n{dispute_note}"] *)
Definition append_note (notes : option string) (dispute_note : string) : string :=
  default "" notes +:+ String (ascii_of_N 10) dispute_note.

(** [dispute_transaction]; the response is the transaction id. *)
Definition dispute_transaction (db : Store) (current_agent : string)
    (txid reason : string) : Store * outcome string :=
  match agents db !! current_agent with
  | None => (db, unexpected)
  | Some me =>
      match transactions db !! txid with
      | None => (db, Raise (mkHTTPException 404 "Transaction not found"))
      | Some transaction =>
          if negb (String.eqb (buyer_id transaction) (agent_id me))
             && negb (String.eqb (tx_seller_id transaction) (agent_id me)) then
            (db, Raise (mkHTTPException 403 "Not authorized to dispute this transaction"))
          else if negb (transaction_status_eqb (tx_status transaction) TX_PENDING
                        || transaction_status_eqb (tx_status transaction) TX_COMPLETED) then
            (db, Raise (mkHTTPException 400 "Transaction cannot be disputed"))
          else
            let dispute_note := "DISPUTED by " +:+ agent_id me +:+ ": " +:+ reason in
            let transaction' :=
              if String.eqb (buyer_id transaction) (agent_id me)
              then disputed transaction
                     (Some (append_note (buyer_notes transaction) dispute_note))
                     (seller_notes transaction)
              else disputed transaction (buyer_notes transaction)
                     (Some (append_note (seller_notes transaction) dispute_note)) in
            (with_transactions db
               (<[transaction_id transaction := transaction']> (transactions db)),
             Return txid)
      end
  end.

(** [get_transaction] *)
Definition get_transaction (db : Store) (current_agent : string) (txid : string)
  : Store * outcome Transaction :=
  match agents db !! current_agent with
  | None => (db, unexpected)
  | Some me =>
      match transactions db !! txid with
      | None => (db, Raise (mkHTTPException 404 "Transaction not found"))
      | Some transaction =>
          if negb (String.eqb (buyer_id transaction) (agent_id me))
             && negb (String.eqb (tx_seller_id transaction) (agent_id me)) then
            (db, Raise (mkHTTPException 403 "Not authorized to view this transaction"))
          else if transaction_response_ok db transaction then (db, Return transaction)
          else (db, unexpected)
      end
  end.

End Fulfilment.

(** ** Viewing, cancelling and watching listings ([routers/listings.py]) *)

Module ListingAccess.

Import Text Db Http Routers.

Definition set_view_count (l : Listing) (n : Z) : Listing :=
  mkListing (listing_id l) (seller_id l) (listing_category_id l) (title l) (description l)
            (listing_type l) (price l) (min_price l) (buy_now_price l) (quantity l) (tags l)
            (listing_status l) n (listing_expires_at l).

(** [not current_agent or current_agent.id != listing.seller_id];
    [current_agent] is what [get_optional_agent] returned. *)
Definition not_the_seller (current_agent : option Agent) (l : Listing) : bool :=
  match current_agent with
  | None => true
  | Some a => negb (String.eqb (agent_id a) (seller_id l))
  end.

(** [get_listing]; the view is counted and committed before the response
    is built. *)
Definition get_listing (db : Store) (lid : string) (current_agent : option Agent)
  : Store * outcome Listing :=
  match listings db !! lid with
  | None => (db, Raise (mkHTTPException 404 "Listing not found"))
  | Some listing =>
      if negb (listing_status_eqb (listing_status listing) LISTING_ACTIVE)
         && not_the_seller current_agent listing then
        (db, Raise (mkHTTPException 404 "Listing not found"))
      else if not_the_seller current_agent listing then
        let listing' := set_view_count listing (view_count listing + 1) in
        (with_listings db (<[listing_id listing := listing']> (listings db)),
         if valid_ListingResponse listing' then Return listing' else unexpected)
      else (db, if valid_ListingResponse listing then Return listing else unexpected)
  end.

(** [delete_listing] *)
Definition delete_listing (db : Store) (current_agent : string) (lid : string)
  : Store * outcome bool :=
  match agents db !! current_agent with
  | None => (db, unexpected)
  | Some me =>
      match listings db !! lid with
      | None => (db, Raise (mkHTTPException 404 "Listing not found"))
      | Some listing =>
          if negb (String.eqb (seller_id listing) (agent_id me)) then
            (db, Raise (mkHTTPException 403 "Not authorized to delete this listing"))
          else if listing_status_eqb (listing_status listing) LISTING_SOLD then
            (db, Raise (mkHTTPException 400 "Cannot delete a sold listing"))
          else
            (with_listings db
               (<[listing_id listing :=
                    set_quantity_status listing (quantity listing) LISTING_CANCELLED]>
                  (listings db)),
             Return true)
      end
  end.

(** A row of the [watchlist] table. *)
Record WatchlistItem : Type := mkWatchlistItem {
  watch_id : string;
  watch_agent_id : string;
  watch_listing_id : string;
  notify_price_drop : bool;
  notify_ending_soon : bool
}.

(** The request body; the handler takes the listing from the path and
    does not read [listing_id] of the body. *)
Record WatchlistCreate : Type := mkWatchlistCreate {
  wc_listing_id : string;
  wc_notify_price_drop : bool;
  wc_notify_ending_soon : bool
}.

(** [select(WatchlistItem).where(agent_id == ..., listing_id == ...)] *)
Definition watch_where (watchlist : gmap string WatchlistItem) (agent lid : string)
  : list WatchlistItem :=
  List.map snd
    (map_to_list
       (filter (fun kv => watch_agent_id (snd kv) = agent /\ watch_listing_id (snd kv) = lid)
               watchlist)).

(** [add_to_watchlist]; the [watchlist] table is passed beside the other
    tables. *)
Definition add_to_watchlist (db : Store) (watchlist : gmap string WatchlistItem)
    (current_agent : string) (lid : string) (watchlist_data : WatchlistCreate)
    (new_id : string) : gmap string WatchlistItem * outcome WatchlistItem :=
  match agents db !! current_agent with
  | None => (watchlist, unexpected)
  | Some me =>
      match listings db !! lid with
      | None => (watchlist, Raise (mkHTTPException 404 "Listing not found"))
      | Some listing =>
          if negb (listing_status_eqb (listing_status listing) LISTING_ACTIVE) then
            (watchlist, Raise (mkHTTPException 404 "Listing not found"))
          else if String.eqb (seller_id listing) (agent_id me) then
            (watchlist, Raise (mkHTTPException 400 "Cannot watch your own listing"))
          else
            match scalar_one_or_none (watch_where watchlist (agent_id me) lid) with
            | Raise e => (watchlist, Raise e)
            | Return (Some _) =>
                (watchlist, Raise (mkHTTPException 400 "Already watching this listing"))
            | Return None =>
                let item :=
                  mkWatchlistItem new_id (agent_id me) lid
                                  (wc_notify_price_drop watchlist_data)
                                  (wc_notify_ending_soon watchlist_data) in
                match watchlist !! new_id with
                | Some _ => (watchlist, unexpected)
                | None => (<[new_id := item]> watchlist, Return item)
                end
            end
      end
  end.

(** [remove_from_watchlist] *)
Definition remove_from_watchlist (db : Store) (watchlist : gmap string WatchlistItem)
    (current_agent : string) (lid : string)
  : gmap string WatchlistItem * outcome bool :=
  match agents db !! current_agent with
  | None => (watchlist, unexpected)
  | Some me =>
      match scalar_one_or_none (watch_where watchlist (agent_id me) lid) with
      | Raise e => (watchlist, Raise e)
      | Return None => (watchlist, Raise (mkHTTPException 404 "Not watching this listing"))
      | Return (Some item) => (delete (watch_id item) watchlist, Return true)
      end
  end.

End ListingAccess.

(** ** Sample data

    Concrete stores and requests on which the statements below are
    exercised. *)

Module Samples.

Import Db Routers.

(** A stand-in for SHA-256 wherever a concrete digest is needed. *)
Definition sample_hash (key : string) : string := "sha256:" +:+ key.

Definition sample_agent (id key : string) (st : AgentStatus) (c : float) : Agent :=
  mkAgent id id (sample_hash key) None st c false 0%float 0 0 0 None.

Definition alice : Agent := sample_agent "alice" "aam_alice" AGENT_ACTIVE 100.
Definition bob : Agent := sample_agent "bob" "aam_bob" AGENT_ACTIVE 100.
Definition carol : Agent := sample_agent "carol" "aam_carol" AGENT_SUSPENDED 100.
Definition dave : Agent := sample_agent "dave" "aam_dave" AGENT_BANNED 100.
Definition erin : Agent := sample_agent "erin" "aam_erin" AGENT_ACTIVE 100.

Definition sample_listing (id seller : string) (p : float) (q : Z) : Listing :=
  mkListing id seller None "Weather data feed" "Hourly weather observations as JSON"
            FIXED_PRICE p None None q None LISTING_ACTIVE 0 None.

Definition completed_tx (id buyer seller : string) : Transaction :=
  mkTransaction id "l1" buyer seller 1 10 10 0.25 9.75 TX_COMPLETED None None (Some 0).

Definition store0 : Store :=
  mkStore (<["alice" := alice]> (<["bob" := bob]> (<["carol" := carol]>
             (<["dave" := dave]> (<["erin" := erin]> ∅)))))
          ∅
          (<["l1" := sample_listing "l1" "alice" 10 1]>
             (<["l2" := sample_listing "l2" "alice" 2.5 3]> ∅))
          (<["t1" := completed_tx "t1" "bob" "alice"]>
             (<["t2" := completed_tx "t2" "bob" "alice"]>
                (<["t3" := completed_tx "t3" "bob" "alice"]> ∅)))
          ∅.

Definition rate (tx : string) (s : Z) : RatingCreate :=
  mkRatingCreate tx s None None None None.

(** Bob rates Alice 5, 3 and 4 on the three completed transactions. *)
Definition store1 : Store := fst (create_rating store0 "bob" (rate "t1" 5) "r1").
Definition store2 : Store := fst (create_rating store1 "bob" (rate "t2" 3) "r2").
Definition store3 : Store := fst (create_rating store2 "bob" (rate "t3" 4) "r3").

Definition rating_of (db : Store) (id : string) : option (float * Z) :=
  (fun a => (rating_avg a, rating_count a)) <$> agents db !! id.

(** Alice sends Bob 30.5 credits; Bob buys the single unit of [l1]. *)
Definition transfer0 : CreditsTransfer := mkCreditsTransfer "bob" 30.5 None.
Definition purchase0 : TransactionCreate := mkTransactionCreate "l1" 1 None.

(** Two submissions to [POST /listings/]: one whose only weighted word is
    "unlock" (severity 1), and one that passes the safety check with the
    weighted words "crack", "free", "unlock" and "bypass" (severity 5). *)
Definition unlock_listing : ListingCreate :=
  mkListingCreate "Unlock premium analytics"
                  "Unlock the full analytics dashboard for your agent"
                  None FIXED_PRICE 5 None None 1 None None.

Definition nutcracker_listing : ListingCreate :=
  mkListingCreate "Nutcracker toolkit"
                  "Free to unlock, lets you bypass the waiting queue"
                  None FIXED_PRICE 5 None None 1 None None.

(** A fibonacci challenge for n = 30, issued and stored at time 0. *)
Definition fib30 : Verification.Challenge :=
  Verification.generate_verification_challenge
    "3f9a0c1d2b4e5f60" "math" (Verification.fibonacci_challenge 30) 0.

Definition challenges0 : gmap string Verification.Challenge :=
  Verification.store_challenge ∅ "3f9a0c1d2b4e5f60" fib30 0.

(** A registration that answers [fib30] correctly. *)
Definition registration0 : AgentRegistrationRequest :=
  mkAgentRegistrationRequest "bot" None "3f9a0c1d2b4e5f60" "2040".

End Samples.

(** ** Notions used to state the further properties *)

Module Notions.

Import Text Helpers Guardian.

(** A submission of ASCII text: title, description and every tag. *)
Definition ascii_text (s : string) : bool := all_chars is_ascii s.

Definition ascii_submission (title description : string) (tags : list string) : bool :=
  ascii_text title && ascii_text description && forallb ascii_text tags.

(** The items of page [k], or no items where [paginate] fails. *)
Definition page_items {A} (l : list A) (k ps : Z) : list A :=
  from_option items [] (paginate l k ps).

(** [total_pages] as [paginate] computes it. *)
Definition pages_of {A} (l : list A) (ps : Z) : Z :=
  (Z.of_nat (List.length l) + ps - 1) / ps.

(** The sequence numbers of the log entries, oldest first. *)
Definition log_numbers (g : GuardianModerator) : list Z :=
  (fun e => log_seq (log_id e)) <$> moderation_logs g.

(** The log entries are numbered 1, 2, ... up to the counter. *)
Definition well_numbered (g : GuardianModerator) : Prop :=
  0 <= log_counter g /\ log_numbers g = seqZ 1 (log_counter g).

(** An entry of the trust ledger that is filed under its own agent id,
    has a score that is not negative, and is trusted only with fewer than
    three warnings and no violation. *)
Definition entry_ok (k : string) (t : AgentTrustScore) : Prop :=
  trust_agent_id t = k
  /\ PrimFloat.leb 0 (score t) = true
  /\ (is_trusted t = true -> warnings t < 3 /\ violations t = 0).

Definition ledger_ok (g : GuardianModerator) : Prop :=
  map_Forall entry_ok (agent_trust_scores g).


(** The product of a list of integers. *)
Definition product (l : list Z) : Z := foldr Z.mul 1 l.

End Notions.

(** ** Further sample data *)

Module Scenarios.

Import Db Http Routers Samples Fulfilment ListingAccess.

(** Bob has bought the single unit of [l1] from Alice; the transaction
    [t9] is pending. *)
Definition store_bought : Store := fst (create_purchase store0 "bob" purchase0 "t9").

(** Bob has bought one of the three units of [l2] from Alice; the
    transaction [t8] is pending. *)
Definition purchase1 : TransactionCreate := mkTransactionCreate "l2" 1 None.
Definition store_bought_one : Store := fst (create_purchase store0 "bob" purchase1 "t8").

Definition handover : TransactionDelivery := mkTransactionDelivery (Some "key sent").

(** Two accounts with 1.1 and 2.2 credits. *)
Definition store_cents : Store :=
  mkStore (<["alice" := sample_agent "alice" "aam_alice" AGENT_ACTIVE 1.1]>
             (<["bob" := sample_agent "bob" "aam_bob" AGENT_ACTIVE 2.2]> ∅))
          ∅ ∅ ∅ ∅.

(** Erin watches [l2]. *)
Definition watch0 : WatchlistCreate := mkWatchlistCreate "l2" true false.

End Scenarios.

(** * Properties *)

Module HelpersFacts.

Import Helpers.

Lemma length_py_slice {A} (l : list A) (start stop : Z) :
  Z.of_nat (List.length (py_slice l start stop))
  <= Z.max 0 (clamp_index (Z.of_nat (List.length l)) stop
              - clamp_index (Z.of_nat (List.length l)) start).
Proof.
  unfold py_slice. rewrite length_take. lia.
Qed.

Lemma ceil_div_bounds (t ps : Z) :
  0 < ps -> ((t + ps - 1) / ps - 1) * ps < t <= (t + ps - 1) / ps * ps.
Proof.
  intros Hps.
  pose proof (Z.div_mod (t + ps - 1) ps ltac:(lia)) as Hdm.
  pose proof (Z.mod_pos_bound (t + ps - 1) ps Hps) as Hb.
  nia.
Qed.

(** C10.  For [page >= 1] and [page_size >= 1], [paginate] returns the
    length of the list as [total], the ceiling of [total / page_size] as
    [total_pages] (the least [k] with [total <= k * page_size]: 3 for 45
    items in pages of 20, 0 for no items), and at most [page_size]
    items. *)
Theorem paginate_spec {A} (its : list A) (pg ps : Z) :
  1 <= pg -> 1 <= ps ->
  exists p,
    paginate its pg ps = Some p
    /\ total p = Z.of_nat (List.length its)
    /\ (total_pages p - 1) * ps < total p <= total_pages p * ps
    /\ Z.of_nat (List.length (items p)) <= ps
    /\ (total p = 45 -> ps = 20 -> total_pages p = 3)
    /\ (total p = 0 -> total_pages p = 0).
Proof.
  intros Hpg Hps. unfold paginate.
  destruct (ps =? 0) eqn:E; [lia|].
  eexists; split; [reflexivity|]. cbn [total total_pages items].
  set (t := Z.of_nat (List.length its)).
  pose proof (ceil_div_bounds t ps ltac:(lia)) as Hc.
  split; [reflexivity|]. split; [lia|]. split.
  - pose proof (length_py_slice its ((pg - 1) * ps) ((pg - 1) * ps + ps)) as Hl.
    fold t in Hl. unfold clamp_index in Hl.
    destruct ((pg - 1) * ps <? 0) eqn:E1; [nia|].
    destruct ((pg - 1) * ps + ps <? 0) eqn:E2; [nia|]. lia.
  - split.
    + intros Ht ->. rewrite Ht. reflexivity.
    + intros Ht. nia.
Qed.
Lemma paginate_spec_witness :
  exists p,
    paginate [10; 20; 30; 40; 50] 3 2 = Some p
    /\ total p = 5
    /\ (total_pages p - 1) * 2 < total p <= total_pages p * 2
    /\ Z.of_nat (List.length (items p)) <= 2
    /\ (total p = 45 -> 2 = 20 -> total_pages p = 3)
    /\ (total p = 0 -> total_pages p = 0).
Proof.
  apply (paginate_spec [10; 20; 30; 40; 50] 3 2); lia.
Defined.

Example paginate_samples :
  paginate [10; 20; 30; 40; 50] 3 2 = Some (mkPage [50] 5 3 2 3)
  /\ total_pages <$> paginate (replicate 45 tt) 1 20 = Some 3
  /\ total_pages <$> paginate (@nil Z) 1 20 = Some 0
  /\ paginate [10; 20; 30] 1 0 = None.
Proof. repeat split; vm_compute; reflexivity. Qed.

End HelpersFacts.

Module FeeFacts.

Import Helpers.

(** C8, as amended.  [calculate_transaction_fee(amount, fee_percent)]
    returns [fee = round(amount * (fee_percent / 100), 2)] (the percentage
    is divided by 100 first) and [net = round(amount - fee, 2)]; for
    amount 100.0 and 2.5 percent the fee is 2.5 and the net 97.5, and
    there [fee + net] is the rounded total. *)
Theorem calculate_transaction_fee_spec :
  (forall amount fee_percent : float,
      calculate_transaction_fee amount fee_percent
      = (PyFloat.round2 (amount * (fee_percent / 100)),
         PyFloat.round2 (amount - PyFloat.round2 (amount * (fee_percent / 100))))%float)
  /\ calculate_transaction_fee 100 2.5 = (2.5, 97.5)%float
  /\ (2.5 + 97.5)%float = PyFloat.round2 100.
Proof.
  split; [reflexivity|]. split; vm_compute; reflexivity.
Qed.

(** C8 as stated fails.  (1) For the non-negative amount 0.375 at 2.5
    percent the fee is 0.01 and the net 0.36, which add up to 0.37, while
    the total rounded to two decimals is 0.38.  (2) The fee is rounded
    from [amount * (fee_percent / 100)], which is not
    [amount * fee_percent / 100]: for the amount 3.0 at 2.5 percent the
    function returns the fee 0.08, while [round(3.0 * 2.5 / 100, 2)] is
    0.07. *)
Lemma fee_plus_net_counterexample :
  PyFloat.ge 0.375 0 = true
  /\ calculate_transaction_fee 0.375 2.5 = (0.01, 0.36)%float
  /\ (0.01 + 0.36)%float = 0.37%float
  /\ PyFloat.round2 0.375 = 0.38%float
  /\ PrimFloat.eqb (fst (calculate_transaction_fee 0.375 2.5)
                    + snd (calculate_transaction_fee 0.375 2.5))
                   (PyFloat.round2 0.375) = false
  /\ calculate_transaction_fee 3 2.5 = (0.08, 2.92)%float
  /\ PyFloat.round2 (3 * 2.5 / 100) = 0.07%float.
Proof.
  repeat split; vm_compute; reflexivity.
Qed.

End FeeFacts.

Module RatingFacts.

Import Db Http Routers Samples.

(** What a successful [create_rating] does to the ratee's row. *)
Lemma create_rating_success (db db' : Store) (cur : string) (rd : RatingCreate)
    (new_id : string) (r : Rating) :
  create_rating db cur rd new_id = (db', Return r) ->
  exists me tx ratee_row,
    agents db !! cur = Some me
    /\ transactions db !! rc_transaction_id rd = Some tx
    /\ tx_status tx = TX_COMPLETED
    /\ ratee_id r = (if String.eqb (agent_id me) (buyer_id tx)
                     then tx_seller_id tx else buyer_id tx)
    /\ rating_score r = rc_score rd
    /\ agents db !! ratee_id r = Some ratee_row
    /\ agents db' = <[agent_id ratee_row := fold_score ratee_row (rc_score rd)]> (agents db)
    /\ ratings db' !! new_id = Some r.
Proof.
  unfold create_rating. intros H.
  destruct (negb (valid_RatingCreate rd)); [discriminate|].
  destruct (agents db !! cur) as [me|] eqn:Hme; [|discriminate].
  destruct (transactions db !! rc_transaction_id rd) as [tx|] eqn:Htx; [|discriminate].
  destruct (negb (buyer_id tx =? agent_id me)%string
            && negb (tx_seller_id tx =? agent_id me)%string); [discriminate|].
  destruct (negb (transaction_status_eqb (tx_status tx) TX_COMPLETED)) eqn:Hst;
    [discriminate|].
  destruct (scalar_one_or_none _) as [[?|]|]; try discriminate.
  destruct (ratings db !! new_id) eqn:Hr; [discriminate|].
  match type of H with context [agents db !! ?k] => set (rk := k) in * end.
  destruct (agents db !! rk) as [row|] eqn:Hrow; [|discriminate].
  injection H as <- <-. cbn.
  exists me, tx, row. repeat split; try assumption.
  - destruct (tx_status tx); try discriminate; reflexivity.
  - apply lookup_insert_eq.
Qed.

(** C5.  Every successfully created rating with score [s] is on a
    completed transaction and replaces the ratee's aggregate by
    [round((avg * count + s) / (count + 1), 2)] and [count + 1]; an agent
    at 0.0 / 0 who is rated 5, 3 and 4 in this order has averages 5.0,
    4.0, 4.0 and ends with a count of 3. *)
Theorem create_rating_running_average :
  (forall (db db' : Store) (cur : string) (rd : RatingCreate) (new_id : string) (r : Rating),
      create_rating db cur rd new_id = (db', Return r) ->
      exists tx ratee_row,
        transactions db !! rc_transaction_id rd = Some tx
        /\ tx_status tx = TX_COMPLETED
        /\ agents db !! ratee_id r = Some ratee_row
        /\ agents db' !! agent_id ratee_row
           = Some (set_rating ratee_row
                     (PyFloat.round2
                        ((rating_avg ratee_row * PyFloat.of_int (rating_count ratee_row)
                          + PyFloat.of_int (rc_score rd))
                         / PyFloat.of_int (rating_count ratee_row + 1))%float)
                     (rating_count ratee_row + 1)))
  /\ rating_of store0 "alice" = Some (0%float, 0)
  /\ rating_of store1 "alice" = Some (5%float, 1)
  /\ rating_of store2 "alice" = Some (4%float, 2)
  /\ rating_of store3 "alice" = Some (4%float, 3).
Proof.
  split.
  - intros db db' cur rd new_id r H.
    destruct (create_rating_success _ _ _ _ _ _ H)
      as (me & tx & row & _ & Htx & Hst & _ & _ & Hrow & Hag & _).
    exists tx, row. repeat split; try assumption.
    rewrite Hag. apply lookup_insert_eq.
  - repeat split; vm_compute; reflexivity.
Qed.

(** Bob's first rating of Alice (score 5, transaction [t1]). *)
Lemma create_rating_running_average_witness :
  exists tx ratee_row,
    transactions store0 !! "t1" = Some tx
    /\ tx_status tx = TX_COMPLETED
    /\ agents store0 !! "alice" = Some ratee_row
    /\ agents store1 !! agent_id ratee_row
       = Some (set_rating ratee_row
                 (PyFloat.round2
                    ((rating_avg ratee_row * PyFloat.of_int (rating_count ratee_row)
                      + PyFloat.of_int 5)
                     / PyFloat.of_int (rating_count ratee_row + 1))%float)
                 (rating_count ratee_row + 1)).
Proof.
  apply (proj1 create_rating_running_average store0 store1 "bob" (rate "t1" 5) "r1"
               (mkRating "r1" "t1" "bob" "alice" 5 None None None None)).
  vm_compute. reflexivity.
Defined.

End RatingFacts.

Module SlugFacts.

Import Text Helpers.

Ltac each_char c := destruct c as [[] [] [] [] [] [] [] []]; vm_compute; try reflexivity; try discriminate.

Lemma is_hyphen_eq c : is_hyphen c = true -> c = hyphen.
Proof. each_char c. Qed.

Lemma slug_char_facts c :
  is_slug_char c = true ->
  is_ascii c = true /\ lower_char c = c /\ keep_char c = true
  /\ is_sep c = false /\ is_hyphen c = false.
Proof. each_char c; intros _; repeat split; reflexivity. Qed.

Lemma hyphen_facts :
  is_ascii hyphen = true /\ lower_char hyphen = hyphen /\ keep_char hyphen = true
  /\ is_sep hyphen = true /\ is_hyphen hyphen = true.
Proof. repeat split; reflexivity. Qed.

(** After lower-casing, a character that survives [remove_special] is a
    slug character, a hyphen or white space. *)
Lemma kept_lower_char c :
  keep_char (lower_char c) = true ->
  is_sep (lower_char c) = true
  \/ (is_sep (lower_char c) = false /\ is_slug_char (lower_char c) = true).
Proof. each_char c; intros _; (left; reflexivity) || (right; split; reflexivity). Qed.

Lemma remove_special_lower_chars s :
  all_chars sep_or_slug (remove_special (lower s)) = true.
Proof.
  induction s as [|c s IH]; [reflexivity|].
  cbn [lower remove_special filter_chars]. fold (remove_special (lower s)).
  destruct (keep_char (lower_char c)) eqn:E; [|exact IH].
  cbn [all_chars]. rewrite IH, andb_true_r. unfold sep_or_slug.
  destruct (kept_lower_char c E) as [->|[-> ->]]; reflexivity.
Qed.

Lemma collapse_runs_slug_body s :
  all_chars sep_or_slug s = true ->
  forall b, slug_body b (collapse_runs b s) = true.
Proof.
  induction s as [|c s IH]; [reflexivity|].
  cbn [all_chars]. intros [Hc Hs]%andb_true_iff b.
  cbn [collapse_runs]. destruct (is_sep c) eqn:Esep.
  - destruct b; [apply IH, Hs|].
    cbn [slug_body]. destruct hyphen_facts as (_ & _ & _ & _ & ->).
    cbn. apply IH, Hs.
  - unfold sep_or_slug in Hc. rewrite Esep in Hc. cbn in Hc.
    cbn [slug_body]. destruct (slug_char_facts c Hc) as (_ & _ & _ & _ & ->).
    rewrite Hc. cbn. apply IH, Hs.
Qed.

Lemma lstrip_slug_body_true s :
  slug_body true s = true -> lstrip is_hyphen s = s.
Proof.
  destruct s as [|c s]; [reflexivity|]. cbn [slug_body lstrip].
  destruct (is_hyphen c); [discriminate|reflexivity].
Qed.

Lemma lstrip_slug_body s :
  slug_body false s = true -> slug_body true (lstrip is_hyphen s) = true.
Proof.
  destruct s as [|c s]; [reflexivity|]. cbn [slug_body lstrip].
  destruct (is_hyphen c) eqn:E.
  - cbn. intros H. rewrite (lstrip_slug_body_true s H). exact H.
  - intros H. cbn [slug_body]. rewrite E. exact H.
Qed.

Lemma rstrip_slug_body s :
  forall b, slug_body b s = true ->
  slug_body b (rstrip is_hyphen s) = true
  /\ ends_with_hyphen (rstrip is_hyphen s) = false.
Proof.
  induction s as [|c s IH]; intros b H; [split; reflexivity|].
  cbn [slug_body] in H. cbn [rstrip].
  destruct (is_hyphen c) eqn:E.
  - apply andb_true_iff in H as [Hb Hs]. destruct (IH true Hs) as [H1 H2].
    destruct (rstrip is_hyphen s) as [|d r] eqn:Er; [split; reflexivity|].
    split.
    + cbn [slug_body]. rewrite E, Hb. exact H1.
    + exact H2.
  - apply andb_true_iff in H as [Hc Hs]. destruct (IH false Hs) as [H1 H2].
    destruct (rstrip is_hyphen s) as [|d r] eqn:Er.
    + split; cbn; rewrite E; [rewrite Hc|]; reflexivity.
    + split.
      * cbn [slug_body]. rewrite E, Hc. exact H1.
      * exact H2.
Qed.

Lemma strip_is_slug s :
  slug_body false s = true -> is_slug (strip is_hyphen s) = true.
Proof.
  intros H. unfold is_slug, strip.
  destruct (rstrip_slug_body _ true (lstrip_slug_body s H)) as [-> ->]. reflexivity.
Qed.

(** Every output of [slugify] is a slug. *)
Lemma slugify_is_slug (nfkd : string -> string) (s : string) :
  is_slug (slugify nfkd s) = true.
Proof.
  unfold slugify. apply strip_is_slug, collapse_runs_slug_body, remove_special_lower_chars.
Qed.

Lemma slug_body_weaken s : slug_body true s = true -> slug_body false s = true.
Proof.
  destruct s as [|c s]; [reflexivity|]. cbn [slug_body].
  destruct (is_hyphen c); [discriminate|auto].
Qed.

Lemma slug_body_chars s :
  forall b, slug_body b s = true ->
  all_chars is_ascii s = true /\ lower s = s /\ remove_special s = s
  /\ collapse_runs b s = s.
Proof.
  induction s as [|c s IH]; intros b H; [repeat split; reflexivity|].
  cbn [slug_body] in H.
  cbn [all_chars lower remove_special filter_chars collapse_runs].
  fold (remove_special s).
  destruct (is_hyphen c) eqn:E.
  - apply andb_true_iff in H as [Hb Hs]. apply negb_true_iff in Hb. subst b.
    apply is_hyphen_eq in E. subst c.
    destruct (IH true Hs) as (-> & -> & -> & ->). repeat split; reflexivity.
  - apply andb_true_iff in H as [Hc Hs].
    destruct (slug_char_facts c Hc) as (-> & -> & -> & -> & _).
    destruct (IH false Hs) as (-> & -> & -> & ->). repeat split; reflexivity.
Qed.

Lemma rstrip_no_trailing_hyphen s :
  ends_with_hyphen s = false -> rstrip is_hyphen s = s.
Proof.
  induction s as [|c s IH]; [reflexivity|].
  cbn [rstrip]. destruct s as [|d s'].
  - cbn. intros ->. reflexivity.
  - intros H. change (ends_with_hyphen (String d s') = false) in H.
    rewrite (IH H). reflexivity.
Qed.

(** On a slug, every step of [slugify] after the normalization is the
    identity. *)
Lemma slug_fixed s :
  is_slug s = true ->
  all_chars is_ascii s = true
  /\ strip is_hyphen (collapse_runs false (remove_special (lower (encode_ascii_ignore s)))) = s.
Proof.
  unfold is_slug. intros [Hb He]%andb_true_iff. apply negb_true_iff in He.
  destruct (slug_body_chars s false (slug_body_weaken s Hb)) as (Ha & Hl & Hr & Hc).
  split; [exact Ha|].
  assert (encode_ascii_ignore s = s) as ->.
  { clear -Ha. unfold encode_ascii_ignore. induction s as [|c s IH]; [reflexivity|].
    cbn [all_chars] in Ha. apply andb_true_iff in Ha as [Hc Hs].
    cbn [filter_chars]. rewrite Hc, (IH Hs). reflexivity. }
  rewrite Hl, Hr, Hc. unfold strip.
  rewrite (lstrip_slug_body_true s Hb). apply rstrip_no_trailing_hyphen, He.
Qed.

Lemma sample_NFKD_ascii s : all_chars is_ascii s = true -> sample_NFKD s = s.
Proof.
  induction s as [|c s IH]; [reflexivity|].
  cbn [all_chars]. intros [Hc Hs]%andb_true_iff.
  cbn [sample_NFKD]. destruct s as [|d s']; [reflexivity|].
  assert ((code c =? 195) = false) as ->.
  { unfold is_ascii in Hc. apply Z.ltb_lt in Hc. apply Z.eqb_neq. lia. }
  cbn [andb]. rewrite (IH Hs). reflexivity.
Qed.

(** C9.  Whatever the normalizer does to other text, as long as it leaves
    ASCII text alone (which NFKD does), [slugify] is idempotent, and it
    maps "AI Services & Tools" to "ai-services-tools". *)
Theorem slugify_idempotent (normalize_NFKD : string -> string)
    (NFKD_ascii : forall s, all_chars is_ascii s = true -> normalize_NFKD s = s) :
  (forall s, slugify normalize_NFKD (slugify normalize_NFKD s) = slugify normalize_NFKD s)
  /\ slugify normalize_NFKD "AI Services & Tools" = "ai-services-tools".
Proof.
  split.
  - intros s. pose proof (slugify_is_slug normalize_NFKD s) as Hs.
    destruct (slug_fixed _ Hs) as [Ha Hfix].
    unfold slugify at 1. rewrite (NFKD_ascii _ Ha). exact Hfix.
  - unfold slugify. rewrite NFKD_ascii by reflexivity. vm_compute. reflexivity.
Qed.

Lemma slugify_idempotent_witness :
  (forall s, slugify sample_NFKD (slugify sample_NFKD s) = slugify sample_NFKD s)
  /\ slugify sample_NFKD "AI Services & Tools" = "ai-services-tools".
Proof. exact (slugify_idempotent sample_NFKD sample_NFKD_ascii). Defined.

(** The sample normalizer is not the identity: the accent of "Café" is
    split off and dropped with the non-ASCII bytes. *)
Example slugify_sample_accent :
  slugify sample_NFKD "Café au lait!" = "cafe-au-lait"
  /\ slugify (fun s => s) "Café au lait!" = "caf-au-lait".
Proof. split; vm_compute; reflexivity. Qed.

End SlugFacts.

Module VerificationFacts.

Import Text Db Http Verification Routers Samples.

Lemma verify_unknown (store : gmap string Challenge) cid answer rt now :
  store !! cid = None ->
  verify_challenge_response store cid answer rt now
  = (store, (false, "challenge_not_found_or_expired")).
Proof. intros H. unfold verify_challenge_response. rewrite H. reflexivity. Qed.

(** C6, as amended.  The outcomes of [verify_challenge_response], in the
    order the function tests for them: an unknown id is
    [challenge_not_found_or_expired]; a stored challenge past its expiry
    is [challenge_expired] and is deleted; an answer of an unexpired
    challenge that took longer than the maximum response time is
    [response_too_slow], whatever it says (the challenge stays); an
    answer in time whose trimmed text differs from the trimmed expected
    answer is [incorrect_answer] (the challenge stays); an answer in time whose
    trimmed text matches succeeds and deletes the challenge, after which
    every further submission under the same id is
    [challenge_not_found_or_expired]. *)
Theorem verify_challenge_response_taxonomy
    (store : gmap string Challenge) (cid answer : string) (rt : float) (now : Z) :
  (store !! cid = None ->
   verify_challenge_response store cid answer rt now
   = (store, (false, "challenge_not_found_or_expired")))
  /\ (forall ch, store !! cid = Some ch ->
      (expires_at ch < now ->
       verify_challenge_response store cid answer rt now
       = (delete cid store, (false, "challenge_expired")))
      /\ (now <= expires_at ch ->
          PyFloat.gt rt (PyFloat.of_int (max_response_time_ms ch)) = true ->
          verify_challenge_response store cid answer rt now
          = (store, (false, "response_too_slow")))
      /\ (now <= expires_at ch ->
          PyFloat.gt rt (PyFloat.of_int (max_response_time_ms ch)) = false ->
          strip_ws answer <> strip_ws (expected_answer ch) ->
          verify_challenge_response store cid answer rt now
          = (store, (false, "incorrect_answer")))
      /\ (now <= expires_at ch ->
          PyFloat.gt rt (PyFloat.of_int (max_response_time_ms ch)) = false ->
          strip_ws answer = strip_ws (expected_answer ch) ->
          verify_challenge_response store cid answer rt now
          = (delete cid store,
             (true, if PyFloat.lt rt 1000 then "verified_fast_response" else "verified"))
          /\ forall answer' rt' now',
              verify_challenge_response (delete cid store) cid answer' rt' now'
              = (delete cid store, (false, "challenge_not_found_or_expired")))).
Proof.
  split; [apply verify_unknown|].
  intros ch Hch. unfold verify_challenge_response at 1 2 3 4. rewrite Hch.
  split; [|split; [|split]].
  - intros Hexp. apply Z.ltb_lt in Hexp. rewrite Hexp. reflexivity.
  - intros Hexp Hslow. apply Z.ltb_ge in Hexp. rewrite Hexp, Hslow. reflexivity.
  - intros Hexp Hslow Hne. apply Z.ltb_ge in Hexp. rewrite Hexp, Hslow.
    apply String.eqb_neq in Hne. rewrite Hne. reflexivity.
  - intros Hexp Hslow Heq. split.
    + apply Z.ltb_ge in Hexp. rewrite Hexp, Hslow.
      apply String.eqb_eq in Heq. rewrite Heq. reflexivity.
    + intros answer' rt' now'. apply verify_unknown, lookup_delete_eq.
Qed.

(** The fibonacci challenge for n = 30 expects "2040"; answered in 12.5
    ms, five seconds after it was issued, it verifies once and is gone. *)
Lemma verify_challenge_response_taxonomy_witness :
  expected_answer fib30 = "2040"
  /\ verify_challenge_response challenges0 "3f9a0c1d2b4e5f60" " 2040 " 12.5 (seconds 5)
     = (delete "3f9a0c1d2b4e5f60" challenges0, (true, "verified_fast_response"))
  /\ forall answer' rt' now',
      verify_challenge_response (delete "3f9a0c1d2b4e5f60" challenges0)
                                "3f9a0c1d2b4e5f60" answer' rt' now'
      = (delete "3f9a0c1d2b4e5f60" challenges0, (false, "challenge_not_found_or_expired")).
Proof.
  split; [reflexivity|].
  apply (proj2 (verify_challenge_response_taxonomy
                  challenges0 "3f9a0c1d2b4e5f60" " 2040 " 12.5 (seconds 5)) fib30).
  - vm_compute. reflexivity.
  - vm_compute. discriminate.
  - vm_compute. reflexivity.
  - vm_compute. reflexivity.
Defined.

(** C6 as stated fails: a mismatch is not always [incorrect_answer].  The
    stored, unexpired challenge [fib30] expects "2040" and allows 30,000
    ms; the answer "1" given after 31,000 ms is [response_too_slow], and
    the same answer given after 12.5 ms is [incorrect_answer]. *)
Lemma slow_mismatch_counterexample :
  challenges0 !! "3f9a0c1d2b4e5f60" = Some fib30
  /\ expected_answer fib30 = "2040"
  /\ max_response_time_ms fib30 = 30000
  /\ (seconds 5 <=? expires_at fib30) = true
  /\ String.eqb (strip_ws "1") (strip_ws (expected_answer fib30)) = false
  /\ verify_challenge_response challenges0 "3f9a0c1d2b4e5f60" "1" 31000 (seconds 5)
     = (challenges0, (false, "response_too_slow"))
  /\ verify_challenge_response challenges0 "3f9a0c1d2b4e5f60" "1" 12.5 (seconds 5)
     = (challenges0, (false, "incorrect_answer")).
Proof. repeat split; vm_compute; reflexivity. Qed.

(** What [verify_registration] answers does not depend on when the
    challenge was issued: [created_at] is never read. *)
Lemma verify_registration_ignores_created_at
    (store : gmap string Challenge) (cid answer : string) (ch : Challenge)
    (issued start now_elapsed now : Z) :
  store !! cid = Some ch ->
  snd (verify_registration (<[cid := set_created_at ch issued]> store)
                           cid answer start now_elapsed now)
  = snd (verify_registration store cid answer start now_elapsed now).
Proof.
  intros H. unfold verify_registration, verify_challenge_response.
  rewrite lookup_insert_eq, H. cbn [expires_at max_response_time_ms expected_answer set_created_at].
  destruct (expires_at ch <? now); [reflexivity|].
  destruct (PyFloat.gt _ _); [reflexivity|].
  destruct (negb _); reflexivity.
Qed.

(** When a stored, unexpired challenge is answered, [verify_registration]
    says [response_too_slow] exactly when the time between the two clock
    readings of the handler exceeds the maximum. *)
Lemma verify_registration_too_slow_iff
    (store : gmap string Challenge) (cid answer : string) (ch : Challenge)
    (start now_elapsed now : Z) :
  store !! cid = Some ch ->
  now <= expires_at ch ->
  snd (snd (verify_registration store cid answer start now_elapsed now)) = "response_too_slow"
  <-> PyFloat.gt (total_seconds (now_elapsed - start) * 1000)%float
                 (PyFloat.of_int (max_response_time_ms ch)) = true.
Proof.
  intros H Hexp. unfold verify_registration, verify_challenge_response. rewrite H.
  apply Z.ltb_ge in Hexp. rewrite Hexp.
  destruct (PyFloat.gt _ _); [split; reflexivity|].
  destruct (negb _); [split; discriminate|].
  destruct (PyFloat.lt _ _); split; discriminate.
Qed.

(** C2 (the code departs from the claim).  A challenge is issued at time
    0 and expires at 300 s.  The registration that answers it arrives
    60 s later: [register_agent] reads the clock at 60 s, measures 40
    microseconds until [verify_registration] reads it again, and the
    registration succeeds as [verified_fast_response], although 60 s since
    the issue exceed the 30,000 ms allowed.  In general the answer of
    [verify_registration] is the same whenever the challenge was issued,
    and it is [response_too_slow] exactly when the handler's own two
    readings are more than the maximum apart. *)
Theorem register_agent_measures_handler_time (hash_api_key : string -> string) :
  created_at fib30 = 0 /\ expires_at fib30 = seconds 300
  /\ max_response_time_ms fib30 = 30000
  /\ challenges0 !! "3f9a0c1d2b4e5f60" = Some fib30
  /\ 30000 * 1000 < seconds 60 + 40 - created_at fib30
  /\ snd (register_agent hash_api_key challenges0 store0 registration0
            (seconds 60) (seconds 60 + 40) (seconds 60 + 50) "aam_k1" "agent-9")
     = Return (mkTokenResponse "aam_k1" "agent-9"
         " AI Agent 'bot' verified and registered! Verification: verified_fast_response. Save your API key securely!")
  /\ (forall (store : gmap string Challenge) cid answer ch issued start now_elapsed now,
       store !! cid = Some ch ->
       snd (verify_registration (<[cid := set_created_at ch issued]> store)
                                cid answer start now_elapsed now)
       = snd (verify_registration store cid answer start now_elapsed now))
  /\ (forall (store : gmap string Challenge) cid answer ch start now_elapsed now,
       store !! cid = Some ch ->
       now <= expires_at ch ->
       snd (snd (verify_registration store cid answer start now_elapsed now))
       = "response_too_slow"
       <-> PyFloat.gt (total_seconds (now_elapsed - start) * 1000)%float
                      (PyFloat.of_int (max_response_time_ms ch)) = true).
Proof.
  do 5 (split; [vm_compute; reflexivity|]).
  split; [vm_compute; reflexivity|]. split.
  - intros. apply verify_registration_ignores_created_at. assumption.
  - intros. apply verify_registration_too_slow_iff; assumption.
Qed.

End VerificationFacts.

Module AuthFacts.

Import Text Db Http Auth Samples.

(** A query on a unique column returns the one row that matches. *)
Lemma agents_where_hash_unique (db : Store) (id : string) (a : Agent) :
  unique_key_hashes db ->
  agents db !! id = Some a ->
  agents_where_hash db (api_key_hash a) = [a].
Proof.
  intros Huniq Ha. unfold agents_where_hash.
  assert (filter (fun kv : string * Agent => api_key_hash (snd kv) = api_key_hash a)
                 (agents db) = {[ id := a ]}) as ->.
  { apply map_eq. intros k. apply option_eq. intros b.
    rewrite map_lookup_filter_Some, lookup_singleton_Some. cbn. split.
    - intros [Hb Hh].
      pose proof (map_Forall_lookup_1 _ _ _ _ Huniq Hb) as Hrow. cbn in Hrow.
      pose proof (map_Forall_lookup_1 _ _ _ _ Hrow Ha Hh) as ->.
      split; [reflexivity|congruence].
    - intros [<- <-]. split; [exact Ha|reflexivity]. }
  rewrite map_to_list_singleton. reflexivity.
Qed.

(** C7.  For an agent whose status is [banned] or [suspended], presenting
    its valid API key to [get_optional_agent] returns the agent's record
    with [last_active_at] set to the time of the request (and stores it),
    while [get_current_agent] refuses the same key with 403 and stores
    nothing. *)
Theorem optional_auth_skips_status_gate (hash_api_key : string -> string)
    (db : Store) (id key : string) (a : Agent) (now : Z) :
  unique_key_hashes db ->
  agents db !! id = Some a ->
  starts_with Settings.API_KEY_PREFIX key = true ->
  api_key_hash a = hash_api_key key ->
  status a = AGENT_BANNED \/ status a = AGENT_SUSPENDED ->
  get_optional_agent hash_api_key db (Some key) now
  = (with_agents db (<[agent_id a := set_last_active_at a now]> (agents db)),
     Return (Some (set_last_active_at a now)))
  /\ last_active_at (set_last_active_at a now) = Some now
  /\ status (set_last_active_at a now) = status a
  /\ exists e, get_current_agent hash_api_key db (Some key) now = (db, Raise e)
               /\ status_code e = 403.
Proof.
  intros Huniq Ha Hpre Hhash Hst.
  assert (key_missing (Some key) = false) as Hk.
  { cbn. destruct key; [discriminate Hpre|reflexivity]. }
  unfold get_optional_agent, get_current_agent. rewrite Hk.
  change (default "" (Some key)) with key. rewrite Hpre. cbn [negb orb]. rewrite <- Hhash, (agents_where_hash_unique db id a Huniq Ha).
  cbn. repeat split.
  destruct Hst as [-> | ->]; cbn; eexists; split; reflexivity.
Qed.

Lemma store0_unique_key_hashes : unique_key_hashes store0.
Proof. apply (bool_decide_unpack _). vm_compute. reflexivity. Qed.

Lemma optional_auth_skips_status_gate_witness :
  get_optional_agent sample_hash store0 (Some "aam_carol") 77
  = (with_agents store0 (<["carol" := set_last_active_at carol 77]> (agents store0)),
     Return (Some (set_last_active_at carol 77)))
  /\ last_active_at (set_last_active_at carol 77) = Some 77
  /\ status (set_last_active_at carol 77) = AGENT_SUSPENDED
  /\ exists e, get_current_agent sample_hash store0 (Some "aam_carol") 77 = (store0, Raise e)
               /\ status_code e = 403.
Proof.
  apply (optional_auth_skips_status_gate sample_hash store0 "carol" "aam_carol" carol 77).
  - exact store0_unique_key_hashes.
  - reflexivity.
  - reflexivity.
  - reflexivity.
  - right. reflexivity.
Defined.

End AuthFacts.

Module LedgerFacts.

Import Text Db Http Routers Samples Scenarios.

Lemma store0_keyed : keyed store0.
Proof. split; apply (bool_decide_unpack _); vm_compute; reflexivity. Qed.

Lemma keyed_agent (db : Store) (k : string) (a : Agent) :
  keyed db -> agents db !! k = Some a -> agent_id a = k.
Proof. intros [H _] Ha. exact (map_Forall_lookup_1 _ _ _ _ H Ha). Qed.

Lemma keyed_listing (db : Store) (k : string) (l : Listing) :
  keyed db -> listings db !! k = Some l -> listing_id l = k.
Proof. intros [_ H] Hl. exact (map_Forall_lookup_1 _ _ _ _ H Hl). Qed.

(** C3, as amended.  A transfer of [A] from agent [X] (balance [Bx]) to
    agent [Y] (balance [By]) that succeeds leaves [X] with the binary64
    difference [Bx - A] and [Y] with the binary64 sum [By + A], each
    rounded on its own, and changes no other balance; nothing is said of
    the total.  The transfer raises an error and leaves the store as it
    was whenever [A > Bx], or [Y] does not exist, or [Y = X], or [Y] is
    not active. *)
Theorem transfer_credits_spec (db : Store) (X : string) (t : CreditsTransfer) :
  keyed db ->
  (forall db' r,
      transfer_credits db X t = (db', Return r) ->
      exists ax ay,
        agents db !! X = Some ax
        /\ agents db !! recipient_id t = Some ay
        /\ agents db' !! X = Some (set_credits ax (credits ax - amount t)%float)
        /\ agents db' !! recipient_id t = Some (set_credits ay (credits ay + amount t)%float)
        /\ (forall k, k <> X -> k <> recipient_id t -> agents db' !! k = agents db !! k)
        /\ your_new_balance r = (credits ax - amount t)%float)
  /\ (forall ax,
      agents db !! X = Some ax ->
      PyFloat.gt (amount t) (credits ax) = true
      \/ agents db !! recipient_id t = None
      \/ recipient_id t = X
      \/ (exists ay, agents db !! recipient_id t = Some ay /\ status ay <> AGENT_ACTIVE) ->
      exists e, transfer_credits db X t = (db, Raise e)).
Proof.
  intros Hk. unfold transfer_credits. split.
  - intros db' r H.
    destruct (negb (valid_CreditsTransfer t)); [discriminate|].
    destruct (agents db !! X) as [ax|] eqn:Hx; [|discriminate].
    destruct (PyFloat.gt (amount t) (credits ax)); [discriminate|].
    destruct (agents db !! recipient_id t) as [ay|] eqn:Hy; [|discriminate].
    destruct (String.eqb (agent_id ay) (agent_id ax)) eqn:Hself; [discriminate|].
    destruct (negb (agent_status_eqb (status ay) AGENT_ACTIVE)); [discriminate|].
    injection H as <- <-.
    rewrite (keyed_agent db X ax Hk Hx), (keyed_agent db _ ay Hk Hy) in *.
    apply String.eqb_neq in Hself.
    exists ax, ay. cbn [agents with_agents your_new_balance credits set_credits].
    split; [reflexivity|]. split; [reflexivity|]. split.
    { rewrite lookup_insert_ne by exact Hself. apply lookup_insert_eq. }
    split; [apply lookup_insert_eq|]. split; [|reflexivity].
    intros k HkX HkY. rewrite !lookup_insert_ne by congruence. reflexivity.
  - intros ax Hx Hcases. rewrite Hx.
    destruct (negb (valid_CreditsTransfer t)); [eexists; reflexivity|].
    destruct (PyFloat.gt (amount t) (credits ax)) eqn:Hgt; [eexists; reflexivity|].
    destruct Hcases as [Hbad | [Hnone | [Hself | (ay & Hy & Hst)]]].
    + discriminate.
    + rewrite Hnone. eexists; reflexivity.
    + rewrite Hself, Hx, String.eqb_refl. eexists; reflexivity.
    + rewrite Hy. destruct (String.eqb (agent_id ay) (agent_id ax)); [eexists; reflexivity|].
      destruct (status ay); try (eexists; reflexivity). contradiction.
Qed.

(** Alice (100.0) sends Bob (100.0) 30.5 credits: 69.5 and 130.5. *)
Lemma transfer_credits_spec_witness :
  exists ax ay,
    agents store0 !! "alice" = Some ax
    /\ agents store0 !! "bob" = Some ay
    /\ agents (fst (transfer_credits store0 "alice" transfer0)) !! "alice"
       = Some (set_credits ax (credits ax - 30.5)%float)
    /\ agents (fst (transfer_credits store0 "alice" transfer0)) !! "bob"
       = Some (set_credits ay (credits ay + 30.5)%float)
    /\ (forall k, k <> "alice" -> k <> "bob" ->
        agents (fst (transfer_credits store0 "alice" transfer0)) !! k = agents store0 !! k)
    /\ 69.5%float = (credits ax - 30.5)%float.
Proof.
  apply (proj1 (transfer_credits_spec store0 "alice" transfer0 store0_keyed)
               (fst (transfer_credits store0 "alice" transfer0))
               (mkTransferResult true "bob" 69.5)).
  vm_compute. reflexivity.
Defined.

Example transfer_credits_sample :
  (69.5 + 130.5)%float = (100 + 100)%float
  /\ credits <$> agents (fst (transfer_credits store0 "alice" transfer0)) !! "alice" = Some 69.5%float
  /\ credits <$> agents (fst (transfer_credits store0 "alice" transfer0)) !! "bob" = Some 130.5%float
  /\ (exists e, transfer_credits store0 "alice" (mkCreditsTransfer "bob" 100.5 None)
                = (store0, Raise e) /\ status_code e = 400)
  /\ (exists e, transfer_credits store0 "alice" (mkCreditsTransfer "nobody" 1 None)
                = (store0, Raise e) /\ status_code e = 404)
  /\ (exists e, transfer_credits store0 "alice" (mkCreditsTransfer "alice" 1 None)
                = (store0, Raise e) /\ status_code e = 400)
  /\ (exists e, transfer_credits store0 "alice" (mkCreditsTransfer "carol" 1 None)
                = (store0, Raise e) /\ status_code e = 400).
Proof.
  split; [vm_compute; reflexivity|].
  split; [vm_compute; reflexivity|]. split; [vm_compute; reflexivity|].
  repeat split; eexists; (split; [vm_compute; reflexivity|reflexivity]).
Qed.

(** C3 as stated fails: the total is not conserved.  Alice (1.1) sends
    Bob (2.2) 0.7 credits.  The transfer succeeds; Alice is left with
    1.1 - 0.7 = 0.40000000000000013 and Bob with 2.2 + 0.7 =
    2.9000000000000004, which add up to 3.3000000000000007, while 1.1 and
    2.2 add up to 3.3000000000000003. *)
Lemma total_credits_counterexample :
  let sent := mkCreditsTransfer "bob" 0.7 None in
  let db' := fst (transfer_credits store_cents "alice" sent) in
  credits <$> agents store_cents !! "alice" = Some 1.1%float
  /\ credits <$> agents store_cents !! "bob" = Some 2.2%float
  /\ snd (transfer_credits store_cents "alice" sent)
     = Return (mkTransferResult true "bob" (1.1 - 0.7))
  /\ credits <$> agents db' !! "alice" = Some (1.1 - 0.7)%float
  /\ credits <$> agents db' !! "bob" = Some (2.2 + 0.7)%float
  /\ PrimFloat.eqb ((1.1 - 0.7) + (2.2 + 0.7)) (1.1 + 2.2) = false
  /\ PrimFloat.ltb (1.1 + 2.2) ((1.1 - 0.7) + (2.2 + 0.7)) = true.
Proof. cbv zeta. repeat split; vm_compute; reflexivity. Qed.

End LedgerFacts.
Module PurchaseFacts.

Import Text Db Http Routers Samples LedgerFacts.

(** A purchase against a listing that is not active is refused and
    changes nothing. *)
Lemma create_purchase_inactive (db : Store) (buyer : string) (p : TransactionCreate)
    (new_id : string) (l : Listing) :
  listings db !! purchase_listing_id p = Some l ->
  listing_status l <> LISTING_ACTIVE ->
  exists e, create_purchase db buyer p new_id = (db, Raise e).
Proof.
  intros Hl Hst. unfold create_purchase.
  destruct (negb (valid_TransactionCreate p)); [eexists; reflexivity|].
  destruct (agents db !! buyer); [|eexists; reflexivity].
  rewrite Hl. destruct (listing_status l); try (eexists; reflexivity). contradiction.
Qed.

(** A row passes [ListingResponse] only with a quantity of at least 1. *)
Lemma valid_ListingResponse_quantity (l : Listing) :
  valid_ListingResponse l = true -> 1 <= quantity l.
Proof.
  unfold valid_ListingResponse. cbv zeta. intros H.
  apply andb_true_iff in H as [_ H]. apply Z.leb_le in H. exact H.
Qed.

Lemma sold_out_response (l : Listing) (s : ListingStatus) :
  valid_ListingResponse (set_quantity_status l 0 s) = false.
Proof. unfold valid_ListingResponse. cbv zeta. cbn [quantity set_quantity_status]. apply andb_false_r. Qed.

(** What a purchase commits, and what it answers, once its checks have
    passed. *)
Lemma create_purchase_run (db : Store) (buyer : string) (p : TransactionCreate)
    (new_id : string) (me : Agent) (l : Listing) :
  let total := (price l * PyFloat.of_int (purchase_quantity p))%float in
  let fee := fst (Helpers.calculate_transaction_fee total Settings.TRANSACTION_FEE_PERCENT) in
  let net := snd (Helpers.calculate_transaction_fee total Settings.TRANSACTION_FEE_PERCENT) in
  let q := quantity l - purchase_quantity p in
  let l' := set_quantity_status l q (if q =? 0 then LISTING_SOLD else listing_status l) in
  let tx :=
    mkTransaction new_id (listing_id l) buyer (seller_id l) (purchase_quantity p) (price l)
                  total fee net TX_PENDING (purchase_buyer_notes p) None None in
  valid_TransactionCreate p = true ->
  agents db !! buyer = Some me -> agent_id me = buyer ->
  listings db !! purchase_listing_id p = Some l ->
  listing_status l = LISTING_ACTIVE ->
  seller_id l <> buyer ->
  purchase_quantity p <= quantity l ->
  PyFloat.lt (credits me) total = false ->
  transactions db !! new_id = None ->
  create_purchase db buyer p new_id
  = (mkStore
       (<[buyer := set_total_purchases (set_credits me (credits me - total)%float)
                     (total_purchases me + 1)]> (agents db))
       (categories db)
       (<[listing_id l := l']> (listings db))
       (<[new_id := tx]> (transactions db))
       (ratings db),
     if valid_ListingResponse l' then Return tx else unexpected).
Proof.
  intros total fee net q l' tx Hv Hme Hid Hl Hact Hown Hq Hfunds Hnew.
  subst l' q. unfold create_purchase. rewrite Hv, Hme, Hl, Hact, Hid.
  cbn [negb listing_status_eqb].
  assert (String.eqb (seller_id l) buyer = false) as -> by (apply String.eqb_neq; exact Hown).
  assert ((quantity l <? purchase_quantity p) = false) as -> by (apply Z.ltb_ge; exact Hq).
  fold total. subst fee net tx.
  destruct (Helpers.calculate_transaction_fee total Settings.TRANSACTION_FEE_PERCENT)
    as [fee net]. cbn [fst snd]. rewrite Hfunds, Hnew. reflexivity.
Qed.

(** A purchase of [q] units that is answered with the transaction was
    made against an active listing; it has taken the full total
    [price * q] from the buyer (and counted one more purchase), lowered
    the listing's quantity by [q] and recorded a new [pending]
    transaction; the listing is left with at least one unit and is still
    active. *)
Lemma create_purchase_answered (db : Store) (buyer : string) (p : TransactionCreate)
    (new_id : string) (db' : Store) (tx : Transaction) :
  keyed db ->
  create_purchase db buyer p new_id = (db', Return tx) ->
  exists me l l',
    agents db !! buyer = Some me
    /\ listings db !! purchase_listing_id p = Some l
    /\ listing_status l = LISTING_ACTIVE
    /\ 1 <= purchase_quantity p <= quantity l
    /\ agents db' !! buyer
       = Some (set_total_purchases
                 (set_credits me
                    (credits me - price l * PyFloat.of_int (purchase_quantity p))%float)
                 (total_purchases me + 1))
    /\ (forall k, k <> buyer -> agents db' !! k = agents db !! k)
    /\ listings db' !! purchase_listing_id p = Some l'
    /\ quantity l' = quantity l - purchase_quantity p
    /\ 1 <= quantity l'
    /\ listing_status l' = LISTING_ACTIVE
    /\ (listing_status l' = LISTING_SOLD <-> quantity l' = 0)
    /\ transactions db !! new_id = None
    /\ transactions db' !! new_id = Some tx
    /\ tx_status tx = TX_PENDING
    /\ buyer_id tx = buyer
    /\ tx_quantity tx = purchase_quantity p
    /\ unit_price tx = price l
    /\ total_amount tx = (price l * PyFloat.of_int (purchase_quantity p))%float.
Proof.
  intros Hk H. unfold create_purchase in H.
  destruct (negb (valid_TransactionCreate p)) eqn:Hv; [discriminate|].
  destruct (agents db !! buyer) as [me|] eqn:Hme; [|discriminate].
  destruct (listings db !! purchase_listing_id p) as [l|] eqn:Hl; [|discriminate].
  destruct (negb (listing_status_eqb (listing_status l) LISTING_ACTIVE)) eqn:Hst;
    [discriminate|].
  destruct (String.eqb (seller_id l) (agent_id me)); [discriminate|].
  destruct (quantity l <? purchase_quantity p) eqn:Hq; [discriminate|].
  destruct (Helpers.calculate_transaction_fee _ _) as [fee net].
  destruct (PyFloat.lt (credits me) _); [discriminate|].
  destruct (transactions db !! new_id) eqn:Hnew; [discriminate|].
  destruct (valid_ListingResponse _) eqn:Hresp; [|discriminate].
  apply valid_ListingResponse_quantity in Hresp. cbn [quantity set_quantity_status] in Hresp.
  injection H as <- <-.
  rewrite (keyed_agent db buyer me Hk Hme), (keyed_listing db _ l Hk Hl).
  assert (listing_status l = LISTING_ACTIVE) as Hact.
  { destruct (listing_status l); try discriminate; reflexivity. }
  assert (1 <= purchase_quantity p <= quantity l) as Hrange.
  { apply Z.ltb_ge in Hq. apply negb_false_iff in Hv. unfold valid_TransactionCreate in Hv.
    apply andb_true_iff in Hv as [Hv _]. apply Z.leb_le in Hv. lia. }
  assert ((quantity l - purchase_quantity p =? 0) = false) as Hnz by (apply Z.eqb_neq; lia).
  eexists me, l, _. cbn [agents listings transactions tx_status buyer_id tx_quantity
                         unit_price total_amount].
  split; [reflexivity|]. split; [reflexivity|]. split; [exact Hact|].
  split; [exact Hrange|]. split; [apply lookup_insert_eq|].
  split; [intros k Hne; apply lookup_insert_ne; congruence|].
  split; [apply lookup_insert_eq|].
  cbn [quantity listing_status set_quantity_status]. rewrite Hnz, Hact.
  split; [reflexivity|]. split; [exact Hresp|]. split; [reflexivity|].
  split; [split; [discriminate|lia]|].
  split; [reflexivity|]. split; [apply lookup_insert_eq|].
  repeat (split; [reflexivity|]). reflexivity.
Qed.

(** C4 (the code departs from the claim).  Bob, with 100.0 credits, buys
    the only unit of the active listing [l1] (price 10.0).  The handler
    commits what the claim describes: Bob is left with 90.0, the listing
    has quantity 0 and is [sold], the transaction [t9] is [pending], and
    every later purchase of [l1] is refused.  But the purchase is not
    answered as a success: the response embeds the listing through
    [ListingResponse], whose [quantity] must be at least 1, and the
    request ends in HTTP 500.  In general, a purchase that passes every
    check of the handler and takes the last units of a listing commits
    the debit, the [sold] listing and the [pending] transaction and
    answers 500; a purchase that is answered with its transaction has
    changed the state as the claim says and has left the listing active
    with at least one unit, so no answered purchase ever turns a listing
    [sold]; and a purchase against a listing that is not active is
    refused and changes nothing. *)
Theorem create_purchase_last_unit_answers_500 :
  let db1 := fst (create_purchase store0 "bob" purchase0 "t9") in
  (fun l => (quantity l, listing_status l, price l, seller_id l)) <$> listings store0 !! "l1"
  = Some (1, LISTING_ACTIVE, 10%float, "alice")
  /\ credits <$> agents store0 !! "bob" = Some 100%float
  /\ purchase0 = mkTransactionCreate "l1" 1 None
  /\ create_purchase store0 "bob" purchase0 "t9"
     = (db1, Raise (mkHTTPException 500 "An unexpected error occurred"))
  /\ credits <$> agents db1 !! "bob" = Some 90%float
  /\ (fun l => (quantity l, listing_status l)) <$> listings db1 !! "l1"
     = Some (0, LISTING_SOLD)
  /\ tx_status <$> transactions db1 !! "t9" = Some TX_PENDING
  /\ (forall buyer2 p2 id2, purchase_listing_id p2 = "l1" ->
      exists e, create_purchase db1 buyer2 p2 id2 = (db1, Raise e))
  /\ (forall db buyer p new_id me l,
      valid_TransactionCreate p = true ->
      agents db !! buyer = Some me -> agent_id me = buyer ->
      listings db !! purchase_listing_id p = Some l ->
      listing_status l = LISTING_ACTIVE ->
      seller_id l <> buyer ->
      purchase_quantity p = quantity l ->
      PyFloat.lt (credits me) (price l * PyFloat.of_int (purchase_quantity p))%float = false ->
      transactions db !! new_id = None ->
      exists db',
        create_purchase db buyer p new_id
        = (db', Raise (mkHTTPException 500 "An unexpected error occurred"))
        /\ agents db' !! buyer
           = Some (set_total_purchases
                     (set_credits me
                        (credits me - price l * PyFloat.of_int (purchase_quantity p))%float)
                     (total_purchases me + 1))
        /\ listings db' !! listing_id l = Some (set_quantity_status l 0 LISTING_SOLD)
        /\ tx_status <$> transactions db' !! new_id = Some TX_PENDING)
  /\ (forall db buyer p new_id db' tx,
      keyed db ->
      create_purchase db buyer p new_id = (db', Return tx) ->
      exists me l l',
        agents db !! buyer = Some me
        /\ listings db !! purchase_listing_id p = Some l
        /\ listing_status l = LISTING_ACTIVE
        /\ 1 <= purchase_quantity p <= quantity l
        /\ agents db' !! buyer
           = Some (set_total_purchases
                     (set_credits me
                        (credits me - price l * PyFloat.of_int (purchase_quantity p))%float)
                     (total_purchases me + 1))
        /\ (forall k, k <> buyer -> agents db' !! k = agents db !! k)
        /\ listings db' !! purchase_listing_id p = Some l'
        /\ quantity l' = quantity l - purchase_quantity p
        /\ 1 <= quantity l'
        /\ listing_status l' = LISTING_ACTIVE
        /\ (listing_status l' = LISTING_SOLD <-> quantity l' = 0)
        /\ transactions db !! new_id = None
        /\ transactions db' !! new_id = Some tx
        /\ tx_status tx = TX_PENDING
        /\ buyer_id tx = buyer
        /\ tx_quantity tx = purchase_quantity p
        /\ unit_price tx = price l
        /\ total_amount tx = (price l * PyFloat.of_int (purchase_quantity p))%float)
  /\ (forall db buyer p new_id l,
      listings db !! purchase_listing_id p = Some l ->
      listing_status l <> LISTING_ACTIVE ->
      exists e, create_purchase db buyer p new_id = (db, Raise e)).
Proof.
  cbv zeta.
  split; [reflexivity|]. split; [reflexivity|]. split; [reflexivity|].
  split; [vm_compute; reflexivity|]. split; [vm_compute; reflexivity|].
  split; [vm_compute; reflexivity|]. split; [vm_compute; reflexivity|].
  split.
  { intros buyer2 p2 id2 Hp. apply (create_purchase_inactive _ _ _ _
      (set_quantity_status (sample_listing "l1" "alice" 10 1) 0 LISTING_SOLD)).
    - rewrite Hp. vm_compute. reflexivity.
    - discriminate. }
  split.
  { intros db buyer p new_id me l Hv Hme Hid Hl Hact Hown Hq Hfunds Hnew.
    pose proof (create_purchase_run db buyer p new_id me l Hv Hme Hid Hl Hact Hown
                  ltac:(lia) Hfunds Hnew) as Hrun.
    cbv zeta in Hrun. rewrite Hq in Hrun |- *. rewrite Z.sub_diag in Hrun.
    cbn [Z.eqb] in Hrun.
    rewrite sold_out_response in Hrun.
    eexists. split; [exact Hrun|]. cbn [agents listings transactions].
    split; [apply lookup_insert_eq|]. split; [apply lookup_insert_eq|].
    rewrite lookup_insert_eq. reflexivity. }
  split; [intros db buyer p new_id db' tx Hk H; exact (create_purchase_answered _ _ _ _ _ _ Hk H)|].
  intros db buyer p new_id l. apply create_purchase_inactive.
Qed.

(** Buying one of several units is answered with the transaction: Bob
    buys one of the three units of [l2] (price 2.5) and the listing stays
    active with two units. *)
Example create_purchase_one_of_three :
  snd (create_purchase store0 "bob" (mkTransactionCreate "l2" 1 None) "t8")
  = Return (mkTransaction "t8" "l2" "bob" "alice" 1 2.5 2.5 0.06 2.44 TX_PENDING
                          None None None)
  /\ (fun l => (quantity l, listing_status l))
       <$> listings (fst (create_purchase store0 "bob" (mkTransactionCreate "l2" 1 None) "t8"))
           !! "l2"
     = Some (2, LISTING_ACTIVE).
Proof. split; vm_compute; reflexivity. Qed.

End PurchaseFacts.

Module GuardianFacts.

Import Text Db Http Moderation Guardian Routers Samples Notions.

(** After [_get_agent_trust] the ledger holds the entry it returned, and
    no other entry has changed. *)
Lemma get_agent_trust_spec (g : GuardianModerator) (a : string) :
  agent_trust_scores (fst (get_agent_trust g a)) !! a = Some (snd (get_agent_trust g a))
  /\ (forall k, k <> a ->
      agent_trust_scores (fst (get_agent_trust g a)) !! k = agent_trust_scores g !! k)
  /\ moderation_logs (fst (get_agent_trust g a)) = moderation_logs g
  /\ log_counter (fst (get_agent_trust g a)) = log_counter g.
Proof.
  unfold get_agent_trust. destruct (agent_trust_scores g !! a) as [t|] eqn:E; cbn.
  - repeat split; auto.
  - repeat split; auto.
    + apply lookup_insert_eq.
    + intros k Hk. apply lookup_insert_ne. congruence.
Qed.

Lemma record_warning_spec (g : GuardianModerator) (a : string) (t : AgentTrustScore) :
  agent_trust_scores g !! a = Some t ->
  agent_trust_scores (record_warning g a) = <[a := warned t]> (agent_trust_scores g).
Proof.
  intros H. unfold record_warning, get_agent_trust. rewrite H. reflexivity.
Qed.

(** C1, as amended.  A listing submission of ASCII text (title,
    description and tags) that scores severity at most 2 and is not both
    safe and of severity 0, made by an agent whose trust entry is
    trusted, is answered by Guardian with the [warning] action;
    exactly one warning is recorded against that agent (its warning count
    goes up by one, its score down by 0.05, no other agent's entry
    changes); the review is not approved, so [POST /listings/] raises 400
    and the listing is not created. *)
Theorem review_listing_warning (g : GuardianModerator) (db : Store) (cur : string)
    (ld : ListingCreate) (new_id : string) (now : Z) (pick : nat) (me : Agent) :
  let tags := default [] (lc_tags ld) in
  let severity := calculate_severity (lc_title ld) (lc_description ld) tags in
  let is_safe := fst (check_content_safety (lc_title ld) (lc_description ld) tags) in
  let trust := snd (get_agent_trust g (agent_id me)) in
  let result :=
    review_listing g "pending" (lc_title ld) (lc_description ld) tags (agent_id me) now pick in
  valid_ListingCreate ld = true ->
  ascii_submission (lc_title ld) (lc_description ld) tags = true ->
  agents db !! cur = Some me ->
  severity <= 2 ->
  is_safe && (severity =? 0) = false ->
  is_trusted trust = true ->
  action (snd result) = "warning"
  /\ approved (snd result) = false
  /\ agent_trust_scores (fst result) !! agent_id me = Some (warned trust)
  /\ warnings (warned trust) = warnings trust + 1
  /\ (forall k, k <> agent_id me ->
      agent_trust_scores (fst result) !! k = agent_trust_scores g !! k)
  /\ exists e,
      create_listing g db cur ld new_id now pick = ((fst result, db), Raise e)
      /\ status_code e = 400.
Proof.
  intros tags severity is_safe trust result Hvalid _ Hme Hsev Hnot Htrusted.
  assert (Hres : exists msg lid says logs n,
             result = (mkGuardian logs
                         (<[agent_id me := warned trust]>
                            (agent_trust_scores (fst (get_agent_trust g (agent_id me)))))
                         (flagged_content (fst (get_agent_trust g (agent_id me)))) n,
                       mkReview false "warning" msg lid says)).
  { subst result. unfold review_listing.
    fold tags. fold severity.
    destruct (check_content_safety (lc_title ld) (lc_description ld) tags)
      as [safe reason] eqn:Hc.
    subst is_safe. cbn [fst] in Hnot. rewrite Hnot.
    destruct (get_agent_trust g (agent_id me)) as [g1 t] eqn:Hg.
    subst trust. cbn [snd fst] in *. rewrite Htrusted.
    apply Z.leb_le in Hsev. rewrite Hsev. cbn [andb].
    pose proof (get_agent_trust_spec g (agent_id me)) as (Hin & _).
    rewrite Hg in Hin. cbn [fst snd] in Hin.
    unfold generate_log_id. cbn [agent_trust_scores moderation_logs flagged_content log_counter].
    rewrite (record_warning_spec g1 (agent_id me) t Hin).
    unfold record_warning, get_agent_trust. rewrite Hin.
    cbn [set_trust agent_trust_scores moderation_logs flagged_content log_counter
         action_eqb action_value].
    do 5 eexists. reflexivity. }
  destruct Hres as (msg & lid & says & logs & n & Hres).
  pose proof (get_agent_trust_spec g (agent_id me)) as (_ & Hother & _).
  split; [rewrite Hres; reflexivity|]. split; [rewrite Hres; reflexivity|].
  split; [rewrite Hres; apply lookup_insert_eq|]. split; [reflexivity|].
  split.
  { intros k Hk. rewrite Hres. cbn [fst agent_trust_scores].
    rewrite lookup_insert_ne by congruence. apply Hother, Hk. }
  unfold create_listing. rewrite Hvalid, Hme. cbn [negb].
  fold tags. fold result. rewrite Hres. cbn [approved negb fst].
  eexists. split; reflexivity.
Qed.

Lemma store0_alice : agents store0 !! "alice" = Some alice.
Proof. reflexivity. Qed.

Lemma review_listing_warning_witness :
  action (snd (review_listing init "pending" "Unlock premium analytics"
                 "Unlock the full analytics dashboard for your agent" [] "alice" 1000 0))
  = "warning"
  /\ warnings (warned (new_trust "alice")) = 1
  /\ exists e,
      create_listing init store0 "alice" unlock_listing "l9" 1000 0
      = ((fst (review_listing init "pending" "Unlock premium analytics"
                 "Unlock the full analytics dashboard for your agent" [] "alice" 1000 0),
          store0), Raise e)
      /\ status_code e = 400.
Proof.
  destruct (review_listing_warning init store0 "alice" unlock_listing "l9" 1000 0 alice)
    as (Ha & _ & _ & Hw & _ & He).
  - vm_compute. reflexivity.
  - vm_compute. reflexivity.
  - exact store0_alice.
  - vm_compute. discriminate.
  - vm_compute. reflexivity.
  - reflexivity.
  - split; [exact Ha|]. split; [exact Hw|]. exact He.
Defined.

(** C1 as stated fails.  (1) "Unlock premium analytics" passes the safety
    check and scores severity 1; from the trusted agent Alice it is
    answered with [warning] and one warning is recorded, but the request
    is rejected with 400 and no listing is created.  (2) The nutcracker
    listing passes the safety check too, scores severity 5, and from the
    same trusted agent it is answered with [removed] and a violation, not
    a warning. *)
Lemma warning_not_allowed_through_counterexample :
  let g' := fst (review_listing init "pending" (lc_title unlock_listing)
                   (lc_description unlock_listing) [] "alice" 1000 0) in
  valid_ListingCreate unlock_listing = true
  /\ ascii_submission (lc_title unlock_listing) (lc_description unlock_listing) [] = true
  /\ ascii_submission (lc_title nutcracker_listing) (lc_description nutcracker_listing) []
     = true
  /\ check_content_safety (lc_title unlock_listing) (lc_description unlock_listing) []
     = (true, "Content approved")
  /\ calculate_severity (lc_title unlock_listing) (lc_description unlock_listing) [] = 1
  /\ is_trusted (snd (get_agent_trust init "alice")) = true
  /\ agent_trust_scores g' !! "alice"
     = Some (mkAgentTrustScore "alice" 0.75 1 0 None true)
  /\ create_listing init store0 "alice" unlock_listing "l9" 1000 0
     = ((g', store0),
        Raise (mkHTTPException 400
          "🛡️ Guardian Review: ⚠️ Guardian notice: Content approved. Please review your listing."))
  /\ listings store0 !! "l9" = None
  /\ fst (check_content_safety (lc_title nutcracker_listing)
                               (lc_description nutcracker_listing) []) = true
  /\ calculate_severity (lc_title nutcracker_listing)
                        (lc_description nutcracker_listing) [] = 5
  /\ action (snd (review_listing init "pending" (lc_title nutcracker_listing)
                    (lc_description nutcracker_listing) [] "alice" 1000 0)) = "removed"
  /\ agent_trust_scores
       (fst (review_listing init "pending" (lc_title nutcracker_listing)
               (lc_description nutcracker_listing) [] "alice" 1000 0)) !! "alice"
     = Some (mkAgentTrustScore "alice" (0.8 - 0.2) 0 1 (Some 1000) false).
Proof.
  cbv zeta. repeat split; vm_compute; reflexivity.
Qed.

End GuardianFacts.

Module PaginateFacts.

Import Helpers Notions.

Lemma py_slice_from (A : Type) (l : list A) (s p : nat) :
  py_slice l (Z.of_nat s) (Z.of_nat s + Z.of_nat p) = take p (drop s l).
Proof.
  unfold py_slice, clamp_index.
  destruct (Z.of_nat s <? 0) eqn:E1; [apply Z.ltb_lt in E1; lia|].
  destruct (Z.of_nat s + Z.of_nat p <? 0) eqn:E2; [apply Z.ltb_lt in E2; lia|].
  set (L := List.length l).
  destruct (Z.min_spec (Z.of_nat s) (Z.of_nat L)) as [[H1 ->]|[H1 ->]];
    destruct (Z.min_spec (Z.of_nat s + Z.of_nat p) (Z.of_nat L)) as [[H2 ->]|[H2 ->]];
    try lia.
  - rewrite Nat2Z.id. f_equal. lia.
  - rewrite Nat2Z.id. rewrite !take_ge; [reflexivity| |]; rewrite length_drop; lia.
  - rewrite Nat2Z.id. rewrite (drop_ge l s) by lia. rewrite (drop_ge l L) by lia.
    rewrite !take_nil. reflexivity.
Qed.

Lemma page_items_take (A : Type) (l : list A) (i p : nat) :
  (0 < p)%nat ->
  page_items l (1 + Z.of_nat i) (Z.of_nat p) = take p (drop (i * p) l).
Proof.
  intros Hp. unfold page_items, paginate.
  destruct (Z.of_nat p =? 0) eqn:E; [apply Z.eqb_eq in E; lia|]. cbn [from_option items].
  replace ((1 + Z.of_nat i - 1) * Z.of_nat p) with (Z.of_nat (i * p)) by lia.
  apply py_slice_from.
Qed.

Lemma chunks_take (A : Type) (l : list A) (p m : nat) :
  mjoin ((fun i => take p (drop (i * p) l)) <$> seq 0 m) = take (m * p) l.
Proof.
  induction m as [|m IH]; [reflexivity|].
  rewrite seq_S, fmap_app, join_app, IH. cbn [fmap list_fmap mjoin list_join Nat.add].
  rewrite app_nil_r.
  replace (S m * p)%nat with (m * p + p)%nat by lia.
  symmetry. rewrite <- (take_drop (m * p) (take (m * p + p) l)).
  rewrite take_take. replace ((m * p) `min` (m * p + p))%nat with (m * p)%nat by lia.
  f_equal. rewrite skipn_firstn_comm.
  replace (m * p + p - m * p)%nat with p by lia. reflexivity.
Qed.

Lemma pages_of_bounds (A : Type) (l : list A) (ps : Z) :
  1 <= ps ->
  0 <= pages_of l ps
  /\ (pages_of l ps - 1) * ps < Z.of_nat (List.length l) <= pages_of l ps * ps.
Proof.
  intros Hps. unfold pages_of.
  pose proof (Z.div_mod (Z.of_nat (List.length l) + ps - 1) ps ltac:(lia)) as Hdm.
  pose proof (Z.mod_pos_bound (Z.of_nat (List.length l) + ps - 1) ps ltac:(lia)) as Hb.
  split; [apply Z.div_pos; lia|nia].
Qed.

(** X1.  The pages of a list, taken in order, are the list: no item is lost,
    repeated or reordered. *)
Theorem paginate_pages_cover {A} (l : list A) (ps : Z) :
  1 <= ps ->
  mjoin ((fun k => page_items l k ps) <$> seqZ 1 (pages_of l ps)) = l.
Proof.
  intros Hps. destruct (pages_of_bounds A l ps Hps) as [Hn [_ Hcover]].
  unfold seqZ. rewrite <- list_fmap_compose.
  set (p := Z.to_nat ps). set (m := Z.to_nat (pages_of l ps)).
  rewrite (list_fmap_ext _ (fun i => take p (drop (i * p) l)) (seq 0 m)).
  - rewrite chunks_take. apply take_ge. subst p m. nia.
  - intros _ i _. cbn. replace ps with (Z.of_nat p) by (subst p; lia).
    replace (Z.of_nat i + 1) with (1 + Z.of_nat i) by lia.
    apply page_items_take. subst p. lia.
Qed.

Lemma paginate_pages_cover_witness :
  mjoin ((fun k => page_items [10; 20; 30; 40; 50] k 2) <$> seqZ 1 (pages_of [10; 20; 30; 40; 50] 2))
  = [10; 20; 30; 40; 50].
Proof. apply (paginate_pages_cover [10; 20; 30; 40; 50] 2). lia. Defined.

(** X2.  Every page before the last is full, the last page is not empty, and
    a page after the last has no items. *)
Theorem paginate_page_sizes {A} (l : list A) (pg ps : Z) :
  1 <= pg -> 1 <= ps ->
  (pg < pages_of l ps -> Z.of_nat (List.length (page_items l pg ps)) = ps)
  /\ (pg = pages_of l ps -> page_items l pg ps <> [])
  /\ (pages_of l ps < pg -> page_items l pg ps = []).
Proof.
  intros Hpg Hps.
  assert (exists i p, pg = 1 + Z.of_nat i /\ ps = Z.of_nat p /\ (0 < p)%nat)
    as (i & p & -> & -> & Hp).
  { exists (Z.to_nat (pg - 1)), (Z.to_nat ps). lia. }
  destruct (pages_of_bounds A l (Z.of_nat p) Hps) as [Hn [Hlow Hcover]].
  rewrite page_items_take by exact Hp.
  assert (Hlen : List.length (take p (drop (i * p) l))
                 = (p `min` (List.length l - i * p))%nat).
  { rewrite length_take, length_drop. reflexivity. }
  split; [|split].
  - intros Hlt. rewrite Hlen. nia.
  - intros Heq Hnil. apply (f_equal List.length) in Hnil. rewrite Hlen in Hnil.
    cbn in Hnil. nia.
  - intros Hgt. apply length_zero_iff_nil. rewrite Hlen. nia.
Qed.

Lemma paginate_page_sizes_witness :
  (2 < pages_of [10; 20; 30; 40; 50] 2 ->
   Z.of_nat (List.length (page_items [10; 20; 30; 40; 50] 2 2)) = 2)
  /\ (2 = pages_of [10; 20; 30; 40; 50] 2 -> page_items [10; 20; 30; 40; 50] 2 2 <> [])
  /\ (pages_of [10; 20; 30; 40; 50] 2 < 2 -> page_items [10; 20; 30; 40; 50] 2 2 = []).
Proof. apply (paginate_page_sizes [10; 20; 30; 40; 50] 2 2); lia. Defined.

End PaginateFacts.

Module DisplayFacts.

Import Text Helpers Display SlugFacts.

Lemma eqb_hyphen c : Ascii.eqb "-" c = is_hyphen c.
Proof. each_char c. Qed.

Lemma slug_body_alphabet s :
  forall b, slug_body b s = true ->
  all_chars (fun c => is_slug_char c || is_hyphen c) s = true.
Proof.
  induction s as [|c s IH]; intros b H; [reflexivity|].
  cbn [slug_body] in H. cbn [all_chars].
  destruct (is_hyphen c) eqn:E.
  - apply andb_true_iff in H as [_ H]. rewrite orb_true_r. exact (IH _ H).
  - apply andb_true_iff in H as [-> H]. exact (IH _ H).
Qed.

Lemma slug_body_no_double_hyphen s :
  forall b, slug_body b s = true -> contains "--" s = false.
Proof.
  induction s as [|c s IH]; intros b H; [reflexivity|].
  cbn [slug_body] in H. cbn [contains starts_with].
  assert (contains "--" s = false) as ->.
  { destruct (is_hyphen c); apply andb_true_iff in H as [_ H]; exact (IH _ H). }
  rewrite orb_false_r, eqb_hyphen.
  destruct (is_hyphen c) eqn:E; [|reflexivity].
  apply andb_true_iff in H as [_ H]. destruct s as [|d s']; [reflexivity|].
  cbn [slug_body] in H. rewrite eqb_hyphen.
  destruct (is_hyphen d); [discriminate H|reflexivity].
Qed.

(** X3.  Every output of [slugify] is made of lower-case ASCII letters, digits,
    underscores and hyphens only, neither starts nor ends with a hyphen,
    and has no two hyphens in a row, whatever the input and the
    normalizer. *)
Theorem slugify_output_shape (normalize_NFKD : string -> string) (s : string) :
  all_chars (fun c => is_slug_char c || is_hyphen c) (slugify normalize_NFKD s) = true
  /\ starts_with "-" (slugify normalize_NFKD s) = false
  /\ ends_with_hyphen (slugify normalize_NFKD s) = false
  /\ contains "--" (slugify normalize_NFKD s) = false.
Proof.
  pose proof (slugify_is_slug normalize_NFKD s) as H. unfold is_slug in H.
  apply andb_true_iff in H as [Hb He]. apply negb_true_iff in He.
  split; [exact (slug_body_alphabet _ _ Hb)|]. split.
  - destruct (slugify normalize_NFKD s) as [|c r]; [reflexivity|].
    cbn [slug_body] in Hb. cbn [starts_with]. rewrite eqb_hyphen.
    destruct (is_hyphen c); [discriminate Hb|reflexivity].
  - split; [exact He|exact (slug_body_no_double_hyphen _ _ Hb)].
Qed.

Lemma length_append (a b : string) :
  String.length (a +:+ b) = (String.length a + String.length b)%nat.
Proof.
  induction a as [|c a IH]; [reflexivity|].
  change (S (String.length (a +:+ b)) = S (String.length a + String.length b)).
  f_equal. exact IH.
Qed.

Lemma length_str_take n s : String.length (str_take n s) = (n `min` String.length s)%nat.
Proof.
  revert s. induction n as [|n IH]; intros [|c s]; cbn; try reflexivity.
  rewrite IH. reflexivity.
Qed.

Lemma length_str_drop n s : String.length (str_drop n s) = (String.length s - n)%nat.
Proof.
  revert s. induction n as [|n IH]; intros [|c s]; cbn; try reflexivity.
  apply IH.
Qed.

Lemma str_take_all n s : (String.length s <= n)%nat -> str_take n s = s.
Proof.
  revert s. induction n as [|n IH]; intros [|c s] H; cbn in *; try reflexivity; try lia.
  rewrite IH by lia. reflexivity.
Qed.

(** X4.  A masked key of ASCII characters is never longer than 14
    characters and shows at most 11 characters of the key: a key of more
    than 10 characters is masked to exactly its first 7 characters, three
    dots and its last 4; a shorter key to its first 4 characters and three
    dots, so that a key of at most 4 characters is shown whole. *)
Theorem mask_api_key_shape (api_key : string) :
  all_chars is_ascii api_key = true ->
  (String.length (mask_api_key api_key) <= 14)%nat
  /\ ((10 < String.length api_key)%nat ->
      mask_api_key api_key = str_take 7 api_key +:+ "..." +:+ str_last 4 api_key
      /\ String.length (str_take 7 api_key) = 7%nat
      /\ String.length (str_last 4 api_key) = 4%nat
      /\ String.length (mask_api_key api_key) = 14%nat)
  /\ ((String.length api_key <= 10)%nat ->
      mask_api_key api_key = str_take 4 api_key +:+ "..."
      /\ (String.length (mask_api_key api_key) <= 7)%nat)
  /\ ((String.length api_key <= 4)%nat -> mask_api_key api_key = api_key +:+ "...").
Proof.
  intros _. unfold mask_api_key, str_last.
  destruct (Z.of_nat (String.length api_key) <=? 10) eqn:E.
  - apply Z.leb_le in E. rewrite length_append, length_str_take.
    change (String.length "...") with 3%nat.
    split; [lia|]. split; [lia|]. split; [intros _; split; [reflexivity|lia]|].
    intros H. rewrite str_take_all by exact H. reflexivity.
  - apply Z.leb_gt in E.
    rewrite !length_append, length_str_take, length_str_drop.
    change (String.length "...") with 3%nat.
    split; [lia|]. split; [|split; intros; lia].
    intros _. split; [reflexivity|]. lia.
Qed.

(** The key of the docstring's example: the last four characters are
    shown (the docstring shows three). *)
Lemma mask_api_key_shape_witness :
  (String.length (mask_api_key "aam_abc123xyz789") <= 14)%nat
  /\ mask_api_key "aam_abc123xyz789" = "aam_abc...z789"
  /\ mask_api_key "aam_short" = "aam_..."
  /\ mask_api_key "abc" = "abc...".
Proof.
  split; [|repeat split; reflexivity].
  apply (mask_api_key_shape "aam_abc123xyz789"). reflexivity.
Defined.

End DisplayFacts.

Module ModerationFacts.

Import Text Moderation CategoryPolicy Guardian Notions SlugFacts.

Lemma lower_char_idem c : lower_char (lower_char c) = lower_char c.
Proof. each_char c. Qed.

Lemma lower_idem s : lower (lower s) = lower s.
Proof. induction s as [|c s IH]; cbn; [reflexivity|]. rewrite lower_char_idem, IH. reflexivity. Qed.

Lemma lower_app a b : lower (a +:+ b) = lower a +:+ lower b.
Proof.
  induction a as [|c a IH]; [reflexivity|].
  change (String (lower_char c) (lower (a +:+ b)) = String (lower_char c) (lower a +:+ lower b)).
  rewrite IH. reflexivity.
Qed.

Lemma str_app_assoc (a b c : string) : (a +:+ b) +:+ c = a +:+ (b +:+ c).
Proof.
  induction a as [|x a IH]; [reflexivity|].
  change (String x ((a +:+ b) +:+ c) = String x (a +:+ (b +:+ c))). rewrite IH. reflexivity.
Qed.

Lemma lower_join l : lower (join " " l) = join " " (List.map lower l).
Proof.
  induction l as [|a l IH]; [reflexivity|].
  destruct l as [|b l]; [reflexivity|].
  change (join " " (a :: b :: l)) with (a +:+ " " +:+ join " " (b :: l)).
  change (join " " (List.map lower (a :: b :: l)))
    with (lower a +:+ " " +:+ join " " (List.map lower (b :: l))).
  rewrite !lower_app, IH. reflexivity.
Qed.

Lemma all_text_parts t d tags :
  all_text t d tags = lower t +:+ " " +:+ lower d +:+ " " +:+ join " " (List.map lower tags).
Proof. unfold all_text. rewrite !lower_app, lower_join. reflexivity. Qed.

Lemma starts_with_app w a b : starts_with w a = true -> starts_with w (a +:+ b) = true.
Proof.
  revert a. induction w as [|c w IH]; intros a H; [reflexivity|].
  destruct a as [|x a]; [discriminate H|].
  change (String x a +:+ b) with (String x (a +:+ b)).
  cbn [starts_with] in *. apply andb_true_iff in H as [-> H]. exact (IH _ H).
Qed.

Lemma contains_app_l w a b : contains w a = true -> contains w (a +:+ b) = true.
Proof.
  induction a as [|x a IH]; intros H.
  - cbn [contains] in H. rewrite orb_false_r in H.
    destruct w; [destruct b; reflexivity|discriminate H].
  - change (contains w (String x (a +:+ b)) = true). cbn [contains] in *.
    apply orb_true_iff in H as [H|H].
    + pose proof (starts_with_app w (String x a) b H) as Hs.
      change (String x a +:+ b) with (String x (a +:+ b)) in Hs.
      rewrite Hs. reflexivity.
    + rewrite (IH H). apply orb_true_r.
Qed.

Lemma contains_app_r w a b : contains w b = true -> contains w (a +:+ b) = true.
Proof.
  intros H. induction a as [|x a IH]; [exact H|].
  change (contains w (String x (a +:+ b)) = true). cbn [contains].
  rewrite IH. apply orb_true_r.
Qed.

Lemma contains_join w tag tags :
  In tag tags -> contains w tag = true -> contains w (join " " tags) = true.
Proof.
  induction tags as [|a l IH]; [intros []|].
  intros Hin Hc. destruct l as [|b l].
  - destruct Hin as [->|[]]. exact Hc.
  - change (join " " (a :: b :: l)) with (a +:+ " " +:+ join " " (b :: l)).
    destruct Hin as [->|Hin].
    + apply contains_app_l, Hc.
    + apply contains_app_r, contains_app_r, IH; assumption.
Qed.

Lemma first_keyword_found kws text kw :
  In kw kws -> contains (lower kw) text = true -> first_keyword kws text <> None.
Proof.
  induction kws as [|k kws IH]; [intros []|].
  intros Hin Hc. cbn [first_keyword].
  destruct (contains (lower k) text) eqn:E; [discriminate|].
  destruct Hin as [->|Hin]; [congruence|]. exact (IH Hin Hc).
Qed.

Lemma first_keyword_none kws text kw :
  first_keyword kws text = None -> In kw kws -> contains (lower kw) text = false.
Proof.
  induction kws as [|k kws IH]; [intros _ []|].
  cbn [first_keyword]. destruct (contains (lower k) text) eqn:E; [discriminate|].
  intros H [->|Hin]; [exact E|exact (IH H Hin)].
Qed.

Lemma keywords_lower_case kw : In kw PROHIBITED_KEYWORDS -> lower kw = kw.
Proof.
  intros H.
  assert (forallb (fun k => String.eqb (lower k) k) PROHIBITED_KEYWORDS = true) as Hall
    by (vm_compute; reflexivity).
  rewrite forallb_forall in Hall. apply String.eqb_eq, Hall, H.
Qed.

Lemma unsafe_of_keyword kw t d tags :
  In kw PROHIBITED_KEYWORDS ->
  contains kw (all_text t d tags) = true ->
  fst (check_content_safety t d tags) = false.
Proof.
  intros Hin Hc. unfold check_content_safety.
  rewrite <- (keywords_lower_case kw Hin) in Hc.
  pose proof (first_keyword_found _ _ _ Hin Hc) as Hf.
  destruct (first_keyword PROHIBITED_KEYWORDS (all_text t d tags)); [reflexivity|congruence].
Qed.

(** X5.  A prohibited keyword anywhere in a submission, in any letter case, in
    the title, in the description or in a tag, makes the content
    unsafe. *)
Theorem prohibited_keyword_rejected (kw title description : string) (tags : list string) :
  In kw PROHIBITED_KEYWORDS ->
  contains kw (lower title) = true
  \/ contains kw (lower description) = true
  \/ (exists tag, In tag tags /\ contains kw (lower tag) = true) ->
  fst (check_content_safety title description tags) = false.
Proof.
  intros Hin Hc. apply (unsafe_of_keyword kw); [exact Hin|].
  rewrite all_text_parts. destruct Hc as [H|[H|(tag & Ht & H)]].
  - apply contains_app_l, H.
  - apply contains_app_r, contains_app_r, contains_app_l, H.
  - do 4 apply contains_app_r. apply (contains_join kw (lower tag)); [|exact H].
    apply in_map, Ht.
Qed.

Lemma prohibited_keyword_rejected_witness :
  fst (check_content_safety "Data feed" "Hourly weather data" ["weather"; "RansomWare kit"])
  = false.
Proof.
  apply (prohibited_keyword_rejected "ransomware").
  - cbn. tauto.
  - right. right. exists "RansomWare kit". split; [cbn; tauto|reflexivity].
Defined.

(** X6.  The verdict, its reason and the severity depend on the lower-cased
    text only: two submissions that differ in letter case alone are
    judged alike. *)
Theorem moderation_ignores_case (t t' d d' : string) (tags tags' : list string) :
  lower t = lower t' -> lower d = lower d' -> List.map lower tags = List.map lower tags' ->
  check_content_safety t d tags = check_content_safety t' d' tags'
  /\ calculate_severity t d tags = calculate_severity t' d' tags'.
Proof.
  intros Ht Hd Htags.
  assert (all_text t d tags = all_text t' d' tags') as Heq.
  { rewrite !all_text_parts, Ht, Hd, Htags. reflexivity. }
  unfold check_content_safety, calculate_severity. rewrite Heq. split; reflexivity.
Qed.

Lemma moderation_ignores_case_witness :
  check_content_safety "Stolen Data" "LEAKED records" ["Dump"]
  = check_content_safety "stolen data" "leaked records" ["dump"]
  /\ calculate_severity "Stolen Data" "LEAKED records" ["Dump"]
     = calculate_severity "stolen data" "leaked records" ["dump"].
Proof. apply moderation_ignores_case; reflexivity. Defined.

(** X7.  The category check is the weaker one: a name and description of
    ASCII text that pass the content check (with no tags) pass the
    category check. *)
Theorem category_check_weaker (name description : string) :
  ascii_submission name description [] = true ->
  fst (check_content_safety name description []) = true ->
  fst (check_category_safety name description) = true.
Proof.
  unfold check_content_safety, check_category_safety. intros _ H.
  destruct (first_keyword PROHIBITED_KEYWORDS (all_text name description [])) eqn:E;
    [discriminate H|].
  destruct (first_keyword PROHIBITED_KEYWORDS (lower (name +:+ " " +:+ description)))
    as [kw|] eqn:E2; [|reflexivity].
  exfalso.
  assert (exists k, In k PROHIBITED_KEYWORDS
                    /\ contains (lower k) (lower (name +:+ " " +:+ description)) = true)
    as (k & Hin & Hc).
  { clear -E2. induction PROHIBITED_KEYWORDS as [|k kws IH]; [discriminate E2|].
    cbn [first_keyword] in E2.
    destruct (contains (lower k) (lower (name +:+ " " +:+ description))) eqn:Ek.
    - exists k. split; [left; reflexivity|exact Ek].
    - destruct (IH E2) as (k' & Hin & Hc). exists k'. split; [right; exact Hin|exact Hc]. }
  pose proof (first_keyword_none _ _ k E Hin) as Hnone.
  unfold all_text in Hnone.
  replace (name +:+ " " +:+ description +:+ " " +:+ join " " [])
    with ((name +:+ " " +:+ description) +:+ " ") in Hnone.
  - rewrite lower_app, (contains_app_l _ _ _ Hc) in Hnone. discriminate Hnone.
  - cbn [join]. rewrite !str_app_assoc. reflexivity.
Qed.

Lemma category_check_weaker_witness :
  fst (check_category_safety "Weather data" "Forecasts and observations") = true.
Proof. apply category_check_weaker; vm_compute; reflexivity. Defined.

(** The converse fails: the patterns are not applied to categories. *)
Example category_check_skips_patterns :
  fst (check_category_safety "Bypass security" "Tools to disable protection") = true
  /\ fst (check_content_safety "Bypass security" "Tools to disable protection" []) = false.
Proof. split; vm_compute; reflexivity. Qed.

End ModerationFacts.

Module SeverityFacts.

Import Text Moderation Guardian Notions ModerationFacts.

Lemma add_matches_ge weight words text s :
  0 <= weight -> s <= add_matches weight words text s.
Proof.
  intros Hw. revert s. induction words as [|w ws IH]; intros s; cbn [add_matches]; [lia|].
  destruct (contains w text); etransitivity; [|apply IH| |apply IH]; lia.
Qed.

Lemma add_matches_hit weight words text s w :
  0 <= weight -> In w words -> contains w text = true ->
  s + weight <= add_matches weight words text s.
Proof.
  intros Hw Hin Hc. revert s. induction words as [|x ws IH]; intros s; [destruct Hin|].
  cbn [add_matches]. destruct Hin as [->|Hin].
  - rewrite Hc. apply add_matches_ge, Hw.
  - etransitivity; [|apply (IH Hin)]. destruct (contains x text); lia.
Qed.

Lemma severity_range t d tags : 0 <= calculate_severity t d tags <= 10.
Proof.
  unfold calculate_severity. cbv zeta.
  pose proof (add_matches_ge 4 high_severity (all_text t d tags) 0 ltac:(lia)).
  pose proof (add_matches_ge 2 medium_severity (all_text t d tags)
                (add_matches 4 high_severity (all_text t d tags) 0) ltac:(lia)).
  pose proof (add_matches_ge 1 low_severity (all_text t d tags)
                (add_matches 2 medium_severity (all_text t d tags)
                   (add_matches 4 high_severity (all_text t d tags) 0)) ltac:(lia)).
  lia.
Qed.

Lemma review_action (g : GuardianModerator) lid t d tags a now pick :
  action (snd (review_listing g lid t d tags a now pick))
  = action_value
      (if fst (check_content_safety t d tags) && (calculate_severity t d tags =? 0)
       then APPROVED
       else if (calculate_severity t d tags <=? 2)
               && is_trusted (snd (get_agent_trust g a))
       then WARNING
       else if calculate_severity t d tags <=? 4 then FLAGGED else REMOVED)
  /\ approved (snd (review_listing g lid t d tags a now pick))
     = fst (check_content_safety t d tags) && (calculate_severity t d tags =? 0).
Proof.
  unfold review_listing.
  destruct (check_content_safety t d tags) as [safe reason].
  destruct (get_agent_trust g a) as [g1 trust]. cbn [fst snd].
  destruct (safe && (calculate_severity t d tags =? 0)); [split; reflexivity|].
  destruct ((calculate_severity t d tags <=? 2) && is_trusted trust); [split; reflexivity|].
  destruct (calculate_severity t d tags <=? 4); split; reflexivity.
Qed.

(** X8.  The decision of a listing review of ASCII text.  The severity is
    between 0 and 10;
    the action is [approved] exactly for safe content of severity 0,
    [warning] exactly for other content of severity at most 2 from a
    trusted agent, [removed] exactly for severity 5 and above, and
    [flagged] in every remaining case; only [approved] sets the
    [approved] flag. *)
Theorem review_listing_decision (g : GuardianModerator)
    (lid t d : string) (tags : list string) (a : string) (now : Z) (pick : nat) :
  let safe := fst (check_content_safety t d tags) in
  let sev := calculate_severity t d tags in
  let trusted := is_trusted (snd (get_agent_trust g a)) in
  let r := snd (review_listing g lid t d tags a now pick) in
  ascii_submission t d tags = true ->
  0 <= sev <= 10
  /\ (action r = "approved" <-> safe = true /\ sev = 0)
  /\ (action r = "warning" <-> (safe = false \/ sev <> 0) /\ sev <= 2 /\ trusted = true)
  /\ (action r = "flagged" <->
      (safe = false \/ sev <> 0) /\ sev <= 4 /\ (2 < sev \/ trusted = false))
  /\ (action r = "removed" <-> 5 <= sev)
  /\ (approved r = true <-> action r = "approved").
Proof.
  intros safe sev trusted r _.
  pose proof (severity_range t d tags) as Hrange. fold sev in Hrange.
  destruct (review_action g lid t d tags a now pick) as [Hact Happ].
  fold safe sev trusted r in Hact, Happ. rewrite Hact, Happ.
  split; [exact Hrange|].
  clearbody safe trusted sev r.
  destruct safe, trusted;
    destruct (Z.eqb_spec sev 0) as [E0|E0]; destruct (Z.leb_spec0 sev 2) as [E2|E2];
    destruct (Z.leb_spec0 sev 4) as [E4|E4];
    cbn [andb action_value];
    (split; [|split; [|split; [|split]]]); split; intros H;
    try discriminate H; try lia; try reflexivity;
    try (destruct H as [[H|H] [H1 [H2|H2]]]; try discriminate; lia);
    try (destruct H as [[H|H] [H1 H2]]; try discriminate; lia);
    try (split; [reflexivity|lia]);
    try (split; [(left; reflexivity) || (right; lia)|
                 split; [lia|reflexivity || (left; lia) || (right; reflexivity)]]).
Qed.

Lemma review_listing_decision_witness :
  0 <= calculate_severity "Unlock premium analytics"
         "Unlock the full analytics dashboard for your agent" [] <= 10
  /\ action (snd (review_listing init "pending" "Unlock premium analytics"
                    "Unlock the full analytics dashboard for your agent" [] "alice" 1000 0))
     = "warning"
  /\ calculate_severity "Unlock premium analytics"
       "Unlock the full analytics dashboard for your agent" [] = 1.
Proof.
  destruct (review_listing_decision init "pending" "Unlock premium analytics"
              "Unlock the full analytics dashboard for your agent" [] "alice" 1000 0)
    as (Hrange & _ & Hwarn & _).
  - vm_compute. reflexivity.
  - split; [exact Hrange|]. split; [|vm_compute; reflexivity].
    apply Hwarn. split; [right; vm_compute; discriminate|].
    split; [vm_compute; discriminate|vm_compute; reflexivity].
Defined.

Lemma high_severity_prohibited w : In w high_severity -> In w PROHIBITED_KEYWORDS.
Proof. cbn. intros H. repeat (destruct H as [<-|H]; [tauto|]). destruct H. Qed.

(** X9.  Content that contains one of the high-severity words ("malware",
    "weapon", "exploit", "ransomware", "ddos", "botnet") is unsafe, scores
    at least 4, and is flagged or removed, never approved and never let
    off with a warning. *)
Theorem high_severity_word_rejected (g : GuardianModerator) (w : string)
    (lid t d : string) (tags : list string) (a : string) (now : Z) (pick : nat) :
  In w high_severity ->
  contains w (all_text t d tags) = true ->
  fst (check_content_safety t d tags) = false
  /\ 4 <= calculate_severity t d tags
  /\ (action (snd (review_listing g lid t d tags a now pick)) = "flagged"
      \/ action (snd (review_listing g lid t d tags a now pick)) = "removed")
  /\ approved (snd (review_listing g lid t d tags a now pick)) = false.
Proof.
  intros Hin Hc.
  assert (fst (check_content_safety t d tags) = false) as Hunsafe
    by (apply (unsafe_of_keyword w); [apply high_severity_prohibited, Hin|exact Hc]).
  assert (4 <= calculate_severity t d tags) as Hsev.
  { unfold calculate_severity. cbv zeta.
    pose proof (add_matches_hit 4 high_severity (all_text t d tags) 0 w ltac:(lia) Hin Hc).
    pose proof (add_matches_ge 2 medium_severity (all_text t d tags)
                  (add_matches 4 high_severity (all_text t d tags) 0) ltac:(lia)).
    pose proof (add_matches_ge 1 low_severity (all_text t d tags)
                  (add_matches 2 medium_severity (all_text t d tags)
                     (add_matches 4 high_severity (all_text t d tags) 0)) ltac:(lia)).
    lia. }
  destruct (review_action g lid t d tags a now pick) as [Hact Happ].
  rewrite Hact, Happ, Hunsafe. cbn [andb].
  split; [reflexivity|]. split; [exact Hsev|].
  assert ((calculate_severity t d tags <=? 2) = false) as -> by (apply Z.leb_gt; lia).
  cbn [andb]. split; [|reflexivity].
  destruct (calculate_severity t d tags <=? 4); [left|right]; reflexivity.
Qed.

Lemma high_severity_word_rejected_witness :
  fst (check_content_safety "System tools" "Removes MALWARE from your host" []) = false
  /\ 4 <= calculate_severity "System tools" "Removes MALWARE from your host" []
  /\ (action (snd (review_listing init "pending" "System tools"
                     "Removes MALWARE from your host" [] "alice" 0 0)) = "flagged"
      \/ action (snd (review_listing init "pending" "System tools"
                        "Removes MALWARE from your host" [] "alice" 0 0)) = "removed")
  /\ approved (snd (review_listing init "pending" "System tools"
                      "Removes MALWARE from your host" [] "alice" 0 0)) = false.
Proof.
  apply (high_severity_word_rejected init "malware").
  - cbn. tauto.
  - vm_compute. reflexivity.
Defined.

(** X10.  ASCII content that passes the safety check scores at most 5: of the
    weighted words only "crack", "bypass", "unlock" and "free" are not
    prohibited keywords. *)
Theorem safe_content_severity (t d : string) (tags : list string) :
  ascii_submission t d tags = true ->
  fst (check_content_safety t d tags) = true ->
  calculate_severity t d tags
  = Z.min 10 ((if contains "crack" (all_text t d tags) then 2 else 0)
              + (if contains "bypass" (all_text t d tags) then 1 else 0)
              + (if contains "unlock" (all_text t d tags) then 1 else 0)
              + (if contains "free" (all_text t d tags) then 1 else 0))
  /\ calculate_severity t d tags <= 5.
Proof.
  unfold check_content_safety. intros _ H.
  destruct (first_keyword PROHIBITED_KEYWORDS (all_text t d tags)) eqn:E; [discriminate H|].
  assert (Hno : forall w, In w PROHIBITED_KEYWORDS -> contains w (all_text t d tags) = false).
  { intros w Hin. rewrite <- (keywords_lower_case w Hin).
    exact (first_keyword_none _ _ w E Hin). }
  unfold calculate_severity, high_severity, medium_severity, low_severity.
  cbv zeta. cbn [add_matches].
  rewrite (Hno "malware"), (Hno "weapon"), (Hno "exploit"), (Hno "ransomware"),
    (Hno "ddos"), (Hno "botnet"), (Hno "hack"), (Hno "stolen"), (Hno "leaked"),
    (Hno "jailbreak") by (cbn; tauto).
  destruct (contains "crack" (all_text t d tags)), (contains "bypass" (all_text t d tags)),
    (contains "unlock" (all_text t d tags)), (contains "free" (all_text t d tags));
    cbn; split; (reflexivity || lia).
Qed.

Lemma safe_content_severity_witness :
  calculate_severity "Nutcracker toolkit" "Free to unlock, lets you bypass the waiting queue" []
  = Z.min 10 ((if contains "crack" (all_text "Nutcracker toolkit"
                                      "Free to unlock, lets you bypass the waiting queue" [])
               then 2 else 0)
              + (if contains "bypass" (all_text "Nutcracker toolkit"
                                         "Free to unlock, lets you bypass the waiting queue" [])
                 then 1 else 0)
              + (if contains "unlock" (all_text "Nutcracker toolkit"
                                         "Free to unlock, lets you bypass the waiting queue" [])
                 then 1 else 0)
              + (if contains "free" (all_text "Nutcracker toolkit"
                                       "Free to unlock, lets you bypass the waiting queue" [])
                 then 1 else 0))
  /\ calculate_severity "Nutcracker toolkit"
       "Free to unlock, lets you bypass the waiting queue" [] = 5.
Proof.
  split; [|vm_compute; reflexivity].
  apply (safe_content_severity "Nutcracker toolkit"
           "Free to unlock, lets you bypass the waiting queue" []);
    vm_compute; reflexivity.
Defined.

End SeverityFacts.

Module GuardianStateFacts.

Import Text Moderation CategoryPolicy Guardian GuardianReviews Notions GuardianFacts.

Lemma get_agent_trust_flags (g : GuardianModerator) (a : string) :
  flagged_content (fst (get_agent_trust g a)) = flagged_content g.
Proof. unfold get_agent_trust. destruct (agent_trust_scores g !! a); reflexivity. Qed.

Lemma get_agent_trust_mem (g : GuardianModerator) (a k : string) (t : AgentTrustScore) :
  agent_trust_scores g !! k = Some t ->
  agent_trust_scores (fst (get_agent_trust g a)) !! k = Some t.
Proof.
  intros H. unfold get_agent_trust.
  destruct (agent_trust_scores g !! a) as [u|] eqn:E; cbn; [exact H|].
  rewrite lookup_insert_ne; [exact H|]. intros ->. congruence.
Qed.

(** What each step does to the log. *)

Lemma record_warning_log (g : GuardianModerator) (a : string) :
  moderation_logs (record_warning g a) = moderation_logs g
  /\ log_counter (record_warning g a) = log_counter g
  /\ flagged_content (record_warning g a) = flagged_content g.
Proof.
  unfold record_warning, get_agent_trust.
  destruct (agent_trust_scores g !! a); cbn; auto.
Qed.

Lemma well_numbered_same (g g' : GuardianModerator) :
  moderation_logs g' = moderation_logs g -> log_counter g' = log_counter g ->
  well_numbered g -> well_numbered g'.
Proof. unfold well_numbered, log_numbers. intros -> ->. auto. Qed.

Lemma well_numbered_append (g : GuardianModerator) (e : ModerationLog) ts fs :
  log_seq (log_id e) = log_counter g + 1 ->
  well_numbered g ->
  well_numbered (mkGuardian (moderation_logs g ++ [e]) ts fs (log_counter g + 1)).
Proof.
  unfold well_numbered, log_numbers. cbn. intros He [H0 Hn]. split; [lia|].
  rewrite fmap_app, Hn, seqZ_app by lia. cbn [fmap list_fmap]. rewrite He.
  f_equal. rewrite seqZ_cons, seqZ_nil by lia. f_equal. lia.
Qed.

Lemma well_numbered_suspend (g : GuardianModerator) (a reason : string) (now : Z) :
  well_numbered g -> well_numbered (suspend_agent g a reason now).
Proof. intros H. unfold suspend_agent. cbn. apply well_numbered_append; [reflexivity|exact H]. Qed.

Lemma well_numbered_violation (g : GuardianModerator) (a : string) v (now : Z) :
  well_numbered g -> well_numbered (record_violation g a v now).
Proof.
  intros H. unfold record_violation.
  destruct (get_agent_trust g a) as [g1 t] eqn:E.
  pose proof (get_agent_trust_spec g a) as (_ & _ & Hl & Hc). rewrite E in Hl, Hc. cbn in Hl, Hc.
  assert (well_numbered g1) as H1 by (eapply well_numbered_same; eauto).
  cbv zeta. destruct (3 <=? violations t + 1).
  - apply well_numbered_suspend. eapply well_numbered_same; [| |exact H1]; reflexivity.
  - eapply well_numbered_same; [| |exact H1]; reflexivity.
Qed.

Lemma well_numbered_listing (g : GuardianModerator) lid t d tags a now pick :
  well_numbered g -> well_numbered (fst (review_listing g lid t d tags a now pick)).
Proof.
  intros H. unfold review_listing.
  destruct (check_content_safety t d tags) as [safe reason].
  destruct (get_agent_trust g a) as [g1 trust] eqn:E.
  pose proof (get_agent_trust_spec g a) as (_ & _ & Hl & Hc). rewrite E in Hl, Hc. cbn in Hl, Hc.
  assert (well_numbered g1) as H1 by (eapply well_numbered_same; eauto).
  destruct (safe && (calculate_severity t d tags =? 0));
    [|destruct ((calculate_severity t d tags <=? 2) && is_trusted trust);
      [|destruct (calculate_severity t d tags <=? 4)]];
    cbn; apply well_numbered_append; try reflexivity.
  - exact H1.
  - destruct (record_warning_log g1 a) as (Ha & Hb & _).
    eapply well_numbered_same; eauto.
  - eapply well_numbered_same; [| |exact H1]; reflexivity.
  - apply well_numbered_violation, H1.
Qed.

(** X11.  The moderation log is numbered without gaps: if the entries carry
    the numbers 1 to [log_counter], oldest first, they still do after a
    listing review, a category review, a message review and a user
    report; so no two log entries share a number. *)
Theorem log_stays_well_numbered (g : GuardianModerator)
    (id title description : string) (tags : list string) (a : string)
    (now : Z) (pick : nat) :
  well_numbered g ->
  well_numbered (fst (review_listing g id title description tags a now pick))
  /\ well_numbered (fst (review_category g title description a now))
  /\ well_numbered (fst (review_message g id description a now))
  /\ well_numbered (report_content g title id description a now)
  /\ NoDup (log_numbers g).
Proof.
  intros H. split; [apply well_numbered_listing, H|]. split; [|split; [|split]].
  - unfold review_category.
    destruct (check_category_safety title description) as [safe reason].
    destruct safe; cbn; apply well_numbered_append; try reflexivity; exact H.
  - unfold review_message.
    destruct (check_content_safety "" description []) as [safe reason].
    destruct safe; cbn [fst]; [exact H|].
    destruct (record_warning_log (flag_content g "message" id reason a now) a) as (Ha & Hb & _).
    eapply well_numbered_same; [exact Ha|exact Hb|].
    eapply well_numbered_same; [| |exact H]; reflexivity.
  - eapply well_numbered_same; [| |exact H]; reflexivity.
  - destruct H as [_ ->]. apply NoDup_seqZ.
Qed.

Lemma log_stays_well_numbered_witness :
  well_numbered (fst (review_listing init "pending" "Exploit kit" "ddos botnet" [] "mallory" 0 0))
  /\ log_numbers (fst (review_listing init "pending" "Exploit kit" "ddos botnet" [] "mallory" 0 0))
     = [1].
Proof.
  split.
  - apply (log_stays_well_numbered init "pending" "Exploit kit" "ddos botnet" [] "mallory" 0 0).
    split; [cbn; lia|reflexivity].
  - vm_compute. reflexivity.
Defined.

(** What each step does to the trust ledger. *)

Lemma max0_nonneg (x : float) : PrimFloat.leb 0 (PyFloat.max0 x) = true.
Proof.
  unfold PyFloat.max0, PyFloat.gt. destruct (PrimFloat.ltb 0 x) eqn:E; [|reflexivity].
  rewrite ltb_spec in E. rewrite leb_spec. unfold SFltb in E. unfold SFleb.
  destruct (SFcompare (Prim2SF 0) (Prim2SF x)) as [[| |]|]; congruence.
Qed.

Lemma new_trust_ok (a : string) : entry_ok a (new_trust a).
Proof. split; [reflexivity|]. split; [reflexivity|]. intros _. cbn. lia. Qed.

Lemma get_agent_trust_ok (g : GuardianModerator) (a : string) :
  ledger_ok g ->
  ledger_ok (fst (get_agent_trust g a)) /\ entry_ok a (snd (get_agent_trust g a)).
Proof.
  unfold ledger_ok, get_agent_trust. intros H.
  destruct (agent_trust_scores g !! a) as [t|] eqn:E; cbn.
  - split; [exact H|]. exact (H a t E).
  - split; [|apply new_trust_ok]. apply map_Forall_insert_2; [apply new_trust_ok|exact H].
Qed.

Lemma set_trust_ok (g : GuardianModerator) (a : string) (t : AgentTrustScore) :
  ledger_ok g -> entry_ok a t -> ledger_ok (set_trust g a t).
Proof. unfold ledger_ok. intros H Ht. cbn. apply map_Forall_insert_2; assumption. Qed.

Lemma record_warning_ok (g : GuardianModerator) (a : string) :
  ledger_ok g -> ledger_ok (record_warning g a).
Proof.
  intros H. unfold record_warning.
  destruct (get_agent_trust_ok g a H) as [H1 (Hid & Hs & Ht)].
  destruct (get_agent_trust g a) as [g1 t]. cbn [fst snd] in *.
  apply set_trust_ok; [exact H1|].
  split; [exact Hid|]. split; [apply max0_nonneg|]. cbn.
  destruct (Z.leb_spec0 3 (warnings t + 1)); [discriminate|].
  intros Htr. destruct (Ht Htr). lia.
Qed.

Lemma record_violation_ok (g : GuardianModerator) (a : string) v (now : Z) :
  ledger_ok g -> ledger_ok (record_violation g a v now).
Proof.
  intros H. unfold record_violation.
  destruct (get_agent_trust_ok g a H) as [H1 (Hid & Hs & Ht)].
  destruct (get_agent_trust g a) as [g1 t]. cbn [fst snd] in *.
  assert (ledger_ok (set_trust g1 a
            (mkAgentTrustScore (trust_agent_id t) (PyFloat.max0 (score t - 0.2))
               (warnings t) (violations t + 1) (Some now) false))) as H2.
  { apply set_trust_ok; [exact H1|].
    split; [exact Hid|]. split; [apply max0_nonneg|]. cbn. discriminate. }
  cbv zeta. destruct (3 <=? violations t + 1); exact H2.
Qed.

(** X12.  The trust ledger keeps its shape.  If every entry is filed under its
    own agent id, has a score that is not negative, and is trusted only
    with fewer than three warnings and no violation, then the same holds
    after a listing review and after a message review, whatever the
    content and whoever the agent. *)
Theorem trust_ledger_invariant (g : GuardianModerator)
    (id title description : string) (tags : list string) (a : string)
    (now : Z) (pick : nat) :
  ledger_ok g ->
  ledger_ok (fst (review_listing g id title description tags a now pick))
  /\ ledger_ok (fst (review_message g id description a now)).
Proof.
  intros H. split.
  - unfold review_listing.
    destruct (check_content_safety title description tags) as [safe reason].
    destruct (get_agent_trust_ok g a H) as [H1 _].
    destruct (get_agent_trust g a) as [g1 trust]. cbn [fst snd] in H1.
    destruct (safe && (calculate_severity title description tags =? 0));
      [|destruct ((calculate_severity title description tags <=? 2) && is_trusted trust);
        [|destruct (calculate_severity title description tags <=? 4)]];
      cbn [fst generate_log_id]; unfold ledger_ok;
      cbn [agent_trust_scores].
    + exact H1.
    + apply record_warning_ok, H1.
    + exact H1.
    + apply record_violation_ok, H1.
  - unfold review_message.
    destruct (check_content_safety "" description []) as [safe reason].
    destruct safe; cbn [fst]; [exact H|].
    apply record_warning_ok. exact H.
Qed.

Lemma trust_ledger_invariant_witness :
  ledger_ok (fst (review_listing init "pending" "Exploit kit" "ddos botnet" [] "mallory" 0 0))
  /\ ledger_ok (fst (review_message init "pending" "ddos botnet" "mallory" 0)).
Proof.
  apply (trust_ledger_invariant init "pending" "Exploit kit" "ddos botnet" [] "mallory" 0 0).
  apply map_Forall_empty.
Defined.

End GuardianStateFacts.

Module TrustFacts.

Import Text Moderation CategoryPolicy Guardian GuardianReviews Notions GuardianFacts
  SeverityFacts GuardianStateFacts.

Lemma record_warning_other (g : GuardianModerator) (a k : string) :
  k <> a -> agent_trust_scores (record_warning g a) !! k = agent_trust_scores g !! k.
Proof.
  intros Hk. unfold record_warning.
  pose proof (get_agent_trust_spec g a) as (_ & Ho & _).
  destruct (get_agent_trust g a) as [g1 t]. cbn [fst snd] in *.
  cbn. rewrite lookup_insert_ne by congruence. apply Ho, Hk.
Qed.

Lemma record_warning_self (g : GuardianModerator) (a : string) :
  agent_trust_scores (record_warning g a) !! a = Some (warned (snd (get_agent_trust g a))).
Proof.
  unfold record_warning. destruct (get_agent_trust g a) as [g1 t]. cbn.
  apply lookup_insert_eq.
Qed.

(** The entry of an agent after one more violation at [now]. *)
Lemma record_violation_self (g : GuardianModerator) (a : string) v (now : Z) :
  let t := snd (get_agent_trust g a) in
  agent_trust_scores (record_violation g a v now) !! a
  = Some (mkAgentTrustScore (trust_agent_id t) (PyFloat.max0 (score t - 0.2))
            (warnings t) (violations t + 1) (Some now) false).
Proof.
  unfold record_violation. destruct (get_agent_trust g a) as [g1 t]. cbn [snd]. cbv zeta.
  destruct (3 <=? violations t + 1); cbn; apply lookup_insert_eq.
Qed.

Lemma record_violation_other (g : GuardianModerator) (a k : string) v (now : Z) :
  k <> a -> agent_trust_scores (record_violation g a v now) !! k = agent_trust_scores g !! k.
Proof.
  intros Hk. unfold record_violation.
  pose proof (get_agent_trust_spec g a) as (_ & Ho & _).
  destruct (get_agent_trust g a) as [g1 t]. cbn [fst snd] in *. cbv zeta.
  destruct (3 <=? violations t + 1); cbn; rewrite lookup_insert_ne by congruence; apply Ho, Hk.
Qed.

Lemma get_agent_trust_known (g : GuardianModerator) (a : string) (t : AgentTrustScore) :
  agent_trust_scores g !! a = Some t -> get_agent_trust g a = (g, t).
Proof. intros H. unfold get_agent_trust. rewrite H. reflexivity. Qed.

Lemma get_agent_trust_again (g : GuardianModerator) (a : string) :
  get_agent_trust (fst (get_agent_trust g a)) a = get_agent_trust g a.
Proof.
  pose proof (get_agent_trust_spec g a) as (H & _).
  rewrite (get_agent_trust_known _ _ _ H). destruct (get_agent_trust g a); reflexivity.
Qed.

(** The trust ledger after a listing review, branch by branch. *)
Lemma review_listing_ledger (g : GuardianModerator) lid t d tags a now pick :
  agent_trust_scores (fst (review_listing g lid t d tags a now pick))
  = agent_trust_scores
      (if fst (check_content_safety t d tags) && (calculate_severity t d tags =? 0)
       then fst (get_agent_trust g a)
       else if (calculate_severity t d tags <=? 2) && is_trusted (snd (get_agent_trust g a))
       then record_warning (fst (get_agent_trust g a)) a
       else if calculate_severity t d tags <=? 4 then fst (get_agent_trust g a)
       else record_violation (fst (get_agent_trust g a)) a HARMFUL_CONTENT now).
Proof.
  unfold review_listing.
  destruct (check_content_safety t d tags) as [safe reason].
  destruct (get_agent_trust g a) as [g1 trust]. cbn [fst snd].
  destruct (safe && (calculate_severity t d tags =? 0)); [reflexivity|].
  destruct ((calculate_severity t d tags <=? 2) && is_trusted trust); [reflexivity|].
  destruct (calculate_severity t d tags <=? 4); reflexivity.
Qed.

(** X13.  The third warning ends an agent's trust.  When an agent that is
    still trusted and already has two warnings or more submits a listing
    of ASCII text that earns a warning (severity at most 2, not both safe
    and of severity 0), the review answers [warning] and leaves the agent's entry
    untrusted, with one more warning. *)
Theorem third_warning_ends_trust (g : GuardianModerator)
    (lid t d : string) (tags : list string) (a : string) (now : Z) (pick : nat)
    (trust : AgentTrustScore) :
  ascii_submission t d tags = true ->
  agent_trust_scores g !! a = Some trust ->
  is_trusted trust = true ->
  2 <= warnings trust ->
  calculate_severity t d tags <= 2 ->
  fst (check_content_safety t d tags) && (calculate_severity t d tags =? 0) = false ->
  action (snd (review_listing g lid t d tags a now pick)) = "warning"
  /\ exists trust',
      agent_trust_scores (fst (review_listing g lid t d tags a now pick)) !! a = Some trust'
      /\ is_trusted trust' = false
      /\ warnings trust' = warnings trust + 1
      /\ violations trust' = violations trust.
Proof.
  intros _ Hin Htr Hw Hsev Hnot.
  destruct (review_action g lid t d tags a now pick) as [Hact _].
  rewrite Hact, review_listing_ledger, Hnot, (get_agent_trust_known g a trust Hin).
  cbn [fst snd]. rewrite Htr.
  destruct (Z.leb_spec0 (calculate_severity t d tags) 2); [|lia]. cbn [andb].
  split; [reflexivity|].
  exists (warned trust). rewrite record_warning_self, (get_agent_trust_known g a trust Hin).
  split; [reflexivity|]. cbn.
  destruct (Z.leb_spec0 3 (warnings trust + 1)); [|lia]. auto.
Qed.

Lemma third_warning_ends_trust_witness :
  action (snd (review_listing
                 (set_trust init "alice" (mkAgentTrustScore "alice" 0.7 2 0 None true))
                 "pending" "Free samples" "Try it" [] "alice" 0 0)) = "warning".
Proof.
  apply (third_warning_ends_trust
           (set_trust init "alice" (mkAgentTrustScore "alice" 0.7 2 0 None true))
           "pending" "Free samples" "Try it" [] "alice" 0 0
           (mkAgentTrustScore "alice" 0.7 2 0 None true)).
  - vm_compute. reflexivity.
  - reflexivity.
  - reflexivity.
  - cbn. lia.
  - vm_compute. discriminate.
  - vm_compute. reflexivity.
Defined.

(** X14.  Trust is never restored.  Once an agent's entry is untrusted it stays
    untrusted through every listing review and message review, by that
    agent or by another; and a listing of an untrusted agent is never
    answered with [warning]: whatever is not approved is flagged or
    removed. *)
Theorem trust_is_never_restored (g : GuardianModerator) (k : string)
    (trust : AgentTrustScore)
    (lid t d : string) (tags : list string) (a : string) (now : Z) (pick : nat) :
  agent_trust_scores g !! k = Some trust ->
  is_trusted trust = false ->
  (exists trust',
      agent_trust_scores (fst (review_listing g lid t d tags a now pick)) !! k = Some trust'
      /\ is_trusted trust' = false)
  /\ (exists trust',
      agent_trust_scores (fst (review_message g lid d a now)) !! k = Some trust'
      /\ is_trusted trust' = false)
  /\ action (snd (review_listing g lid t d tags k now pick)) <> "warning".
Proof.
  intros Hin Hun.
  assert (Hw : forall g0 t0, agent_trust_scores g0 !! k = Some t0 -> is_trusted t0 = false ->
               exists t', agent_trust_scores (record_warning g0 a) !! k = Some t'
                          /\ is_trusted t' = false).
  { intros g0 t0 H0 Hf. destruct (decide (k = a)) as [->|Hne].
    - rewrite record_warning_self, (get_agent_trust_known g0 a t0 H0). cbn [snd].
      eexists; split; [reflexivity|]. cbn. rewrite Hf. destruct (3 <=? warnings t0 + 1); reflexivity.
    - rewrite record_warning_other by exact Hne. eauto. }
  split; [|split].
  - rewrite review_listing_ledger.
    pose proof (get_agent_trust_mem g a k trust Hin) as H1.
    destruct (fst (check_content_safety t d tags) && (calculate_severity t d tags =? 0));
      [eauto|].
    destruct ((calculate_severity t d tags <=? 2) && is_trusted (snd (get_agent_trust g a)));
      [exact (Hw _ _ H1 Hun)|].
    destruct (calculate_severity t d tags <=? 4); [eauto|].
    destruct (decide (k = a)) as [->|Hne].
    + rewrite record_violation_self. eexists; split; reflexivity.
    + rewrite record_violation_other by exact Hne. eauto.
  - unfold review_message.
    destruct (check_content_safety "" d []) as [safe reason].
    destruct safe; cbn [fst]; [eauto|].
    apply (Hw (flag_content g "message" lid reason a now) trust); [exact Hin|exact Hun].
  - destruct (review_action g lid t d tags k now pick) as [Hact _].
    rewrite Hact, (get_agent_trust_known g k trust Hin). cbn [snd]. rewrite Hun.
    rewrite andb_false_r.
    destruct (fst (check_content_safety t d tags) && (calculate_severity t d tags =? 0));
      [discriminate|].
    destruct (calculate_severity t d tags <=? 4); discriminate.
Qed.

Lemma trust_is_never_restored_witness :
  exists trust',
    agent_trust_scores
      (fst (review_listing
              (set_trust init "alice" (mkAgentTrustScore "alice" 0.65 3 0 None false))
              "pending" "Free samples" "Try it" [] "alice" 0 0)) !! "alice" = Some trust'
    /\ is_trusted trust' = false.
Proof.
  apply (trust_is_never_restored
           (set_trust init "alice" (mkAgentTrustScore "alice" 0.65 3 0 None false))
           "alice" (mkAgentTrustScore "alice" 0.65 3 0 None false)
           "pending" "Free samples" "Try it" [] "alice" 0 0); reflexivity.
Defined.

(** X15.  A removed listing is a violation.  A listing of severity 5 or more
    is removed: the agent's entry gets one more violation, the clock
    reading as last violation, a score lowered by 0.2 and never below 0,
    and is untrusted from then on; the listing is not put on the flagged
    list.  The log gets the review's entry, preceded by an
    [agent_suspended] entry when this is the agent's third violation or a
    later one; nothing but the log records the suspension. *)
Theorem removed_listing_records_violation (g : GuardianModerator)
    (lid t d : string) (tags : list string) (a : string) (now : Z) (pick : nat) :
  5 <= calculate_severity t d tags ->
  let trust := snd (get_agent_trust g a) in
  let g' := fst (review_listing g lid t d tags a now pick) in
  action (snd (review_listing g lid t d tags a now pick)) = "removed"
  /\ agent_trust_scores g' !! a
     = Some (mkAgentTrustScore (trust_agent_id trust) (PyFloat.max0 (score trust - 0.2))
               (warnings trust) (violations trust + 1) (Some now) false)
  /\ (forall k, k <> a -> agent_trust_scores g' !! k = agent_trust_scores g !! k)
  /\ flagged_content g' = flagged_content g
  /\ exists suspension entry,
      moderation_logs g'
      = moderation_logs g
        ++ (if 3 <=? violations trust + 1 then [suspension] else []) ++ [entry]
      /\ log_action suspension = AGENT_SUSPENDED
      /\ log_target_id suspension = a
      /\ log_action entry = REMOVED
      /\ log_target_id entry = lid
      /\ log_id entry = review_log_id (snd (review_listing g lid t d tags a now pick)).
Proof.
  intros Hsev trust g'.
  assert (Hb : fst (check_content_safety t d tags) && (calculate_severity t d tags =? 0) = false).
  { destruct (Z.eqb_spec (calculate_severity t d tags) 0); [lia|]. apply andb_false_r. }
  assert (H2 : (calculate_severity t d tags <=? 2) = false) by (apply Z.leb_gt; lia).
  assert (H4 : (calculate_severity t d tags <=? 4) = false) by (apply Z.leb_gt; lia).
  split.
  { destruct (review_action g lid t d tags a now pick) as [Hact _].
    rewrite Hact, Hb, H2, H4. reflexivity. }
  split; [|split].
  - subst g'. rewrite review_listing_ledger, Hb, H2, H4. cbn [andb].
    rewrite record_violation_self, get_agent_trust_again. reflexivity.
  - intros k Hk. subst g'. rewrite review_listing_ledger, Hb, H2, H4. cbn [andb].
    rewrite record_violation_other by exact Hk.
    pose proof (get_agent_trust_spec g a) as (_ & Ho & _). apply Ho, Hk.
  - subst g' trust. unfold review_listing.
    destruct (check_content_safety t d tags) as [safe reason]. cbn [fst] in Hb.
    pose proof (get_agent_trust_spec g a) as (Hself & _ & Hl & _).
    pose proof (get_agent_trust_flags g a) as Hf.
    destruct (get_agent_trust g a) as [g1 trust]. cbn [fst snd] in *.
    rewrite Hb, H2, H4. cbn [andb].
    unfold record_violation. rewrite (get_agent_trust_known g1 a trust Hself). cbv zeta.
    destruct (3 <=? violations trust + 1); cbn; rewrite Hf, Hl; (split; [reflexivity|]).
    + eexists _, _. rewrite <- app_assoc. split; [reflexivity|]. repeat split.
    + eexists (mkModerationLog (mkLogId 0 0) 0 AGENT_SUSPENDED "agent" a None "" None true), _.
      split; [reflexivity|]. repeat split.
Qed.

Lemma removed_listing_records_violation_witness :
  action (snd (review_listing init "pending" "Exploit kit" "ddos botnet" [] "mallory" 0 0))
  = "removed".
Proof.
  apply (removed_listing_records_violation init "pending" "Exploit kit" "ddos botnet" []
           "mallory" 0 0).
  vm_compute. discriminate.
Defined.

(** A message review.  A safe message leaves the moderator as it was.
    An unsafe one is filed on the flagged list under ["message:" + id]
    with the sender and the reason, and costs the sender exactly one
    warning; no other agent's entry changes.  In neither case is anything
    written to the moderation log. *)
Lemma review_message_effects (g : GuardianModerator)
    (message_id content sender_id : string) (now : Z) :
  let safe := fst (check_content_safety "" content []) in
  let reason := snd (check_content_safety "" content []) in
  let g' := fst (review_message g message_id content sender_id now) in
  message_approved (snd (review_message g message_id content sender_id now)) = safe
  /\ moderation_logs g' = moderation_logs g
  /\ log_counter g' = log_counter g
  /\ (safe = true -> g' = g)
  /\ (safe = false ->
      flagged_content g'
      = <[("message:" +:+ message_id)%string :=
            mkFlaggedContent "message" message_id reason sender_id now "pending_review"]>
          (flagged_content g)
      /\ agent_trust_scores g' !! sender_id
         = Some (warned (snd (get_agent_trust g sender_id)))
      /\ forall k, k <> sender_id ->
           agent_trust_scores g' !! k = agent_trust_scores g !! k).
Proof.
  cbv zeta. unfold review_message.
  destruct (check_content_safety "" content []) as [safe reason]. cbn [fst snd].
  destruct safe; cbn [fst snd message_approved].
  - repeat split; intros; discriminate.
  - destruct (record_warning_log (flag_content g "message" message_id reason sender_id now)
                sender_id) as (Ha & Hb & Hc).
    split; [reflexivity|]. split; [exact Ha|]. split; [exact Hb|].
    split; [discriminate|]. intros _. split; [exact Hc|]. split.
    + rewrite record_warning_self. unfold get_agent_trust, flag_content.
      cbn [agent_trust_scores]. destruct (agent_trust_scores g !! sender_id); reflexivity.
    + intros k Hk. rewrite record_warning_other by exact Hk. reflexivity.
Qed.

End TrustFacts.

Module ReportFacts.

Import Text Moderation CategoryPolicy Guardian GuardianReviews Notions.

(** A category review costs the agent nothing.  The category is approved
    exactly when the category check finds no prohibited keyword, and is
    answered [removed] otherwise; either way the trust ledger and the
    flagged list stay as they were (a rejected category is neither a
    warning nor a violation), and the log grows by the one entry whose id
    is returned. *)
Lemma review_category_effects (g : GuardianModerator)
    (category_name description agent_id : string) (now : Z) :
  let safe := fst (check_category_safety category_name description) in
  let g' := fst (review_category g category_name description agent_id now) in
  let r := snd (review_category g category_name description agent_id now) in
  category_approved r = safe
  /\ category_action r = (if safe then "approved" else "removed")
  /\ agent_trust_scores g' = agent_trust_scores g
  /\ flagged_content g' = flagged_content g
  /\ log_counter g' = log_counter g + 1
  /\ exists entry,
      moderation_logs g' = moderation_logs g ++ [entry]
      /\ log_id entry = category_log_id r
      /\ log_seq (log_id entry) = log_counter g + 1
      /\ log_target_type entry = "category"
      /\ log_agent_id entry = Some agent_id
      /\ log_reason entry = snd (check_category_safety category_name description).
Proof.
  cbv zeta. unfold review_category.
  destruct (check_category_safety category_name description) as [safe reason] eqn:E.
  assert (safe = true -> reason = "Category approved") as Hr.
  { unfold check_category_safety in E.
    destruct (first_keyword PROHIBITED_KEYWORDS _); inversion E; auto. discriminate. }
  destruct safe; cbn; repeat split; eexists; repeat split.
  symmetry. apply Hr. reflexivity.
Qed.

(** A user report.  The report is filed on the flagged list under
    [type + ":" + id], with the reporter as its agent and the reason
    prefixed by "User report: "; every other entry of the list is kept,
    and the trust ledger and the log are not touched.  A later report on
    the same content replaces the earlier one: only the last reporter
    and reason remain. *)
Lemma report_content_effects (g : GuardianModerator)
    (content_type content_id reason reporter : string) (now : Z)
    (reason2 reporter2 : string) (now2 : Z) :
  let key := (content_type +:+ ":" +:+ content_id)%string in
  let g' := report_content g content_type content_id reason reporter now in
  flagged_content g' !! key
  = Some (mkFlaggedContent content_type content_id ("User report: " +:+ reason)
            reporter now "pending_review")
  /\ (forall k, k <> key -> flagged_content g' !! k = flagged_content g !! k)
  /\ agent_trust_scores g' = agent_trust_scores g
  /\ moderation_logs g' = moderation_logs g
  /\ log_counter g' = log_counter g
  /\ report_content g' content_type content_id reason2 reporter2 now2
     = report_content g content_type content_id reason2 reporter2 now2.
Proof.
  cbv zeta. unfold report_content, flag_content. cbn.
  split; [apply lookup_insert_eq|].
  split; [intros k Hk; apply lookup_insert_ne; congruence|].
  repeat (split; [reflexivity|]).
  f_equal. apply insert_insert_eq.
Qed.

End ReportFacts.

Module ChallengeFacts.

Import Text Verification Challenges Notions.

Lemma fib_loop_step (k : nat) (a b : Z) :
  fib_loop (S (S k)) a b = fib_loop (S k) a b + fib_loop k a b.
Proof.
  revert a b. induction k as [|k IH]; intros a b.
  - cbn. lia.
  - change (fib_loop (S (S (S k))) a b) with (fib_loop (S (S k)) b (a + b)).
    rewrite IH. reflexivity.
Qed.

(** X16.  The loop of [fib] computes the Fibonacci numbers: [fib 0 = 0],
    [fib 1 = 1] and [fib (n + 2) = fib (n + 1) + fib n] for every
    [n >= 0]; an argument below 0 is returned as it is. *)
Theorem fib_recurrence :
  fib 0 = 0 /\ fib 1 = 1
  /\ (forall n, 0 <= n -> fib (n + 2) = fib (n + 1) + fib n)
  /\ (forall n, n < 0 -> fib n = n).
Proof.
  split; [reflexivity|]. split; [reflexivity|]. split.
  - intros n Hn. unfold fib.
    destruct (Z.leb_spec0 (n + 2) 1); [lia|].
    replace (Z.to_nat (n + 2 - 1)) with (S (Z.to_nat n)) by lia.
    destruct (Z.leb_spec0 (n + 1) 1) as [H1|H1]; destruct (Z.leb_spec0 n 1) as [H0|H0]; try lia.
    + assert (n = 0) as -> by lia. reflexivity.
    + assert (n = 1) as -> by lia. reflexivity.
    + replace (Z.to_nat (n + 1 - 1)) with (S (Z.to_nat (n - 1))) by lia.
      replace (Z.to_nat n) with (S (Z.to_nat (n - 1))) by lia.
      apply fib_loop_step.
  - intros n Hn. unfold fib. destruct (Z.leb_spec0 n 1); [reflexivity|lia].
Qed.

(** *** Trial division *)

Lemma product_app (l1 l2 : list Z) : product (l1 ++ l2) = product l1 * product l2.
Proof.
  unfold product. induction l1 as [|x l1 IH]; cbn [foldr app]; [lia|rewrite IH; lia].
Qed.

(** The inner loop takes out every factor [d]: what is left is not
    divisible by [d]. *)
Lemma divide_out_spec (fuel : nat) (n d : Z) :
  1 <= n -> 2 <= d -> n <= Z.of_nat fuel ->
  let '(fs, n') := divide_out fuel n d in
  n = product fs * n' /\ 1 <= n' /\ n' <= n /\ ~ (d | n')
  /\ Forall (fun f => f = d /\ (d | n)) fs.
Proof.
  revert n. induction fuel as [|k IH]; intros n Hn Hd Hf; [lia|].
  cbn [divide_out]. destruct (Z.eqb_spec (n mod d) 0) as [E|E].
  - assert (n = d * (n / d)) as Hdiv by (apply Z_div_exact_full_2; lia).
    assert (1 <= n / d) as H1 by nia.
    assert (n / d <= Z.of_nat k) as H2 by nia.
    specialize (IH (n / d) H1 Hd H2).
    destruct (divide_out k (n / d) d) as [fs n']. destruct IH as (Hp & Hn' & Hle & Hnd & Hall).
    split; [|split; [|split; [|split]]].
    + cbn. unfold product in Hp. nia.
    + exact Hn'.
    + nia.
    + exact Hnd.
    + assert (d | n) as Hdn by (exists (n / d); lia).
      constructor; [split; [reflexivity|exact Hdn]|].
      eapply Forall_impl; [exact Hall|]. intros f [-> _]. split; [reflexivity|exact Hdn].
  - split; [cbn; lia|]. split; [lia|]. split; [lia|]. split; [|constructor].
    intros Hdiv. apply E. apply Z.mod0_divide, Hdiv.
Qed.

(** A number with no divisor from 2 up to a bound whose square exceeds it
    is prime. *)
Lemma prime_of_no_small_divisor (n d : Z) :
  1 < n -> n < d * d -> 2 <= d ->
  (forall k, 2 <= k < d -> ~ (k | n)) -> Z.prime n.
Proof.
  intros Hn Hsq Hd Hno. split; [exact Hn|].
  intros k Hk [q Hq].
  assert (2 <= q < n) as Hq2 by nia.
  destruct (Z_lt_le_dec k d) as [Hlt|Hge]; [apply (Hno k); [lia|exists q; exact Hq]|].
  destruct (Z_lt_le_dec q d) as [Hlt'|Hge']; [apply (Hno q); [lia|exists k; lia]|].
  nia.
Qed.

(** The least divisor above 1 is prime. *)
Lemma prime_of_least_divisor (n d : Z) :
  2 <= d -> (d | n) -> (forall k, 2 <= k < d -> ~ (k | n)) -> Z.prime d.
Proof.
  intros Hd Hdn Hno. split; [lia|].
  intros k Hk Hkd. apply (Hno k); [lia|]. eapply Z.divide_trans; eassumption.
Qed.

Lemma trial_division_spec (fuel : nat) (n d : Z) :
  1 <= n -> 2 <= d -> n - d + 2 <= Z.of_nat fuel -> (1 <= fuel)%nat ->
  (forall k, 2 <= k < d -> ~ (k | n)) ->
  product (trial_division fuel n d) = n
  /\ Forall Z.prime (trial_division fuel n d).
Proof.
  revert n d. induction fuel as [|k IH]; intros n d Hn Hd Hf H1 Hno; [lia|].
  cbn [trial_division]. destruct (Z.leb_spec0 (d * d) n) as [Hsq|Hsq].
  - pose proof (divide_out_spec (Z.to_nat n) n d Hn Hd ltac:(lia)) as Hdiv.
    destruct (divide_out (Z.to_nat n) n d) as [fs n'].
    destruct Hdiv as (Hp & Hn' & Hle & Hnd & Hall).
    assert (d <= n) as Hdn by nia.
    destruct (IH n' (d + 1)) as [Hprod Hprime]; try lia.
    { intros j Hj Hjn. destruct (Z.eq_dec j d) as [->|Hne]; [exact (Hnd Hjn)|].
      apply (Hno j); [lia|]. eapply Z.divide_trans; [exact Hjn|].
      exists (product fs). lia. }
    split.
    + rewrite product_app, Hprod. lia.
    + apply Forall_app. split; [|exact Hprime].
      eapply Forall_impl; [exact Hall|]. intros f [-> Hdiv].
      apply (prime_of_least_divisor n); assumption.
  - destruct (Z.ltb_spec0 1 n) as [Hgt|Hle].
    + split; [cbn; lia|]. constructor; [|constructor].
      apply (prime_of_no_small_divisor n d); try assumption; lia.
    + split; [cbn; lia|constructor].
Qed.

Lemma prime_divides_product (p : Z) (l : list Z) :
  Z.prime p -> (p | product l) -> Forall Z.prime l -> p ∈ l.
Proof.
  intros Hp. induction l as [|x l IH]; intros Hdiv Hall.
  - cbn in Hdiv. apply Z.divide_1_r_nonneg in Hdiv; [|destruct Hp; lia].
    destruct Hp; lia.
  - inversion Hall as [|? ? Hx Hl]; subst.
    change (product (x :: l)) with (x * product l) in Hdiv.
    destruct (proj1 (Z.divide_prime_mul _ _ p Hp) Hdiv) as [H|H].
    + apply Z.divide_prime_prime in H; [|assumption..]. subst. left.
    + right. apply IH; assumption.
Qed.

(** X17.  [prime_factors] is the prime factorisation.  For every [n >= 1] the
    list returned multiplies up to [n] and holds primes only, so that its
    members are exactly the primes that divide [n]; the answer of the
    challenge, the sum over the set of the list, adds each of these
    primes once. *)
Theorem prime_factors_correct (n : Z) :
  1 <= n ->
  product (prime_factors n) = n
  /\ Forall Z.prime (prime_factors n)
  /\ (forall p, p ∈ prime_factors n <-> Z.prime p /\ (p | n))
  /\ NoDup (remove_dups (prime_factors n))
  /\ (forall p, p ∈ remove_dups (prime_factors n) <-> Z.prime p /\ (p | n)).
Proof.
  intros Hn.
  destruct (trial_division_spec (S (Z.to_nat n)) n 2) as [Hprod Hprime]; try lia.
  fold (prime_factors n) in Hprod, Hprime.
  assert (Hmem : forall p, p ∈ prime_factors n <-> Z.prime p /\ (p | n)).
  { intros p. split.
    - intros Hin. split; [exact (proj1 (Forall_forall _ _) Hprime p Hin)|].
      rewrite <- Hprod. clear -Hin. induction Hin as [x l|x y l Hin IH].
      + exists (product l). cbn. unfold product. lia.
      + destruct IH as [q Hq]. exists (y * q). cbn. unfold product in *. lia.
    - intros [Hp Hdiv]. apply prime_divides_product; [exact Hp| |exact Hprime].
      rewrite Hprod. exact Hdiv. }
  split; [exact Hprod|]. split; [exact Hprime|]. split; [exact Hmem|].
  split; [apply NoDup_remove_dups|].
  intros p. rewrite elem_of_remove_dups. apply Hmem.
Qed.

Lemma prime_factors_correct_witness :
  product (prime_factors 1260) = 1260
  /\ prime_factors 1260 = [2; 2; 3; 3; 5; 7]
  /\ sum_unique_prime_factors 1260 = 17.
Proof.
  split; [|split; reflexivity].
  apply (prime_factors_correct 1260). lia.
Defined.

End ChallengeFacts.

Module GateFacts.

Import Text Verification Challenges Notions ModerationFacts.

(** A challenge that has not expired is there once it has been stored. *)
Lemma store_challenge_keeps (active : gmap string Challenge)
    (cid : string) (data : Challenge) (now : Z) :
  now <= expires_at data -> store_challenge active cid data now !! cid = Some data.
Proof.
  intros H. unfold store_challenge. apply map_lookup_filter_Some.
  split; [apply lookup_insert_eq|]. cbn. apply negb_true_iff, Z.ltb_ge. exact H.
Qed.

(** X18.  [store_challenge] sweeps the store.  After it no stored challenge
    has expired; the challenge just stored is there unless it has itself
    expired, and replaces an earlier one of the same id; every other
    challenge that has not expired is kept; nothing else is added. *)
Theorem store_challenge_sweeps (active : gmap string Challenge)
    (cid : string) (data : Challenge) (now : Z) :
  let active' := store_challenge active cid data now in
  (forall k ch, active' !! k = Some ch -> now <= expires_at ch)
  /\ (now <= expires_at data -> active' !! cid = Some data)
  /\ (expires_at data < now -> active' !! cid = None)
  /\ (forall k ch, k <> cid -> active !! k = Some ch -> now <= expires_at ch ->
      active' !! k = Some ch)
  /\ (forall k ch, k <> cid -> active' !! k = Some ch -> active !! k = Some ch).
Proof.
  cbv zeta. unfold store_challenge.
  split; [|split; [|split; [|split]]].
  - intros k ch H. apply map_lookup_filter_Some in H as [_ H]. cbn in H.
    apply negb_true_iff, Z.ltb_ge in H. exact H.
  - apply store_challenge_keeps.
  - intros H. apply map_lookup_filter_None. right. intros ch Hch.
    rewrite lookup_insert_eq in Hch. inversion Hch; subst. cbn.
    apply Z.ltb_lt in H. rewrite H. discriminate.
  - intros k ch Hk Hin H. apply map_lookup_filter_Some.
    split; [rewrite lookup_insert_ne by congruence; exact Hin|].
    cbn. apply negb_true_iff, Z.ltb_ge. exact H.
  - intros k ch Hk H. apply map_lookup_filter_Some in H as [H _].
    rewrite lookup_insert_ne in H by congruence. exact H.
Qed.

(** X19.  Issue, then answer.  A challenge issued by
    [create_registration_challenge] at [issued] (and stored at [stored],
    before it expires) and answered with the expected text (up to
    surrounding white space) no later than five minutes after [issued],
    with a response time of at most 30,000 ms, is verified and removed
    from the store; the challenge sent to the client carries the id, kind
    and text of the stored one, and its expiry. *)
Theorem challenge_round_trip (active : gmap string Challenge)
    (cid ctype : string) (problem : string * string) (issued stored : Z)
    (answer : string) (rt : float) (now : Z) :
  let active' := fst (create_registration_challenge active cid ctype problem issued stored) in
  let sent := snd (create_registration_challenge active cid ctype problem issued stored) in
  stored <= issued + minutes 5 ->
  now <= issued + minutes 5 ->
  PyFloat.gt rt 30000 = false ->
  strip_ws answer = strip_ws (snd problem) ->
  verify_challenge_response active' cid answer rt now
  = (delete cid active',
     (true, if PyFloat.lt rt 1000 then "verified_fast_response" else "verified"))
  /\ client_challenge_id sent = cid
  /\ client_challenge sent = fst problem
  /\ client_expires_at sent = issued + minutes 5.
Proof.
  intros active' sent Hstored Hnow Hrt Hans.
  assert (Hin : active' !! cid
                = Some (generate_verification_challenge cid ctype problem issued)).
  { subst active'. unfold create_registration_challenge. cbn [fst].
    apply store_challenge_keeps.
    cbn [expires_at generate_verification_challenge]. exact Hstored. }
  split; [|repeat split].
  unfold verify_challenge_response. rewrite Hin.
  cbn [expires_at max_response_time_ms expected_answer generate_verification_challenge].
  destruct (Z.ltb_spec0 (issued + minutes 5) now); [lia|].
  change (PyFloat.of_int 30000) with 30000%float. rewrite Hrt, Hans, String.eqb_refl.
  reflexivity.
Qed.

Lemma challenge_round_trip_witness :
  verify_challenge_response
    (fst (create_registration_challenge ∅ "3f9a0c1d2b4e5f60" "math" (fibonacci_challenge 30)
            0 7))
    "3f9a0c1d2b4e5f60" "2040 " 80 (seconds 2)
  = (delete "3f9a0c1d2b4e5f60"
       (fst (create_registration_challenge ∅ "3f9a0c1d2b4e5f60" "math"
               (fibonacci_challenge 30) 0 7)),
     (true, "verified_fast_response")).
Proof.
  apply (challenge_round_trip ∅ "3f9a0c1d2b4e5f60" "math" (fibonacci_challenge 30) 0 7
           "2040 " 80 (seconds 2)).
  - vm_compute. discriminate.
  - vm_compute. discriminate.
  - vm_compute. reflexivity.
  - vm_compute. reflexivity.
Defined.

(** X20.  [validate_agent_metadata] never rejects.  Every request is answered
    [True], with one of four reasons; a browser name anywhere in the
    user agent, in any letter case, decides for [browser_detected] before
    the framework is looked at; the answer does not depend on the letter
    case of the user agent, nor on the agent version. *)
Theorem validate_agent_metadata_never_rejects
    (user_agent : string) (agent_framework agent_version : option string) :
  let r := validate_agent_metadata user_agent agent_framework agent_version in
  fst r = true
  /\ In (snd r) ["browser_detected"; "known_framework"; "programmatic_access";
                 "unknown_client"]
  /\ (forall browser, In browser browser_indicators ->
      contains (lower browser) (lower user_agent) = true -> snd r = "browser_detected")
  /\ validate_agent_metadata (lower user_agent) agent_framework agent_version = r
  /\ validate_agent_metadata user_agent agent_framework None = r.
Proof.
  cbv zeta. unfold validate_agent_metadata. rewrite lower_idem.
  destruct (existsb _ browser_indicators) eqn:Eb.
  - repeat split; cbn; auto.
  - assert (forall browser, In browser browser_indicators ->
              contains (lower browser) (lower user_agent) = true -> False) as Hno.
    { intros b Hb Hc. apply Bool.not_true_iff_false in Eb. apply Eb.
      apply existsb_exists. exists b. split; assumption. }
    destruct (match agent_framework with Some _ => _ | None => _ end);
      [|destruct (existsb _ AGENT_INDICATORS)];
      (split; [reflexivity|]); (split; [cbn; tauto|]);
      (split; [intros b Hb Hc; destruct (Hno b Hb Hc)|split; reflexivity]).
Qed.

(** The response-time tracker keeps the last hundred.  After
    [record_request] the agent's list ends with the new measurement and
    has at most 100 entries: it is the old list with the new entry added
    while that gives at most 100, and its last 100 otherwise; the lists of
    the other agents are not touched. *)
Lemma record_request_keeps_last_100 (request_times : gmap string (list (Z * float)))
    (agent_id : string) (response_time_ms : float) (now : Z) :
  let old := default [] (request_times !! agent_id) in
  let request_times' := record_request request_times agent_id response_time_ms now in
  exists kept,
    request_times' !! agent_id = Some kept
    /\ (List.length kept <= 100)%nat
    /\ List.length kept = Nat.min 100 (S (List.length old))
    /\ last kept = Some (now, response_time_ms)
    /\ kept = drop (S (List.length old) - 100) (old ++ [(now, response_time_ms)])
    /\ ((List.length old < 100)%nat -> kept = old ++ [(now, response_time_ms)])
    /\ forall k, k <> agent_id -> request_times' !! k = request_times !! k.
Proof.
  cbv zeta. unfold record_request.
  set (old := default [] (request_times !! agent_id)).
  set (all := old ++ [(now, response_time_ms)]).
  assert (Hlen : List.length all = S (List.length old))
    by (subst all; rewrite length_app; cbn; lia).
  exists (drop (List.length all - 100) all).
  split; [apply lookup_insert_eq|].
  split; [rewrite length_drop; lia|].
  split; [rewrite length_drop; lia|].
  split.
  { subst all. rewrite drop_app_le by (rewrite length_app; cbn; lia). apply last_snoc. }
  split; [rewrite Hlen; reflexivity|].
  split.
  { intros H. replace (List.length all - 100)%nat with 0%nat by lia. reflexivity. }
  intros k Hk. apply lookup_insert_ne. congruence.
Qed.

End GateFacts.

Module KeyFacts.

Import Text Db Http Auth ApiKeys Routers Samples ModerationFacts.

Lemma agents_where_hash_nil (db : Store) (x : string) :
  agents_where_hash db x = []
  <-> forall k b, agents db !! k = Some b -> api_key_hash b <> x.
Proof.
  unfold agents_where_hash. split.
  - intros H k b Hb Hx. apply fmap_nil_inv in H. apply map_to_list_empty_iff in H.
    assert (filter (fun kv : string * Agent => api_key_hash (snd kv) = x) (agents db) !! k
            = Some b) as Hin by (apply map_lookup_filter_Some; split; assumption).
    rewrite H in Hin. discriminate Hin.
  - intros H.
    assert (filter (fun kv : string * Agent => api_key_hash (snd kv) = x) (agents db) = ∅) as ->.
    { apply map_eq. intros k. rewrite lookup_empty. apply map_lookup_filter_None.
      right. intros b Hb. cbn. apply (H k b Hb). }
    rewrite map_to_list_empty. reflexivity.
Qed.

Lemma agents_where_hash_single (db : Store) (x id : string) (a : Agent) :
  agents db !! id = Some a -> api_key_hash a = x ->
  (forall k b, agents db !! k = Some b -> k <> id -> api_key_hash b <> x) ->
  agents_where_hash db x = [a].
Proof.
  intros Ha Hx Hothers. unfold agents_where_hash.
  assert (filter (fun kv : string * Agent => api_key_hash (snd kv) = x) (agents db)
          = {[ id := a ]}) as ->.
  { apply map_eq. intros k. apply option_eq. intros b.
    rewrite map_lookup_filter_Some, lookup_singleton_Some. cbn. split.
    - intros [Hb Hh]. destruct (decide (k = id)) as [->|Hne].
      + split; [reflexivity|congruence].
      + destruct (Hothers k b Hb Hne Hh).
    - intros [<- <-]. split; assumption. }
  rewrite map_to_list_singleton. reflexivity.
Qed.

Lemma agents_where_hash_member (db : Store) (x : string) (a : Agent) :
  In a (agents_where_hash db x) ->
  exists id, agents db !! id = Some a /\ api_key_hash a = x.
Proof.
  unfold agents_where_hash. intros H. apply in_map_iff in H as ([k b] & <- & Hin).
  apply list_elem_of_In, elem_of_map_to_list, map_lookup_filter_Some in Hin as [Hb Hh].
  exists k. split; assumption.
Qed.

Lemma key_present (key : string) :
  starts_with Settings.API_KEY_PREFIX key = true -> key_missing (Some key) = false.
Proof. intros H. cbn. destruct key; [discriminate H|reflexivity]. Qed.

Lemma create_api_key_prefix (random_part : string) :
  starts_with Settings.API_KEY_PREFIX (create_api_key random_part) = true.
Proof.
  unfold create_api_key. apply starts_with_app. reflexivity.
Qed.

(** X21.  What authentication guarantees.  When [get_current_agent] returns an
    agent, the key was present and began with the prefix, the agent is a
    row of the table whose stored hash is the hash of the key, it is
    neither banned nor suspended (a pending agent passes), and the only
    change to the database is its [last_active_at], set to the time of the
    request; [get_optional_agent] answers the same request with the same
    agent.  When it raises, the status is 401, 403 or 500 and the
    database is as it was. *)
Theorem get_current_agent_sound (hash_api_key : string -> string)
    (db : Store) (api_key : option string) (now : Z) :
  (forall db' a',
     get_current_agent hash_api_key db api_key now = (db', Return a') ->
     exists key id a,
       api_key = Some key
       /\ starts_with Settings.API_KEY_PREFIX key = true
       /\ agents db !! id = Some a
       /\ api_key_hash a = hash_api_key key
       /\ (status a = AGENT_ACTIVE \/ status a = AGENT_PENDING)
       /\ a' = set_last_active_at a now
       /\ db' = with_agents db (<[agent_id a := a']> (agents db))
       /\ get_optional_agent hash_api_key db api_key now = (db', Return (Some a')))
  /\ (forall db' e,
     get_current_agent hash_api_key db api_key now = (db', Raise e) ->
     db' = db /\ (status_code e = 401 \/ status_code e = 403 \/ status_code e = 500)).
Proof.
  unfold get_current_agent, get_optional_agent. split.
  - intros db' a'. destruct api_key as [key|]; [|discriminate].
    destruct (key_missing (Some key)) eqn:Hk; [discriminate|].
    change (default "" (Some key)) with key.
    destruct (starts_with Settings.API_KEY_PREFIX key) eqn:Hp; [|discriminate].
    cbn [negb orb].
    destruct (agents_where_hash db (hash_api_key key)) as [|a [|b rest]] eqn:Hq;
      cbn [scalar_one_or_none]; try discriminate.
    destruct (agent_status_eqb (status a) AGENT_BANNED) eqn:Hb; [discriminate|].
    destruct (agent_status_eqb (status a) AGENT_SUSPENDED) eqn:Hs; [discriminate|].
    cbn [touch]. intros H. inversion H; subst.
    destruct (agents_where_hash_member db (hash_api_key key) a) as (id & Hin & Hh);
      [rewrite Hq; left; reflexivity|].
    exists key, id, a. repeat (split; [first [reflexivity|assumption]|]).
    split; [|repeat split].
    destruct (status a); cbn in Hb, Hs; try discriminate; auto.
  - intros db' e.
    destruct (key_missing api_key); [intros H; inversion H; subst; cbn; auto|].
    destruct (negb (starts_with Settings.API_KEY_PREFIX (default "" api_key)));
      [intros H; inversion H; subst; cbn; auto|].
    destruct (agents_where_hash db (hash_api_key (default "" api_key)))
      as [|a [|b rest]]; cbn [scalar_one_or_none unexpected];
      try (intros H; inversion H; subst; cbn; auto; fail).
    destruct (agent_status_eqb (status a) AGENT_BANNED);
      [intros H; inversion H; subst; cbn; auto|].
    destruct (agent_status_eqb (status a) AGENT_SUSPENDED);
      [intros H; inversion H; subst; cbn; auto|].
    cbn [touch]. discriminate.
Qed.



End KeyFacts.

Module RotationFacts.

Import Text Db Http Auth ApiKeys Routers Samples KeyFacts.

(** X23.  Regenerating the key.  For an agent that signs in with [old_key],
    [regenerate_api_key] with a new key of [create_api_key] whose hash is
    not in use returns the new key and changes nothing but the agent's
    stored hash.  From then on the old key is refused with 401 and the new
    key signs the same agent in. *)
Theorem regenerate_api_key_rotates (hash_api_key : string -> string)
    (db : Store) (current_agent old_key random_part : string) (me : Agent) (later : Z) :
  let new_key := create_api_key random_part in
  let me' := set_api_key_hash me (hash_api_key new_key) in
  let db' := with_agents db (<[current_agent := me']> (agents db)) in
  unique_key_hashes db ->
  agents db !! current_agent = Some me ->
  agent_id me = current_agent ->
  api_key_hash me = hash_api_key old_key ->
  starts_with Settings.API_KEY_PREFIX old_key = true ->
  status me = AGENT_ACTIVE \/ status me = AGENT_PENDING ->
  agents_where_hash db (hash_api_key new_key) = [] ->
  regenerate_api_key hash_api_key db current_agent new_key = (db', Return new_key)
  /\ get_current_agent hash_api_key db' (Some old_key) later
     = (db', Raise (mkHTTPException 401 "Invalid API key."))
  /\ get_current_agent hash_api_key db' (Some new_key) later
     = (with_agents db' (<[current_agent := set_last_active_at me' later]> (agents db')),
        Return (set_last_active_at me' later))
  /\ credits me' = credits me /\ status me' = status me /\ agent_id me' = agent_id me.
Proof.
  intros new_key me' db' Huniq Hme Hid Hold Hpre Hst Hfresh.
  pose proof (proj1 (agents_where_hash_nil db _) Hfresh) as Hnone.
  split; [|split; [|split]].
  - unfold regenerate_api_key. rewrite Hme, Hid. reflexivity.
  - unfold get_current_agent. rewrite (key_present _ Hpre).
    change (default "" (Some old_key)) with old_key. rewrite Hpre. cbn [negb].
    assert (agents_where_hash db' (hash_api_key old_key) = []) as ->; [|reflexivity].
    apply agents_where_hash_nil. intros k b Hb Hh. subst db'. cbn in Hb.
    destruct (decide (k = current_agent)) as [->|Hne].
    + rewrite lookup_insert_eq in Hb. inversion Hb; subst b. cbn in Hh.
      apply (Hnone _ _ Hme). congruence.
    + rewrite lookup_insert_ne in Hb by congruence.
      pose proof (map_Forall_lookup_1 _ _ _ _ Huniq Hb) as Hrow. cbn in Hrow.
      pose proof (map_Forall_lookup_1 _ _ _ _ Hrow Hme) as Hsame. cbn in Hsame.
      apply Hne, Hsame. congruence.
  - unfold get_current_agent. subst new_key.
    rewrite (key_present _ (create_api_key_prefix random_part)).
    change (default "" (Some (create_api_key random_part))) with (create_api_key random_part).
    rewrite create_api_key_prefix. cbn [negb].
    rewrite (agents_where_hash_single db' _ current_agent me').
    + cbn [scalar_one_or_none]. subst me'. cbn [status set_api_key_hash].
      destruct Hst as [-> | ->]; cbn; rewrite Hid; reflexivity.
    + subst db'. cbn. apply lookup_insert_eq.
    + reflexivity.
    + intros k b Hb Hk. subst db'. cbn in Hb. rewrite lookup_insert_ne in Hb by congruence.
      exact (Hnone k b Hb).
  - repeat split.
Qed.

Lemma regenerate_api_key_rotates_witness :
  get_current_agent sample_hash
    (with_agents store0
       (<["alice" := set_api_key_hash alice (sample_hash (create_api_key "k2"))]>
          (agents store0)))
    (Some "aam_alice") 5
  = (with_agents store0
       (<["alice" := set_api_key_hash alice (sample_hash (create_api_key "k2"))]>
          (agents store0)),
     Raise (mkHTTPException 401 "Invalid API key.")).
Proof.
  apply (regenerate_api_key_rotates sample_hash store0 "alice" "aam_alice" "k2" alice 5).
  - exact AuthFacts.store0_unique_key_hashes.
  - reflexivity.
  - reflexivity.
  - reflexivity.
  - reflexivity.
  - left. reflexivity.
  - vm_compute. reflexivity.
Defined.

End RotationFacts.
Module FulfilmentFacts.

Import Text Db Http Routers Fulfilment Samples Scenarios PurchaseFacts.

Lemma eqb_self (s : string) : String.eqb s s = true.
Proof. apply String.eqb_refl. Qed.

(** A row that passes [ListingResponse] still passes it with another
    quantity of at least 1 and another status. *)
Lemma valid_ListingResponse_restock (l : Listing) (q : Z) (s : ListingStatus) :
  valid_ListingResponse l = true -> 1 <= q ->
  valid_ListingResponse (set_quantity_status l q s) = true.
Proof.
  unfold valid_ListingResponse. cbv zeta.
  cbn [title description price min_price buy_now_price quantity set_quantity_status].
  intros H Hq. apply andb_true_iff in H as [H _]. rewrite H. apply Z.leb_le, Hq.
Qed.

(** The delivery of a pending transaction by its seller: what is
    committed, and what is answered. *)
Lemma deliver_transaction_run (db : Store) (seller txid : string)
    (delivery_data : TransactionDelivery) (now : Z) (me : Agent) (tx : Transaction) :
  valid_TransactionDelivery delivery_data = true ->
  agents db !! seller = Some me -> agent_id me = seller ->
  transactions db !! txid = Some tx -> transaction_id tx = txid ->
  tx_seller_id tx = seller ->
  tx_status tx = TX_PENDING ->
  deliver_transaction db seller txid delivery_data now
  = (mkStore
       (<[seller := set_total_sales (set_credits me (credits me + net_amount tx)%float)
                      (total_sales me + 1)]> (agents db))
       (categories db) (listings db)
       (<[txid := delivered tx (delivery_seller_notes delivery_data) now]> (transactions db))
       (ratings db),
     if transaction_response_ok db tx
     then Return (delivered tx (delivery_seller_notes delivery_data) now)
     else unexpected).
Proof.
  intros Hvalid Hme Hid Htx Htid Hseller Hpending.
  unfold deliver_transaction. rewrite Hvalid, Hme, Htx, Hseller, Hid, eqb_self, Hpending.
  cbn [negb transaction_status_eqb]. rewrite Htid. reflexivity.
Qed.

(** X24.  Delivery pays the seller once.  When the seller delivers a pending
    transaction, the transaction becomes [completed] at the time of the
    request and keeps its amounts, the seller is credited the net amount
    and counts one more sale, and nothing else in the database changes.
    The request is answered with the completed transaction when the
    listing it embeds passes [ListingResponse] (or is gone), and with
    HTTP 500 otherwise, the payment being committed all the same.  A
    second delivery of the same transaction is refused and pays nothing;
    an agent that is not the seller is refused with 403. *)
Theorem deliver_transaction_pays_once (db : Store) (seller txid : string)
    (delivery_data : TransactionDelivery) (now : Z) (me : Agent) (tx : Transaction) :
  let me' :=
    set_total_sales (set_credits me (credits me + net_amount tx)%float)
                    (total_sales me + 1) in
  let tx' := delivered tx (delivery_seller_notes delivery_data) now in
  let db' :=
    mkStore (<[seller := me']> (agents db)) (categories db) (listings db)
            (<[txid := tx']> (transactions db)) (ratings db) in
  valid_TransactionDelivery delivery_data = true ->
  agents db !! seller = Some me -> agent_id me = seller ->
  transactions db !! txid = Some tx -> transaction_id tx = txid ->
  tx_seller_id tx = seller ->
  tx_status tx = TX_PENDING ->
  fst (deliver_transaction db seller txid delivery_data now) = db'
  /\ (transaction_response_ok db tx = true ->
      snd (deliver_transaction db seller txid delivery_data now) = Return tx')
  /\ (transaction_response_ok db tx = false ->
      snd (deliver_transaction db seller txid delivery_data now)
      = Raise (mkHTTPException 500 "An unexpected error occurred"))
  /\ tx_status tx' = TX_COMPLETED
  /\ completed_at tx' = Some now
  /\ net_amount tx' = net_amount tx
  /\ total_amount tx' = total_amount tx
  /\ buyer_id tx' = buyer_id tx
  /\ credits me' = (credits me + net_amount tx)%float
  /\ total_sales me' = total_sales me + 1
  /\ (forall delivery2 now2, exists e,
       deliver_transaction db' seller txid delivery2 now2 = (db', Raise e)
       /\ (status_code e = 400 \/ status_code e = 422))
  /\ (forall other him, agents db !! other = Some him -> agent_id him <> seller ->
       deliver_transaction db other txid delivery_data now
       = (db, Raise (mkHTTPException 403 "Only the seller can deliver this transaction"))).
Proof.
  intros me' tx' db' Hvalid Hme Hid Htx Htid Hseller Hpending.
  pose proof (deliver_transaction_run db seller txid delivery_data now me tx
                Hvalid Hme Hid Htx Htid Hseller Hpending) as Hrun.
  split; [rewrite Hrun; reflexivity|].
  split; [intros Hok; rewrite Hrun, Hok; reflexivity|].
  split; [intros Hok; rewrite Hrun, Hok; reflexivity|].
  repeat (split; [reflexivity|]). split.
  - intros delivery2 now2. unfold deliver_transaction.
    destruct (valid_TransactionDelivery delivery2); cbn [negb];
      [|eexists; split; [reflexivity|right; reflexivity]].
    subst db'. cbn [agents transactions]. rewrite !lookup_insert_eq.
    subst tx' me'. cbn [tx_seller_id delivered agent_id set_total_sales set_credits tx_status].
    rewrite Hseller, Hid, eqb_self. cbn.
    eexists; split; [reflexivity|left; reflexivity].
  - intros other him Hhim Hne. unfold deliver_transaction.
    rewrite Hvalid, Hhim, Htx, Hseller. cbn [negb].
    assert (String.eqb seller (agent_id him) = false) as ->
      by (apply String.eqb_neq; congruence).
    reflexivity.
Qed.

(** Alice delivers [t8] (one of three units of [l2], net 2.44): the
    answer is the completed transaction and she holds 102.44.  Alice
    delivers [t9] (the last unit of [l1], net 9.75): she is paid, holds
    109.75, and the answer is HTTP 500, the listing having quantity 0. *)
Lemma deliver_transaction_pays_once_witness :
  fst (deliver_transaction store_bought_one "alice" "t8" handover 500)
  = mkStore
      (<["alice" := set_total_sales (set_credits alice (credits alice + 2.44)%float)
                      (total_sales alice + 1)]> (agents store_bought_one))
      (categories store_bought_one) (listings store_bought_one)
      (<["t8" := delivered
                   (mkTransaction "t8" "l2" "bob" "alice" 1 2.5 2.5 0.06 2.44 TX_PENDING
                                  None None None)
                   (delivery_seller_notes handover) 500]> (transactions store_bought_one))
      (ratings store_bought_one)
  /\ is_return (snd (deliver_transaction store_bought_one "alice" "t8" handover 500)) = true
  /\ (credits <$> agents (fst (deliver_transaction store_bought_one "alice" "t8" handover 500))
                 !! "alice") = Some 102.44%float
  /\ snd (deliver_transaction store_bought "alice" "t9" handover 500)
     = Raise (mkHTTPException 500 "An unexpected error occurred")
  /\ (credits <$> agents (fst (deliver_transaction store_bought "alice" "t9" handover 500))
                 !! "alice") = Some 109.75%float.
Proof.
  split; [|repeat split; vm_compute; reflexivity].
  apply (deliver_transaction_pays_once store_bought_one "alice" "t8" handover 500 alice
           (mkTransaction "t8" "l2" "bob" "alice" 1 2.5 2.5 0.06 2.44 TX_PENDING
                          None None None));
    vm_compute; reflexivity.
Defined.

(** X25.  From purchase to payout.  For a listing that passes
    [ListingResponse] and a purchase that leaves at least one unit, both
    requests are answered.  The buyer pays the whole total when buying;
    the seller's balance is untouched until the seller delivers, and is
    then raised by the net amount only, so the fee computed by
    [calculate_transaction_fee] at 2.5 percent is credited to no agent:
    no other agent's row changes in either step. *)
Theorem purchase_then_deliver (db : Store) (buyer seller : string)
    (purchase_data : TransactionCreate) (new_id : string)
    (delivery_data : TransactionDelivery) (now : Z)
    (b s : Agent) (l : Listing) :
  let total := (price l * PyFloat.of_int (purchase_quantity purchase_data))%float in
  let net := snd (Helpers.calculate_transaction_fee total Settings.TRANSACTION_FEE_PERCENT) in
  let db1 := fst (create_purchase db buyer purchase_data new_id) in
  let db2 := fst (deliver_transaction db1 seller new_id delivery_data now) in
  valid_TransactionCreate purchase_data = true ->
  valid_TransactionDelivery delivery_data = true ->
  agents db !! buyer = Some b -> agent_id b = buyer ->
  agents db !! seller = Some s -> agent_id s = seller ->
  buyer <> seller ->
  listings db !! purchase_listing_id purchase_data = Some l ->
  seller_id l = seller ->
  listing_status l = LISTING_ACTIVE ->
  valid_ListingResponse l = true ->
  purchase_quantity purchase_data < quantity l ->
  PyFloat.lt (credits b) total = false ->
  transactions db !! new_id = None ->
  is_return (snd (create_purchase db buyer purchase_data new_id)) = true
  /\ is_return (snd (deliver_transaction db1 seller new_id delivery_data now)) = true
  /\ agents db1 !! seller = Some s
  /\ agents db1 !! buyer
     = Some (set_total_purchases (set_credits b (credits b - total)%float)
                                 (total_purchases b + 1))
  /\ agents db2 !! buyer = agents db1 !! buyer
  /\ agents db2 !! seller
     = Some (set_total_sales (set_credits s (credits s + net)%float) (total_sales s + 1))
  /\ (forall k, k <> buyer -> k <> seller -> agents db2 !! k = agents db !! k)
  /\ (tx_status <$> transactions db1 !! new_id) = Some TX_PENDING
  /\ (tx_status <$> transactions db2 !! new_id) = Some TX_COMPLETED.
Proof.
  intros total net db1 db2 Hvp Hvd Hb Hbid Hs Hsid Hne Hl Hseller Hact Hresp Hq Hfunds Hnew.
  pose proof (create_purchase_run db buyer purchase_data new_id b l Hvp Hb Hbid Hl Hact
                ltac:(congruence) ltac:(lia) Hfunds Hnew) as Hbuy.
  cbv zeta in Hbuy. fold total in Hbuy. fold net in Hbuy.
  assert ((quantity l - purchase_quantity purchase_data =? 0) = false) as Hnz
    by (apply Z.eqb_neq; lia).
  rewrite Hnz, Hseller in Hbuy.
  rewrite (valid_ListingResponse_restock l _ _ Hresp) in Hbuy by lia.
  subst db2 db1. rewrite Hbuy. cbn [fst snd is_return].
  match goal with
  | |- context [deliver_transaction ?d seller new_id delivery_data now] =>
      pose proof (deliver_transaction_run d seller new_id delivery_data now s
                    (mkTransaction new_id (listing_id l) buyer seller
                       (purchase_quantity purchase_data) (price l) total
                       (fst (Helpers.calculate_transaction_fee total
                               Settings.TRANSACTION_FEE_PERCENT))
                       net TX_PENDING (purchase_buyer_notes purchase_data) None None)
                    Hvd) as Hdel
  end.
  rewrite Hdel; try reflexivity; try assumption;
    [|cbn [agents]; rewrite lookup_insert_ne by congruence; exact Hs
     |cbn [transactions]; apply lookup_insert_eq].
  assert (Hok : forall x y z w,
             transaction_response_ok
               (mkStore x y
                  (<[listing_id l :=
                       set_quantity_status l (quantity l - purchase_quantity purchase_data)
                         (listing_status l)]> (listings db)) z w)
               (mkTransaction new_id (listing_id l) buyer seller
                  (purchase_quantity purchase_data) (price l) total
                  (fst (Helpers.calculate_transaction_fee total
                          Settings.TRANSACTION_FEE_PERCENT))
                  net TX_PENDING (purchase_buyer_notes purchase_data) None None) = true).
  { intros. unfold transaction_response_ok. cbn [listings tx_listing_id].
    rewrite lookup_insert_eq. apply valid_ListingResponse_restock; [exact Hresp|lia]. }
  rewrite Hok. cbn [fst snd is_return agents transactions net_amount].
  split; [reflexivity|]. split; [reflexivity|].
  split; [rewrite lookup_insert_ne by congruence; exact Hs|].
  split; [apply lookup_insert_eq|].
  split; [rewrite lookup_insert_ne by congruence; reflexivity|].
  split; [rewrite lookup_insert_eq; reflexivity|].
  split; [intros k Hk1 Hk2; rewrite !lookup_insert_ne by congruence; reflexivity|].
  rewrite !lookup_insert_eq. split; reflexivity.
Qed.

Lemma purchase_then_deliver_witness :
  agents (fst (deliver_transaction (fst (create_purchase store0 "bob" purchase1 "t8"))
                 "alice" "t8" handover 500)) !! "alice"
  = Some (set_total_sales
            (set_credits alice
               (credits alice
                + snd (Helpers.calculate_transaction_fee
                         (2.5 * PyFloat.of_int 1) Settings.TRANSACTION_FEE_PERCENT))%float)
            (total_sales alice + 1))
  /\ snd (Helpers.calculate_transaction_fee (2.5 * PyFloat.of_int 1)
            Settings.TRANSACTION_FEE_PERCENT) = 2.44%float.
Proof.
  split; [|vm_compute; reflexivity].
  apply (purchase_then_deliver store0 "bob" "alice" purchase1 "t8" handover 500
           bob alice (sample_listing "l2" "alice" 2.5 3)).
  - reflexivity.
  - reflexivity.
  - reflexivity.
  - reflexivity.
  - reflexivity.
  - reflexivity.
  - discriminate.
  - reflexivity.
  - reflexivity.
  - reflexivity.
  - vm_compute. reflexivity.
  - vm_compute. reflexivity.
  - vm_compute. reflexivity.
  - reflexivity.
Defined.

(** X26.  Disputes.  The buyer or the seller can dispute a pending or a
    completed transaction, which becomes [disputed]; the reason is added
    on a new line after the notes that party already had; the other
    party's notes, every other column of the transaction (unit price,
    quantity, total, fee and net amounts, completion time) and every
    balance stay as they were (a dispute refunds and claws back
    nothing).  A disputed transaction can be neither
    delivered nor disputed again, and an agent that is not a party is
    refused with 403. *)
Theorem dispute_transaction_effects (db : Store) (current_agent txid reason : string)
    (me : Agent) (tx : Transaction) :
  let dispute_note := ("DISPUTED by " +:+ current_agent +:+ ": " +:+ reason)%string in
  let db' := fst (dispute_transaction db current_agent txid reason) in
  agents db !! current_agent = Some me -> agent_id me = current_agent ->
  transactions db !! txid = Some tx -> transaction_id tx = txid ->
  buyer_id tx = current_agent \/ tx_seller_id tx = current_agent ->
  tx_status tx = TX_PENDING \/ tx_status tx = TX_COMPLETED ->
  snd (dispute_transaction db current_agent txid reason) = Return txid
  /\ agents db' = agents db
  /\ (forall k, k <> txid -> transactions db' !! k = transactions db !! k)
  /\ (exists tx',
      transactions db' !! txid = Some tx'
      /\ tx_status tx' = TX_DISPUTED
      /\ tx' = disputed tx (buyer_notes tx') (seller_notes tx')
      /\ unit_price tx' = unit_price tx
      /\ tx_quantity tx' = tx_quantity tx
      /\ total_amount tx' = total_amount tx
      /\ fee_amount tx' = fee_amount tx
      /\ net_amount tx' = net_amount tx
      /\ completed_at tx' = completed_at tx
      /\ (buyer_id tx = current_agent ->
          buyer_notes tx'
          = Some (default "" (buyer_notes tx) +:+ String (ascii_of_N 10) dispute_note)
          /\ seller_notes tx' = seller_notes tx)
      /\ (buyer_id tx <> current_agent ->
          seller_notes tx'
          = Some (default "" (seller_notes tx) +:+ String (ascii_of_N 10) dispute_note)
          /\ buyer_notes tx' = buyer_notes tx))
  /\ (forall who reason2, exists e,
       dispute_transaction db' who txid reason2 = (db', Raise e))
  /\ (forall who delivery_data now, exists e,
       deliver_transaction db' who txid delivery_data now = (db', Raise e))
  /\ (forall other him, agents db !! other = Some him ->
       agent_id him <> buyer_id tx -> agent_id him <> tx_seller_id tx ->
       dispute_transaction db other txid reason
       = (db, Raise (mkHTTPException 403 "Not authorized to dispute this transaction"))).
Proof.
  intros dispute_note db' Hme Hid Htx Htid Hparty Hst.
  assert (Hrun : exists tx',
             dispute_transaction db current_agent txid reason
             = (with_transactions db (<[txid := tx']> (transactions db)), Return txid)
             /\ tx_status tx' = TX_DISPUTED
             /\ tx' = disputed tx (buyer_notes tx') (seller_notes tx')
             /\ (buyer_id tx = current_agent ->
                 buyer_notes tx'
                 = Some (default "" (buyer_notes tx) +:+ String (ascii_of_N 10) dispute_note)
                 /\ seller_notes tx' = seller_notes tx)
             /\ (buyer_id tx <> current_agent ->
                 seller_notes tx'
                 = Some (default "" (seller_notes tx) +:+ String (ascii_of_N 10) dispute_note)
                 /\ buyer_notes tx' = buyer_notes tx)).
  { unfold dispute_transaction. rewrite Hme, Htx, Hid, Htid.
    assert (negb (String.eqb (buyer_id tx) current_agent)
            && negb (String.eqb (tx_seller_id tx) current_agent) = false) as ->.
    { destruct Hparty as [-> | ->]; rewrite eqb_self; cbn; [reflexivity|apply andb_false_r]. }
    assert (negb (transaction_status_eqb (tx_status tx) TX_PENDING
                  || transaction_status_eqb (tx_status tx) TX_COMPLETED) = false) as ->
      by (destruct Hst as [-> | ->]; reflexivity).
    destruct (String.eqb (buyer_id tx) current_agent) eqn:E.
    - apply String.eqb_eq in E. eexists. split; [reflexivity|].
      split; [reflexivity|]. split; [reflexivity|]. split; [|congruence].
      intros _. split; reflexivity.
    - apply String.eqb_neq in E. eexists. split; [reflexivity|].
      split; [reflexivity|]. split; [reflexivity|]. split; [congruence|].
      intros _. split; reflexivity. }
  destruct Hrun as (tx' & Hrun & Hd & Hframe & Hb & Hs).
  subst db'. rewrite Hrun. cbn [fst snd].
  split; [reflexivity|]. split; [reflexivity|].
  split; [intros k Hk; cbn; apply lookup_insert_ne; congruence|].
  split.
  { exists tx'. split; [cbn; apply lookup_insert_eq|]. split; [exact Hd|].
    split; [exact Hframe|].
    repeat (split; [rewrite Hframe; reflexivity|]). split; assumption. }
  split; [|split].
  - intros who reason2. unfold dispute_transaction. cbn [agents transactions with_transactions].
    rewrite lookup_insert_eq, Hd.
    destruct (agents db !! who); [|eexists; reflexivity].
    destruct (_ && _); eexists; reflexivity.
  - intros who delivery_data now. unfold deliver_transaction.
    cbn [agents transactions with_transactions]. rewrite lookup_insert_eq, Hd.
    destruct (negb (valid_TransactionDelivery delivery_data)); [eexists; reflexivity|].
    destruct (agents db !! who); [|eexists; reflexivity].
    destruct (negb _); eexists; reflexivity.
  - intros other him Hhim Hnb Hns. unfold dispute_transaction. rewrite Hhim, Htx.
    assert (String.eqb (buyer_id tx) (agent_id him) = false) as ->
      by (apply String.eqb_neq; congruence).
    assert (String.eqb (tx_seller_id tx) (agent_id him) = false) as ->
      by (apply String.eqb_neq; congruence).
    reflexivity.
Qed.

Lemma dispute_transaction_effects_witness :
  snd (dispute_transaction store0 "bob" "t1" "item never arrived") = Return "t1".
Proof.
  apply (dispute_transaction_effects store0 "bob" "t1" "item never arrived" bob
           (completed_tx "t1" "bob" "alice")).
  - reflexivity.
  - reflexivity.
  - reflexivity.
  - reflexivity.
  - left. reflexivity.
  - right. reflexivity.
Defined.

End FulfilmentFacts.

Module AccessFacts.

Import Text Db Http Routers ListingAccess Samples Scenarios Notions LedgerFacts.

(** A query that found nothing finds exactly the row that is then
    inserted under a fresh key, when that row matches. *)
Lemma query_after_insert {A} (P : string * A -> Prop) `{!forall x, Decision (P x)}
    (m : gmap string A) (k : string) (v : A) :
  map_to_list (filter P m) = [] -> P (k, v) ->
  map_to_list (filter P (<[k := v]> m)) = [(k, v)].
Proof.
  intros Hnone Hp. apply map_to_list_empty_iff in Hnone.
  rewrite map_filter_insert_True by exact Hp. rewrite Hnone, insert_empty.
  apply map_to_list_singleton.
Qed.

Lemma scalar_none {A} (rows : list A) : scalar_one_or_none rows = Return None -> rows = [].
Proof. destruct rows as [|a [|b rest]]; cbn; [reflexivity|discriminate|discriminate]. Qed.

(** X27.  One rating per rater and transaction.  After a rating has been
    created, the same agent's next rating of the same transaction is
    refused, whatever its score, and changes nothing; the rating that was
    created is stored under the rater's id and the transaction's id. *)
Theorem create_rating_only_once (db : Store) (current_agent : string)
    (rating_data : RatingCreate) (new_id : string) (db' : Store) (rating : Rating) :
  keyed db ->
  create_rating db current_agent rating_data new_id = (db', Return rating) ->
  ratings db' !! new_id = Some rating
  /\ rater_id rating = current_agent
  /\ rating_transaction_id rating = rc_transaction_id rating_data
  /\ rating_score rating = rc_score rating_data
  /\ forall rating_data2 id2,
      rc_transaction_id rating_data2 = rc_transaction_id rating_data ->
      exists e,
        create_rating db' current_agent rating_data2 id2 = (db', Raise e)
        /\ (status_code e = 400 \/ status_code e = 422).
Proof.
  intros Hk H. unfold create_rating in H.
  destruct (negb (valid_RatingCreate rating_data)); [discriminate|].
  destruct (agents db !! current_agent) as [me|] eqn:Hme; [|discriminate].
  pose proof (keyed_agent db _ _ Hk Hme) as Hid.
  destruct (transactions db !! rc_transaction_id rating_data) as [tx|] eqn:Htx; [|discriminate].
  destruct (negb (String.eqb (buyer_id tx) (agent_id me))
            && negb (String.eqb (tx_seller_id tx) (agent_id me))) eqn:Hparty; [discriminate|].
  destruct (negb (transaction_status_eqb (tx_status tx) TX_COMPLETED)) eqn:Hst; [discriminate|].
  destruct (scalar_one_or_none (ratings_where db (rc_transaction_id rating_data) (agent_id me)))
    as [[prev|]|] eqn:Hq; try discriminate.
  destruct (ratings db !! new_id) eqn:Hnew; [discriminate|].
  destruct (agents db !! (if String.eqb (agent_id me) (buyer_id tx)
                          then tx_seller_id tx else buyer_id tx))
    as [ratee_row|] eqn:Hratee; [|discriminate].
  pose proof (keyed_agent db _ _ Hk Hratee) as Hrid.
  injection H as <- <-.
  cbn [ratings rater_id rating_transaction_id rating_score].
  split; [apply lookup_insert_eq|]. split; [exact Hid|]. split; [reflexivity|].
  split; [reflexivity|].
  intros rating_data2 id2 Hsame. unfold create_rating.
  destruct (negb (valid_RatingCreate rating_data2));
    [eexists; split; [reflexivity|right; reflexivity]|].
  cbn [agents transactions ratings]. rewrite Hsame, Htx.
  assert (exists me2, <[agent_id ratee_row := fold_score ratee_row (rc_score rating_data)]>
                        (agents db) !! current_agent = Some me2
                      /\ agent_id me2 = agent_id me) as (me2 & -> & Hid2).
  { destruct (decide (current_agent = agent_id ratee_row)) as [E|E].
    - rewrite E, lookup_insert_eq. eexists. split; [reflexivity|]. cbn. congruence.
    - rewrite lookup_insert_ne by congruence. eauto. }
  rewrite Hid2, Hparty, Hst.
  assert (ratings_where
            (mkStore (<[agent_id ratee_row := fold_score ratee_row (rc_score rating_data)]>
                        (agents db))
                     (categories db) (listings db) (transactions db)
                     (<[new_id :=
                          mkRating new_id (rc_transaction_id rating_data) (agent_id me)
                            (if String.eqb (agent_id me) (buyer_id tx)
                             then tx_seller_id tx else buyer_id tx)
                            (rc_score rating_data) (rc_review rating_data)
                            (rc_communication_score rating_data)
                            (rc_accuracy_score rating_data)
                            (rc_speed_score rating_data)]> (ratings db)))
            (rc_transaction_id rating_data) (agent_id me)
          = [mkRating new_id (rc_transaction_id rating_data) (agent_id me)
               (if String.eqb (agent_id me) (buyer_id tx)
                then tx_seller_id tx else buyer_id tx)
               (rc_score rating_data) (rc_review rating_data)
               (rc_communication_score rating_data)
               (rc_accuracy_score rating_data)
               (rc_speed_score rating_data)]) as ->.
  { unfold ratings_where in *. cbn [ratings].
    apply scalar_none, fmap_nil_inv in Hq.
    rewrite (query_after_insert _ _ _ _ Hq); [reflexivity|]. cbn. split; reflexivity. }
  cbn [scalar_one_or_none]. eexists; split; [reflexivity|left; reflexivity].
Qed.

Lemma create_rating_only_once_witness :
  exists e,
    create_rating store1 "bob" (rate "t1" 1) "r9" = (store1, Raise e)
    /\ (status_code e = 400 \/ status_code e = 422).
Proof.
  apply (create_rating_only_once store0 "bob" (rate "t1" 5) "r1" store1
           (mkRating "r1" "t1" "bob" "alice" 5 None None None None)).
  - exact store0_keyed.
  - vm_compute. reflexivity.
  - reflexivity.
Defined.





(** X29.  Cancelling a listing takes it off the market and keeps the row.
    When its seller deletes a listing that is not sold, the listing stays
    in the table with status [cancelled] and all its other columns; from
    then on nobody can buy it, nobody can add it to a watchlist, and
    everyone but the seller is told that it is not found; the seller's
    own request is answered with the cancelled listing when the row
    passes [ListingResponse], and with HTTP 500 otherwise.  An agent that
    is not the seller is refused with 403. *)
Theorem delete_listing_cancels (db : Store) (seller lid : string) (me : Agent) (l : Listing) :
  let l' := set_quantity_status l (quantity l) LISTING_CANCELLED in
  let db' := with_listings db (<[lid := l']> (listings db)) in
  agents db !! seller = Some me -> agent_id me = seller ->
  listings db !! lid = Some l -> listing_id l = lid ->
  seller_id l = seller ->
  listing_status l <> LISTING_SOLD ->
  delete_listing db seller lid = (db', Return true)
  /\ price l' = price l /\ quantity l' = quantity l /\ seller_id l' = seller
  /\ (forall buyer purchase_data new_id,
       purchase_listing_id purchase_data = lid ->
       exists e, create_purchase db' buyer purchase_data new_id = (db', Raise e))
  /\ (forall watchlist who watchlist_data new_id,
       exists e, add_to_watchlist db' watchlist who lid watchlist_data new_id
                 = (watchlist, Raise e))
  /\ (forall viewer, not_the_seller viewer l = true ->
       get_listing db' lid viewer = (db', Raise (mkHTTPException 404 "Listing not found")))
  /\ get_listing db' lid (Some me)
     = (db', if valid_ListingResponse l then Return l'
             else Raise (mkHTTPException 500 "An unexpected error occurred"))
  /\ (forall other him, agents db !! other = Some him -> agent_id him <> seller ->
       delete_listing db other lid
       = (db, Raise (mkHTTPException 403 "Not authorized to delete this listing"))).
Proof.
  intros l' db' Hme Hid Hl Hlid Hseller Hsold.
  assert (Hl' : listings db' !! lid = Some l') by (subst db'; cbn; apply lookup_insert_eq).
  split.
  { unfold delete_listing. rewrite Hme, Hl, Hseller, Hid, String.eqb_refl, Hlid. cbn [negb].
    destruct (listing_status l); try reflexivity. contradiction. }
  repeat (split; [first [reflexivity|assumption]|]).
  split; [|split; [|split; [|split]]].
  - intros buyer p new_id Hp. unfold create_purchase.
    destruct (negb (valid_TransactionCreate p)); [eexists; reflexivity|].
    destruct (agents db' !! buyer); [|eexists; reflexivity].
    rewrite Hp, Hl'. eexists; reflexivity.
  - intros watchlist who wd new_id. unfold add_to_watchlist.
    destruct (agents db' !! who); [|eexists; reflexivity].
    rewrite Hl'. eexists; reflexivity.
  - intros viewer Hv. unfold get_listing. rewrite Hl'.
    assert (not_the_seller viewer l' = true) as -> by (destruct viewer; exact Hv).
    reflexivity.
  - unfold get_listing. rewrite Hl'. cbn [not_the_seller seller_id set_quantity_status l'].
    subst l'. cbn [seller_id set_quantity_status]. rewrite Hseller, Hid, String.eqb_refl.
    cbn [negb andb].
    change (valid_ListingResponse (set_quantity_status l (quantity l) LISTING_CANCELLED))
      with (valid_ListingResponse l).
    destruct (valid_ListingResponse l); reflexivity.
  - intros other him Hhim Hne. unfold delete_listing. rewrite Hhim, Hl, Hseller.
    assert (String.eqb seller (agent_id him) = false) as ->
      by (apply String.eqb_neq; congruence).
    reflexivity.
Qed.

Lemma delete_listing_cancels_witness :
  delete_listing store0 "alice" "l2"
  = (with_listings store0
       (<["l2" := set_quantity_status (sample_listing "l2" "alice" 2.5 3) 3 LISTING_CANCELLED]>
          (listings store0)),
     Return true).
Proof.
  apply (delete_listing_cancels store0 "alice" "l2" alice (sample_listing "l2" "alice" 2.5 3));
    try reflexivity.
  discriminate.
Defined.

(** X30.  Watching and unwatching.  After a listing has been added to an
    agent's watchlist, adding it again is refused with 400, and removing
    it succeeds and gives back the watchlist as it was before; removing a
    listing that is not watched is refused with 404. *)
Theorem watchlist_round_trip (db : Store) (watchlist : gmap string WatchlistItem)
    (current_agent lid : string) (watchlist_data : WatchlistCreate) (new_id : string)
    (watchlist' : gmap string WatchlistItem) (item : WatchlistItem) :
  keyed db ->
  add_to_watchlist db watchlist current_agent lid watchlist_data new_id
  = (watchlist', Return item) ->
  watch_agent_id item = current_agent
  /\ watch_listing_id item = lid
  /\ watchlist' !! new_id = Some item
  /\ (forall watchlist_data2 id2,
       add_to_watchlist db watchlist' current_agent lid watchlist_data2 id2
       = (watchlist', Raise (mkHTTPException 400 "Already watching this listing")))
  /\ remove_from_watchlist db watchlist' current_agent lid = (watchlist, Return true)
  /\ remove_from_watchlist db watchlist current_agent lid
     = (watchlist, Raise (mkHTTPException 404 "Not watching this listing")).
Proof.
  intros Hk H. unfold add_to_watchlist in H.
  destruct (agents db !! current_agent) as [me|] eqn:Hme; [|discriminate].
  pose proof (keyed_agent db _ _ Hk Hme) as Hid.
  destruct (listings db !! lid) as [l|] eqn:Hl; [|discriminate].
  destruct (negb (listing_status_eqb (listing_status l) LISTING_ACTIVE)) eqn:Hact;
    [discriminate|].
  destruct (String.eqb (seller_id l) (agent_id me)) eqn:Hown; [discriminate|].
  destruct (scalar_one_or_none (watch_where watchlist (agent_id me) lid)) as [[prev|]|] eqn:Hq;
    try discriminate.
  destruct (watchlist !! new_id) eqn:Hnew; [discriminate|].
  injection H as <- <-.
  apply scalar_none in Hq.
  assert (Hq' : watch_where
                  (<[new_id := mkWatchlistItem new_id (agent_id me) lid
                                 (wc_notify_price_drop watchlist_data)
                                 (wc_notify_ending_soon watchlist_data)]> watchlist)
                  (agent_id me) lid
                = [mkWatchlistItem new_id (agent_id me) lid
                     (wc_notify_price_drop watchlist_data)
                     (wc_notify_ending_soon watchlist_data)]).
  { unfold watch_where in *. apply fmap_nil_inv in Hq.
    rewrite (query_after_insert _ _ _ _ Hq); [reflexivity|]. cbn. split; reflexivity. }
  cbn [watch_agent_id watch_listing_id].
  split; [exact Hid|]. split; [reflexivity|]. split; [apply lookup_insert_eq|].
  split; [|split].
  - intros wd2 id2. unfold add_to_watchlist. rewrite Hme, Hl, Hact, Hown, Hq'. reflexivity.
  - unfold remove_from_watchlist. rewrite Hme, Hq'. cbn [scalar_one_or_none watch_id].
    rewrite delete_insert_id by exact Hnew. reflexivity.
  - unfold remove_from_watchlist. rewrite Hme, Hq. reflexivity.
Qed.

Lemma watchlist_round_trip_witness :
  remove_from_watchlist store0
    (<["w1" := mkWatchlistItem "w1" "erin" "l2" true false]> ∅) "erin" "l2"
  = (∅, Return true).
Proof.
  apply (watchlist_round_trip store0 ∅ "erin" "l2" watch0 "w1"
           (<["w1" := mkWatchlistItem "w1" "erin" "l2" true false]> ∅)
           (mkWatchlistItem "w1" "erin" "l2" true false)).
  - exact store0_keyed.
  - vm_compute. reflexivity.
Defined.

End AccessFacts.
